(** * maill_street_stories: the artifact inventory and the stock trading commands

  A shallow embedding of
  - [src/Artifact/artifact_data.py]  (module [ArtifactData]),
  - [src/Artifact/artifactCore.py]   (module [ArtifactCore]),
  - [src/plugin.py], the coin store and the buy/sell commands (module [Plugin]),
  followed by the properties of the specification that concern them.

  Conventions of the embedding.
  - Python [int] is [Z].  A price is an [int] or a binary64 [float], and the
    total price of a trade is computed on the kernel's IEEE-754 binary64
    numbers (module [Binary64]) as CPython computes it.  The float
    constants of the yield, the fee and the weight update are read as the
    exact rationals they denote ([Q]): [0.1] is 1/10, [0.05] is 1/20, [0.01]
    is 1/100; [Binary64] re-runs these expressions on floats and compares
    them with the rational reading.
  - A Python [dict] whose iteration order is observed (the artifact store
    scanned by the eviction loop) is an association list in insertion order;
    a dict only looked up by key (the ledgers, the JSON documents) is a [gmap].
  - [random] is an oracle: every function that draws takes the numbers the
    generator puts out as an argument; the lottery brings them into range
    with [randint].
  - Logging ([logCore.log_write], [logger]) and message delivery
    ([send_text]) have no effect on the state and are left out; the text of a
    returned message is a constructor of a message type. *)

From Stdlib Require Import ZArith QArith Qround Qabs List Lia Floats Uint63.
From stdpp Require Import gmap strings list.

Set Warnings "-inexact-float".
Local Open Scope Z_scope.

(** ** Python numerics *)
Module Py.

(** [round(x)] with one argument: the nearest integer, a tie going to the
    even neighbour. *)
Definition round (x : Q) : Z :=
  let f := Qfloor x in
  match Qcompare (x - inject_Z f) (1 # 2) with
  | Lt => f
  | Gt => f + 1
  | Eq => if Z.even f then f else f + 1
  end.

(** [math.ceil(x)]. *)
Definition ceil (x : Q) : Z := Qceiling x.

(** [int(x)] of a float: truncation toward zero. *)
Definition int (x : Q) : Z :=
  if Qle_bool 0 x then Qfloor x else Qceiling x.

(** [abs(x)]. *)
Definition abs (x : Q) : Q := Qabs x.

End Py.

(** ** Insertion-ordered dictionaries with integer keys *)
Module PyDict.
Section Dict.
Context {V : Type}.

Definition dict := list (Z * V).

(** [d.get(k)] *)
Fixpoint dict_get (k : Z) (d : dict) : option V :=
  match d with
  | [] => None
  | (k', v) :: d' => if Z.eqb k k' then Some v else dict_get k d'
  end.

(** [k in d] *)
Definition dict_mem (k : Z) (d : dict) : bool :=
  match dict_get k d with Some _ => true | None => false end.

(** [d[k] = v]: an existing key keeps its position, a new key goes last. *)
Fixpoint dict_set (k : Z) (v : V) (d : dict) : dict :=
  match d with
  | [] => [(k, v)]
  | (k', v') :: d' =>
      if Z.eqb k k' then (k, v) :: d' else (k', v') :: dict_set k v d'
  end.

(** [del d[k]] (the callers test [k in d] first). *)
Fixpoint dict_del (k : Z) (d : dict) : dict :=
  match d with
  | [] => []
  | (k', v') :: d' =>
      if Z.eqb k k' then d' else (k', v') :: dict_del k d'
  end.

(** [d.keys()] *)
Definition dict_keys (d : dict) : list Z := map fst d.

(** [len(d)] *)
Definition dict_len (d : dict) : Z := Z.of_nat (length d).

(** The representation invariant of a dictionary: no key occurs twice. *)
Definition dict_wf (d : dict) : Prop := NoDup (dict_keys d).

End Dict.
Arguments dict : clear implicits.
End PyDict.
Export PyDict.

(** ** artifact_data.py *)
Module ArtifactData.

(** [class Artifact] *)
Record Artifact := mkArtifact {
  artifact_id : Z;
  name : string;
  description : string;
  level : Z;
  base_yield : Z;
  yield_multiplier : Q;
  rarity : string;
  sub_stats : list (string * Z);
  is_locked : bool
}.

(** [Artifact.__init__(artifact_id, name, description="", rarity="普通")] *)
Definition Artifact_init (artifact_id : Z) (name description rarity : string)
  : Artifact :=
  {| artifact_id := artifact_id; name := name; description := description;
     level := 1; base_yield := 1; yield_multiplier := 1; rarity := rarity;
     sub_stats := []; is_locked := false |}.

Definition default_description : string := "".
Definition default_rarity : string := "普通".

Definition set_level (l : Z) (a : Artifact) : Artifact :=
  {| artifact_id := artifact_id a; name := name a;
     description := description a; level := l; base_yield := base_yield a;
     yield_multiplier := yield_multiplier a; rarity := rarity a;
     sub_stats := sub_stats a; is_locked := is_locked a |}.

Definition set_is_locked (b : bool) (a : Artifact) : Artifact :=
  {| artifact_id := artifact_id a; name := name a;
     description := description a; level := level a;
     base_yield := base_yield a; yield_multiplier := yield_multiplier a;
     rarity := rarity a; sub_stats := sub_stats a; is_locked := b |}.

(** One value of the per-user JSON document: every field but [name] is read
    with [.get] and may be absent. *)
Record ArtifactInfo := mkInfo {
  info_name : string;
  info_description : option string;
  info_level : option Z;
  info_base_yield : option Z;
  info_yield_multiplier : option Q;
  info_rarity : option string;
  info_sub_stats : option (list (string * Z));
  info_is_locked : option bool;
  info_locked : option bool
}.

(** What [open]/[json.load] find at the user's path; the keys of a parsed
    document are given as [int(artifact_id)] reads them. *)
Inductive ArtifactFile :=
| FileMissing
| FileCorrupt
| FileParsed (data : list (Z * ArtifactInfo)).

(** The body of the loop of [load_artifact_data]. *)
Definition load_artifact (artifact_id : Z) (artifact_info : ArtifactInfo)
  : Artifact :=
  {| artifact_id := artifact_id;
     name := info_name artifact_info;
     description := default default_description (info_description artifact_info);
     level := default 1 (info_level artifact_info);
     base_yield := default 0 (info_base_yield artifact_info);
     yield_multiplier := default 1%Q (info_yield_multiplier artifact_info);
     rarity := default default_rarity (info_rarity artifact_info);
     sub_stats := default [] (info_sub_stats artifact_info);
     is_locked :=
       default (default false (info_locked artifact_info))
               (info_is_locked artifact_info) |}.

(** [load_artifact_data]: the new value of the global [artifact_data]. *)
Definition load_artifact_data (file : ArtifactFile) (artifact_data : dict Artifact)
  : dict Artifact :=
  match file with
  | FileMissing => []
  | FileCorrupt => artifact_data
  | FileParsed data =>
      fold_left (fun acc kv => dict_set (fst kv) (load_artifact (fst kv) (snd kv)) acc)
                data []
  end.

(** [add_new_artifact] *)
Definition add_new_artifact (artifact : Artifact) (artifact_data : dict Artifact)
  : dict Artifact :=
  dict_set (artifact_id artifact) artifact artifact_data.

(** [get_artifact_by_id] *)
Definition get_artifact_by_id (artifact_id : Z) (artifact_data : dict Artifact)
  : option Artifact :=
  dict_get artifact_id artifact_data.

(** [update_artifact] *)
Definition update_artifact (artifact : Artifact) (artifact_data : dict Artifact)
  : dict Artifact * bool :=
  if dict_mem (artifact_id artifact) artifact_data
  then (dict_set (artifact_id artifact) artifact artifact_data, true)
  else (artifact_data, false).

(** [delete_artifact] *)
Definition delete_artifact (artifact_id : Z) (artifact_data : dict Artifact)
  : dict Artifact * bool :=
  if dict_mem artifact_id artifact_data
  then (dict_del artifact_id artifact_data, true)
  else (artifact_data, false).

(** [is_artifact_storage_full] *)
Definition is_artifact_storage_full (artifact_data : dict Artifact) : bool :=
  Z.leb 20 (dict_len artifact_data).

(** [lock_artifact] *)
Definition lock_artifact (artifact_id : Z) (artifact_data : dict Artifact)
  : dict Artifact * bool :=
  match dict_get artifact_id artifact_data with
  | Some artifact =>
      (dict_set artifact_id (set_is_locked true artifact) artifact_data, true)
  | None => (artifact_data, false)
  end.

(** [unlock_artifact] *)
Definition unlock_artifact (artifact_id : Z) (artifact_data : dict Artifact)
  : dict Artifact * bool :=
  match dict_get artifact_id artifact_data with
  | Some artifact =>
      (dict_set artifact_id (set_is_locked false artifact) artifact_data, true)
  | None => (artifact_data, false)
  end.

End ArtifactData.

(** ** core/user_data.py (not among the sources) *)
Module UserData.

(** Modelled from the spec: the user ledger of [core/user_data.py], which is
    missing from the sources.  The specification gives it as a mutable
    ledger reachable by user identifier that exposes a coin balance, an
    artifact-upgrade-item count and an artifact-reroll-item count, with the
    operations GetBalance, AdjustBalance(user, delta),
    AdjustUpgradeItems(user, delta) and AdjustRerollItems(user, delta),
    each atomic and visible to the next read. *)
Record User := mkUser {
  coins : Z;
  artifact_upgrade_items : Z;
  artifact_re_roll_items : Z
}.

(** Modelled from the spec: the ledger, keyed by user identifier. *)
Abbreviation Ledger := (gmap string User).

(** Modelled from the spec: the lookup behind GetBalance; [None] is the
    falsy result that [enhance_artifact] tests with [not user]. *)
Definition get_user_by_id (userId : string) (users : Ledger) : option User :=
  users !! userId.

(** Modelled from the spec: AdjustBalance(user, delta).  A user the ledger
    does not hold is left absent. *)
Definition update_user_coins (userId : string) (delta : Z) (users : Ledger)
  : Ledger :=
  alter (fun u => {| coins := coins u + delta;
                     artifact_upgrade_items := artifact_upgrade_items u;
                     artifact_re_roll_items := artifact_re_roll_items u |})
        userId users.

(** Modelled from the spec: AdjustUpgradeItems(user, delta). *)
Definition add_artifact_upgrade_items (userId : string) (delta : Z)
  (users : Ledger) : Ledger :=
  alter (fun u => {| coins := coins u;
                     artifact_upgrade_items := artifact_upgrade_items u + delta;
                     artifact_re_roll_items := artifact_re_roll_items u |})
        userId users.

(** Modelled from the spec: AdjustRerollItems(user, delta). *)
Definition add_artifact_re_roll_items (userId : string) (delta : Z)
  (users : Ledger) : Ledger :=
  alter (fun u => {| coins := coins u;
                     artifact_upgrade_items := artifact_upgrade_items u;
                     artifact_re_roll_items := artifact_re_roll_items u + delta |})
        userId users.

End UserData.

(** ** artifactCore.py *)
Module ArtifactCore.
Import ArtifactData UserData.

(** The two globals the functions of this file act on: the artifact store
    of the loaded user and the user ledger. *)
Record State := mkState {
  artifact_data : dict Artifact;
  users : Ledger
}.

Definition set_artifact_data (d : dict Artifact) (st : State) : State :=
  {| artifact_data := d; users := users st |}.

Definition set_users (u : Ledger) (st : State) : State :=
  {| artifact_data := artifact_data st; users := u |}.

(** The messages returned to the caller, by the text they carry. *)
Inductive Message :=
| MsgArtifactNotFound                  (* "圣遗物不存在" *)
| MsgArtifactLocked                    (* "圣遗物已锁定，无法分解" *)
| MsgDisassembled (artifact : Artifact) (reinforcement_items : Z)
| MsgDisassembleFailed                 (* "分解圣遗物失败" *)
| MsgNotEnoughCoinsToDraw              (* "金币不足，无法抽取圣遗物" *)
| MsgDrewArtifact (artifact : Artifact)
| MsgDrewReRollItem                    (* "你获得了一个熔火精华！" *)
| MsgDrewReinforcementItems (reinforcement_items : Z)
| MsgDrewCoins (reward_coins : Z)
| MsgNotEnoughItems (required_items reinforcement_items : Z)
| MsgNotEnoughCoins (required_coins coins : Z)
| MsgEnhanced (artifact : Artifact) (required_items required_coins : Z).

(** The table [rarity_to_items]. *)
Definition rarity_to_items : list (string * Z) :=
  [ ("⚪普通", 1); ("🌿罕见", 5); ("🔶稀有", 20); ("💎史诗", 50); ("👑传说", 100) ].

(** [table.get(key, dflt)] on a table of string keys. *)
Fixpoint table_get (key : string) (dflt : Z) (table : list (string * Z)) : Z :=
  match table with
  | [] => dflt
  | (k, v) :: rest => if String.eqb key k then v else table_get key dflt rest
  end.

(** [get_reinforcement_items_from_disassembly] *)
Definition get_reinforcement_items_from_disassembly (artifact : Artifact) : Z :=
  let base_items := table_get (rarity artifact) 0 rarity_to_items in
  let extra_items :=
    Py.int (inject_Z base_items * (1 # 10) * inject_Z (level artifact - 1)) in
  let total_items := base_items + extra_items in
  total_items.

(** [art.level < lowest_level], where [None] stands for [float('inf')]. *)
Definition below (l : Z) (lowest_level : option Z) : bool :=
  match lowest_level with
  | None => true
  | Some m => Z.ltb l m
  end.

(** One turn of the eviction loop on the pair
    [(lowest_level, lowest_level_artifact_id)]. *)
Definition scan_step (acc : option Z * option Z) (item : Z * Artifact)
  : option Z * option Z :=
  let '(art_id, art) := item in
  if negb (is_locked art) && below (level art) (fst acc)
  then (Some (level art), Some art_id)
  else acc.

(** The eviction loop: the value of [lowest_level_artifact_id] after it. *)
Definition lowest_level_artifact_id (d : dict Artifact) : option Z :=
  snd (fold_left scan_step d (None, None)).

(** The invariant of the eviction loop: what the pair it carries says about
    the entries seen so far. *)
Definition scan_inv (seen : dict Artifact) (acc : option Z * option Z) : Prop :=
match acc with
| (None, None) => forall k a, In (k, a) seen -> is_locked a = true
| (Some l, Some k) =>
    exists a, In (k, a) seen /\ is_locked a = false /\ level a = l /\
      forall k' a', In (k', a') seen -> is_locked a' = false -> l <= level a'
| _ => False
end.

(** [add_new_artifact_to_user] *)
Definition add_new_artifact_to_user (userId : string) (artifact : Artifact)
  (st : State) : State :=
  if is_artifact_storage_full (artifact_data st) then
    match lowest_level_artifact_id (artifact_data st) with
    | Some lowest =>
        let st1 := set_artifact_data (fst (delete_artifact lowest (artifact_data st))) st in
        set_artifact_data (add_new_artifact artifact (artifact_data st1)) st1
    | None =>
        let reinforcement_items := get_reinforcement_items_from_disassembly artifact in
        set_users (add_artifact_upgrade_items userId reinforcement_items (users st)) st
    end
  else set_artifact_data (add_new_artifact artifact (artifact_data st)) st.

(** [disassemble_artifact] *)
Definition disassemble_artifact (userId : string) (artifact_id : Z) (st : State)
  : State * (bool * Message) :=
  match get_artifact_by_id artifact_id (artifact_data st) with
  | None => (st, (false, MsgArtifactNotFound))
  | Some artifact =>
      if is_locked artifact then (st, (false, MsgArtifactLocked))
      else
        let reinforcement_items := get_reinforcement_items_from_disassembly artifact in
        let '(d, success) := delete_artifact artifact_id (artifact_data st) in
        if success then
          (set_users (add_artifact_upgrade_items userId reinforcement_items (users st))
                     (set_artifact_data d st),
           (true, MsgDisassembled artifact reinforcement_items))
        else (set_artifact_data d st, (false, MsgDisassembleFailed))
  end.

(** 名称词条: the first word of a name. *)
Definition prefix_words : list string :=
  [ "辉光的";
    "古老的";
    "神秘的";
    "闪耀的";
    "坚固的";
    "迅捷的";
    "强大的";
    "优雅的";
    "炽热的";
    "冰冷的";
    "苍穹的";
    "深渊的";
    "永恒的";
    "幻影的";
    "雷鸣的";
    "烈焰的";
    "冰霜的";
    "暗影的";
    "圣光的";
    "虚空的";
    "风暴降生的" ].

(** The second word of a name. *)
Definition middle_words : list string :=
  [ "木制";
    "铜制";
    "铁制";
    "铂金";
    "银制";
    "黄金";
    "水晶";
    "龙鳞";
    "魔法";
    "暗影";
    "光明";
    "元素";
    "风暴";
    "烈焰";
    "寒冰";
    "雷霆";
    "虚空" ].

(** The last word of a name. *)
Definition suffix_words : list string :=
  [ "盾";
    "剑";
    "法杖";
    "弓";
    "匕首";
    "长枪";
    "斧头";
    "锤子";
    "权杖";
    "护符";
    "戒指";
    "项链";
    "冠冕";
    "披风";
    "头盔" ].

(** The pool of description sentences.  Two adjacent literals of the source
    have no comma between them and make one entry, 35 in all. *)
Definition description_sentences : list string :=
  [ "这件圣遗物蕴含着强大的力量。";
    "据说，这件圣遗物曾属于一位伟大的英雄。";
    "据说，这件圣遗物能够带来好运。";
    "这件圣遗物散发出神秘的光芒。";
    "拥有这件圣遗物的人将获得无尽的力量。";
    "这件圣遗物是古代文明的遗产。";
    "据说，这件圣遗物能够驱散黑暗。";
    "这件圣遗物蕴含着自然的力量。";
    "据说，这件圣遗物能够治愈伤痛。";
    "这件圣遗物是勇气与荣耀的象征。";
    "这件圣遗物曾在大战中发挥关键作用。";
    "这件圣遗物能够预知未来。";
    "这件圣遗物与某个古老的传说息息相关。";
    "这件圣遗物拥有改变命运的力量。";
    "这件圣遗物是智慧与力量的结合体。";
    "这件圣遗物仿佛封印着远古的回响。";
    "相传，它曾在命运的转折点守护过一位智者。";
    "触摸这件圣遗物的人，能听见遥远时代的低语。";
    "它的表面流转着如星河般细碎的光纹。";
    "持有这件圣遗物之人，将与时空建立隐秘的联系。";
    "它是失落王国仅存的信物。";
    "传说在月夜之下，这件圣遗物能映照出真实的内心。";
    "这件圣遗物内部仿佛沉睡着山川的呼吸。";
    "有人说，它曾在战火中悄然愈合破碎的誓言。";
    "这件圣遗物象征着永恒与瞬息的交汇。";
    "它的存在仿佛在诉说着时间的秘密。这件圣遗物的深处，回荡着未被记载的誓言。";
    "它的存在本身，即是打破常理的一种证明。";
    "传说唯有纯净之心，方能唤醒其中沉睡的意志。";
    "它并非被铸造，而是在某个决定性的瞬间“凝结”而成。";
    "持有者将能窥见万物的丝线，却也背负起命运的重量。";
    "它是文明灰烬中，唯一未曾冷却的余烬。";
    "在至暗时刻，这件圣遗物会低吟出指引方向的歌谣。";
    "它的纹路并非装饰，而是封印某种洪流的古老符印。";
    "触摸它，便能短暂地共享千年守望者的孤寂与视线。";
    "它不带来力量，而是映照出你内心最深处的图景。" ].

(** What [random] hands to one call of [generate_random_artifact]:
    the positions picked by the three [random.choice], the three distinct
    positions picked by [random.sample], the rarity roll, and the successive
    values of [random.randint(1, 99999)] in the loop that looks for a free id. *)
Record GenRandom := mkGenRandom {
  rnd_prefix : nat;
  rnd_middle : nat;
  rnd_suffix : nat;
  rnd_sample : nat * nat * nat;
  rnd_rarity_roll : Z;
  rnd_ids : list Z
}.

(** [random.choice(words)] at the position drawn. *)
Definition choice (i : nat) (words : list string) : string :=
  nth i words EmptyString.

(** The cascade on [rarity_roll]. *)
Definition rarity_of_roll (rarity_roll : Z) : string :=
  if rarity_roll <=? 50 then "⚪普通"
  else if rarity_roll <=? 80 then "🌿罕见"
  else if rarity_roll <=? 95 then "🔶稀有"
  else if rarity_roll <=? 99 then "💎史诗"
  else "👑传说".

(** The [while True] loop over the drawn ids: the first one that is not a key
    of the store; [None] when every supplied draw was taken, the loop then
    still running. *)
Fixpoint free_artifact_id (ids : list Z) (d : dict Artifact) : option Z :=
  match ids with
  | [] => None
  | artifact_id :: rest =>
      if dict_mem artifact_id d then free_artifact_id rest d else Some artifact_id
  end.

(** [generate_random_artifact] *)
Definition generate_random_artifact (userId : string) (rnd : GenRandom) (st : State)
  : option (State * Artifact) :=
  let name :=
    (choice (rnd_prefix rnd) prefix_words ++ choice (rnd_middle rnd) middle_words
     ++ choice (rnd_suffix rnd) suffix_words)%string in
  let '(i, j, k) := rnd_sample rnd in
  let description :=
    (choice i description_sentences ++ " " ++ choice j description_sentences
     ++ " " ++ choice k description_sentences)%string in
  let rarity := rarity_of_roll (rnd_rarity_roll rnd) in
  match free_artifact_id (rnd_ids rnd) (artifact_data st) with
  | None => None
  | Some artifact_id =>
      let artifact := Artifact_init artifact_id name description rarity in
      Some (add_new_artifact_to_user userId artifact st, artifact)
  end.

(** [random.randint(a, b)]: an integer N with a <= N <= b.  The number the
    generator puts out, [raw], is brought into the range; a number already
    in the range is returned as it is, so each N of the range is returned
    for some output of the generator. *)
Definition randint (a b raw : Z) : Z := a + (raw - a) mod (b - a + 1).

(** What the generator puts out for the calls of [random.randint] in one
    call of [draw_artifact_lottery], and for the call of
    [generate_random_artifact] inside it. *)
Record DrawRandom := mkDrawRandom {
  rnd_roll : Z;                  (* for random.randint(1, 100) *)
  rnd_gen : GenRandom;
  rnd_reinforcement_items : Z;   (* for random.randint(1, 3)   *)
  rnd_reward_coins : Z           (* for random.randint(1, 120) *)
}.

Definition draw_cost : Z := 100.

(** The branches of [draw_artifact_lottery] below the debit. *)
Definition draw_outcome (userId : string) (rnd : DrawRandom) (st : State)
  : option (State * (bool * Message)) :=
  let roll := randint 1 100 (rnd_roll rnd) in
  if roll <=? 5 then
    match generate_random_artifact userId (rnd_gen rnd) st with
    | None => None
    | Some (st', artifact) => Some (st', (true, MsgDrewArtifact artifact))
    end
  else if roll <=? 15 then
    Some (set_users (add_artifact_re_roll_items userId 1 (users st)) st,
          (true, MsgDrewReRollItem))
  else if roll <=? 35 then
    let reinforcement_items := randint 1 3 (rnd_reinforcement_items rnd) in
    Some (set_users (add_artifact_upgrade_items userId reinforcement_items (users st)) st,
          (true, MsgDrewReinforcementItems reinforcement_items))
  else
    let reward_coins := randint 1 120 (rnd_reward_coins rnd) in
    Some (set_users (update_user_coins userId reward_coins (users st)) st,
          (true, MsgDrewCoins reward_coins)).

(** [draw_artifact_lottery] *)
Definition draw_artifact_lottery (userId : string) (user_coins : Z)
  (rnd : DrawRandom) (st : State) : option (State * (bool * Message)) :=
  if user_coins <? draw_cost then Some (st, (false, MsgNotEnoughCoinsToDraw))
  else
    let st1 := set_users (update_user_coins userId (- draw_cost) (users st)) st in
    draw_outcome userId rnd st1.

(** [lock_artifact] *)
Definition lock_artifact (userId : string) (artifact_id : Z) (st : State)
  : State * bool :=
  let '(d, success) := ArtifactData.lock_artifact artifact_id (artifact_data st) in
  (set_artifact_data d st, success).

(** [unlock_artifact] *)
Definition unlock_artifact (userId : string) (artifact_id : Z) (st : State)
  : State * bool :=
  let '(d, success) := ArtifactData.unlock_artifact artifact_id (artifact_data st) in
  (set_artifact_data d st, success).

(** [enhance_artifact].  The store holds the object that [artifact.level += 1]
    mutates, so the stored entry changes with it; [update_artifact] then
    writes the same object back under its id. *)
Definition enhance_artifact (userId : string) (artifact_id : Z)
  (reinforcement_items : Z) (st : State) : State * (bool * Message) :=
  match get_artifact_by_id artifact_id (artifact_data st) with
  | None => (st, (false, MsgArtifactNotFound))
  | Some artifact =>
      let required_items := 2 * level artifact in
      let required_coins := 100 * level artifact in
      if reinforcement_items <? required_items
      then (st, (false, MsgNotEnoughItems required_items reinforcement_items))
      else
        match get_user_by_id userId (users st) with
        | None => (st, (false, MsgNotEnoughCoins required_coins 0))
        | Some user =>
            if coins user <? required_coins
            then (st, (false, MsgNotEnoughCoins required_coins (coins user)))
            else
              let artifact' := set_level (level artifact + 1) artifact in
              let d1 := dict_set artifact_id artifact' (artifact_data st) in
              let users1 := add_artifact_upgrade_items userId (- required_items) (users st) in
              let users2 := update_user_coins userId (- required_coins) users1 in
              let d2 := fst (update_artifact artifact' d1) in
              ({| artifact_data := d2; users := users2 |},
               (true, MsgEnhanced artifact' required_items required_coins))
        end
  end.

End ArtifactCore.

(** ** The float expressions of the source on IEEE-754 binary64

  The float expressions of the source, evaluated on the kernel's binary64
  floats the way CPython evaluates them.  The total price of a trade is
  computed with them; the others are compared with the rational reading on
  ranges of inputs. *)
Module Binary64.

(** An [int] operand converted to [float]; exact below 2^53 in magnitude. *)
Definition of_int (z : Z) : float :=
  if z <? 0 then PrimFloat.opp (PrimFloat.of_uint63 (Uint63.of_Z (- z)))
  else PrimFloat.of_uint63 (Uint63.of_Z z).

(** A finite float as sign, integer part and whether a fraction is left. *)
Definition parts (f : float) : bool * Z * Z * Z :=
  match Prim2SF f with
  | S754_finite s m e =>
      if 0 <=? e then (s, Z.pos m * 2 ^ e, 0, 1)
      else (s, Z.pos m / 2 ^ (- e), Z.pos m mod 2 ^ (- e), 2 ^ (- e))
  | _ => (false, 0, 0, 1)
  end.

(** [int(f)]: truncation toward zero. *)
Definition int (f : float) : Z :=
  let '(s, q, _, _) := parts f in if s then - q else q.

(** [math.ceil(f)] *)
Definition ceil (f : float) : Z :=
  let '(s, q, r, _) := parts f in
  if s then - q else if r =? 0 then q else q + 1.

(** [round(f)]: nearest, ties to even. *)
Definition round (f : float) : Z :=
  let '(s, q, r, d) := parts f in
  let n := match 2 * r ?= d with
           | Lt => q
           | Gt => q + 1
           | Eq => if Z.even q then q else q + 1
           end in
  if s then - n else n.

(** [float(z)] for an [int] of any size: the nearest float, ties to even;
    [None] where CPython raises OverflowError, the nearest float being
    infinite. *)
Definition float_of_int (z : Z) : option float :=
  match binary_normalize prec emax z 0 false with
  | S754_zero s => Some (SF2Prim (S754_zero s))
  | S754_finite s m e => Some (SF2Prim (S754_finite s m e))
  | _ => None
  end.

(** [round(f)] with its exceptions: [None] where CPython raises ValueError
    (a NaN) or OverflowError (an infinity). *)
Definition round_checked (f : float) : option Z :=
  match Prim2SF f with
  | S754_zero _ | S754_finite _ _ _ => Some (round f)
  | _ => None
  end.

(** [int(base_items * 0.1 * (artifact.level - 1))] *)
Definition extra_items (base_items level : Z) : Z :=
  int (PrimFloat.mul (PrimFloat.mul (of_int base_items) 0.1%float)
                     (of_int (level - 1))).

(** [math.ceil(total_price * 0.05)] *)
Definition raw_fee (total_price : Z) : Z :=
  ceil (PrimFloat.mul (of_int total_price) 0.05%float).

(** [max(1, int(round(10 * (1 + abs(cur_weight)))))] *)
Definition required_per_unit_of (cur_weight : float) : Z :=
  Z.max 1 (round (PrimFloat.mul 10%float
                    (PrimFloat.add 1%float (PrimFloat.abs cur_weight)))).

(** [cur_weight + sign * units] when at least one unit was traded. *)
Definition new_weight (sign : float) (quantity : Z) (cur_weight : float) : float :=
  let units := quantity / required_per_unit_of cur_weight in
  if 0 <? units
  then PrimFloat.add cur_weight (PrimFloat.mul sign (of_int units))
  else cur_weight.

(** The weight after a run of trades, each of the quantity listed. *)
Definition run_weight (sign : float) (quantities : list Z) (cur_weight : float)
  : float :=
  fold_left (fun w quantity => new_weight sign quantity w) quantities cur_weight.

End Binary64.

(** ** plugin.py: the coin store and the stock trading commands *)
Module Plugin.

(** One user's entry of [boom_data.json]; a key that is absent is [None].
    ([registered_at], the check-in date and the streak play no part here.) *)
Record UserEntry := mkUserEntry {
  gold : option Z;
  stocks : option (gmap string Z)
}.

(** A price as Python holds it: an [int] or a [float]. *)
Inductive Number :=
| PyInt (n : Z)
| PyFloat (x : float).

(** One symbol's entry of [stock_data.json], the file at [stock.DATA_FILE].
    The weight is read as the exact rational it denotes. *)
Record StockEntry := mkStockEntry {
  entry_name : string;
  entry_price : Number;
  entry_weight : option Q
}.

(** The object [stock.get_stock_info(symbol)] returns; the [stock] module
    is not among the sources, so the commands take its result as an
    argument ([None] for a falsy result). *)
Record StockInfo := mkStockInfo {
  name : string;
  price : Number
}.

(** The two JSON documents the commands read and write back. *)
Record State := mkState {
  data : gmap string UserEntry;
  stock_data : gmap string StockEntry
}.

Definition set_data (d : gmap string UserEntry) (st : State) : State :=
  {| data := d; stock_data := stock_data st |}.

Definition set_stock_data (s : gmap string StockEntry) (st : State) : State :=
  {| data := data st; stock_data := s |}.

(** The failure and success results of the two commands. *)
Inductive Message :=
| MsgBadQuantity            (* "购买数量错误！" / "卖出数量错误！" *)
| MsgNoSuchStock            (* "股票代码{symbol}不存在！" *)
| MsgNotEnoughGold          (* "金币不足以购买股票！" *)
| MsgBought                 (* "成功购买股票！" *)
| MsgNotHolding             (* "没有持有该股票，无法卖出！" *)
| MsgNotEnoughShares        (* "持有股票数量不足，无法卖出！" *)
| MsgFeeTooHigh             (* "手续费过高，无法卖出。" *)
| MsgSold                   (* "成功卖出股票！" *)
| Raised.                   (* no result: an exception leaves [execute] *)

(** [BoomDataManager.register_id]: the entry is replaced by a fresh one. *)
Definition register_id (uid : string) (d : gmap string UserEntry)
  : gmap string UserEntry :=
  <[uid := {| gold := Some 10; stocks := None |}]> d.

(** The two lines of [add_gold] (and of the sell command) that reset a
    missing balance to 0 and then add, never going below 0. *)
Definition credit (amount : Z) (e : UserEntry) : UserEntry :=
  let g := default 0 (gold e) in
  {| gold := Some (Z.max 0 (g + amount)); stocks := stocks e |}.

(** [BoomDataManager.add_gold] *)
Definition add_gold (uid : string) (amount : Z) (d : gmap string UserEntry)
  : gmap string UserEntry :=
  let d := match d !! uid with
           | None => register_id uid d
           | Some _ => d
           end in
  alter (credit amount) uid d.

(** [BoomDataManager.get_gold] *)
Definition get_gold (uid : string) (d : gmap string UserEntry) : Z :=
  match d !! uid with
  | Some e => default 0 (gold e)
  | None => 0
  end.

(** [total_price = int(round(stock_info.price * quantity))].  An [int]
    price gives the exact product.  A [float] price gives the binary64
    product of the price and [float(quantity)], rounded to the nearest
    integer, ties to even.  The result is [None] where CPython raises:
    OverflowError for a quantity too large for a float or for an infinite
    product, ValueError for a NaN. *)
Definition total_price_of (stock_info : StockInfo) (quantity : Z) : option Z :=
  match price stock_info with
  | PyInt p => Some (p * quantity)
  | PyFloat x =>
      match Binary64.float_of_int quantity with
      | Some q => Binary64.round_checked (PrimFloat.mul x q)
      | None => None
      end
  end.

(** [fee = math.ceil(total_price * 0.05)], raised to 1 when below. *)
Definition fee_of (total_price : Z) : Z :=
  let fee := Py.ceil (inject_Z total_price * (5 # 100)) in
  if fee <? 1 then 1 else fee.

(** [required_per_unit = max(1, int(round(10 * (1 + abs(cur_weight)))))] *)
Definition required_per_unit_of (cur_weight : Q) : Z :=
  Z.max 1 (Py.round (10 * (1 + Py.abs cur_weight))).

(** The weight update shared by both commands, [sign] being [-0.01] for a
    purchase and [0.01] for a sale.  The file is written only when at least
    one whole unit was traded.  The arithmetic is that of the rationals;
    [Binary64.new_weight] is the same update on binary64 floats. *)
Definition update_weight (sign : Q) (symbol : string) (stock_info : StockInfo)
  (quantity : Z) (sd : gmap string StockEntry) : gmap string StockEntry :=
  let sd1 := match sd !! symbol with
             | None => <[symbol := {| entry_name := name stock_info;
                                      entry_price := price stock_info;
                                      entry_weight := None |}]> sd
             | Some _ => sd
             end in
  let cur_weight := match sd1 !! symbol with
                    | Some e => default 0%Q (entry_weight e)
                    | None => 0%Q
                    end in
  let required_per_unit := required_per_unit_of cur_weight in
  let units := quantity / required_per_unit in
  if 0 <? units then
    let weight_add := (sign * inject_Z units)%Q in
    let new_weight := (cur_weight + weight_add)%Q in
    alter (fun e => {| entry_name := entry_name e; entry_price := entry_price e;
                       entry_weight := Some new_weight |}) symbol sd1
  else sd.

(** The weight a symbol carries, as the commands read it. *)
Definition weight_of (symbol : string) (sd : gmap string StockEntry) : Q :=
  match sd !! symbol with
  | Some e => default 0%Q (entry_weight e)
  | None => 0%Q
  end.

(** [data[uid]["stocks"][symbol] += quantity], the missing levels created. *)
Definition add_shares (uid symbol : string) (quantity : Z)
  (d : gmap string UserEntry) : gmap string UserEntry :=
  let e := default {| gold := None; stocks := None |} (d !! uid) in
  let held := default ∅ (stocks e) in
  let owned := default 0 (held !! symbol) in
  <[uid := {| gold := gold e;
              stocks := Some (<[symbol := owned + quantity]> held) |}]> d.

(** [BuyStockCommand.execute], from the parsed quantity on.  An exception
    in the computation of the total price leaves the command before
    anything is written. *)
Definition BuyStock_execute (uid symbol : string) (quantity : Z)
  (stock_info : option StockInfo) (st : State) : State * (bool * Message) :=
  if quantity <=? 0 then (st, (false, MsgBadQuantity))
  else
    match stock_info with
    | None => (st, (false, MsgNoSuchStock))
    | Some stock_info =>
        match total_price_of stock_info quantity with
        | None => (st, (false, Raised))
        | Some total_price =>
            let fee := fee_of total_price in
            let current_gold := get_gold uid (data st) in
            if current_gold <? total_price + fee then (st, (false, MsgNotEnoughGold))
            else
              let d1 := add_gold uid (- (total_price + fee)) (data st) in
              let d2 := add_shares uid symbol quantity d1 in
              let sd := update_weight (- (1 # 100)) symbol stock_info quantity (stock_data st) in
              ({| data := d2; stock_data := sd |}, (true, MsgBought))
        end
    end.

(** [SellStockCommand.execute], from the parsed quantity on.  The total
    price is computed after the holding was checked; an exception there
    leaves the command before anything is written. *)
Definition SellStock_execute (uid symbol : string) (quantity : Z)
  (stock_info : option StockInfo) (st : State) : State * (bool * Message) :=
  if quantity <=? 0 then (st, (false, MsgBadQuantity))
  else
    match stock_info with
    | None => (st, (false, MsgNoSuchStock))
    | Some stock_info =>
        match data st !! uid with
        | None => (st, (false, MsgNotHolding))
        | Some e =>
            match stocks e with
            | None => (st, (false, MsgNotHolding))
            | Some held =>
                match held !! symbol with
                | None => (st, (false, MsgNotHolding))
                | Some owned_quantity =>
                    if owned_quantity <? quantity
                    then (st, (false, MsgNotEnoughShares))
                    else
                      match total_price_of stock_info quantity with
                      | None => (st, (false, Raised))
                      | Some total_price =>
                          let fee := fee_of total_price in
                          if total_price <=? fee then (st, (false, MsgFeeTooHigh))
                          else
                            let net_gain := total_price - fee in
                            let e1 := credit net_gain e in
                            let left := owned_quantity - quantity in
                            let held1 := if left =? 0 then delete symbol held
                                         else <[symbol := left]> held in
                            let d1 := <[uid := {| gold := gold e1; stocks := Some held1 |}]> (data st) in
                            let sd := update_weight (1 # 100) symbol stock_info quantity (stock_data st) in
                            ({| data := d1; stock_data := sd |}, (true, MsgSold))
                      end
                end
            end
        end
    end.

(** A trade request, and a run of requests against one symbol table. *)
Inductive Trade :=
| Buy (uid symbol : string) (quantity : Z)
| Sell (uid symbol : string) (quantity : Z).

Definition execute (info : string -> option StockInfo) (t : Trade) (st : State)
  : State :=
  match t with
  | Buy uid symbol quantity =>
      fst (BuyStock_execute uid symbol quantity (info symbol) st)
  | Sell uid symbol quantity =>
      fst (SellStock_execute uid symbol quantity (info symbol) st)
  end.

Definition execute_all (info : string -> option StockInfo) (ts : list Trade)
  (st : State) : State :=
  fold_left (fun s t => execute info t s) ts st.

End Plugin.

(** ** Sample states, used to run the functions on concrete inputs *)
Module Samples.
Import ArtifactData UserData ArtifactCore.

(** A common artifact with the given id, level and lock flag. *)
Definition common (artifact_id lvl : Z) (locked : bool) : Artifact :=
{| artifact_id := artifact_id; name := "古老的铁制剑"; description := "";
   level := lvl; base_yield := 1; yield_multiplier := 1; rarity := "⚪普通";
   sub_stats := []; is_locked := locked |}.

(** Twenty levels; the lowest one, 1, is first met at the second entry. *)
Definition levels : list Z :=
[3; 1; 1; 2; 2; 2; 2; 2; 2; 2; 2; 2; 2; 2; 2; 2; 2; 2; 2; 2].

(** A store at capacity: ids 1 to 20 in insertion order. *)
Definition store_of (locked : bool) : dict Artifact :=
map (fun il => (fst il, common (fst il) (snd il) locked))
    (combine (seqZ 1 20) levels).

(** One user, "u", holding 150 coins and no items. *)
Definition ledger : Ledger := {[ "u" := mkUser 150 0 0 ]}.

Definition full_unlocked : State :=
{| artifact_data := store_of false; users := ledger |}.

Definition full_locked : State :=
{| artifact_data := store_of true; users := ledger |}.

Definition three_stored : State :=
{| artifact_data := [(1, common 1 3 false); (2, common 2 1 true); (3, common 3 2 false)];
   users := ledger |}.

(** A freshly generated rare artifact whose id, 21, is not in the stores above. *)
Definition drawn : Artifact := Artifact_init 21 "辉光的木制盾" "" "🔶稀有".

(** The oracle of a draw whose roll is [roll]. *)
Definition rnd_with (roll reinforcement_items reward_coins : Z) : DrawRandom :=
{| rnd_roll := roll;
   rnd_gen := {| rnd_prefix := 0; rnd_middle := 0; rnd_suffix := 0;
                 rnd_sample := (0, 1, 2)%nat; rnd_rarity_roll := 90;
                 rnd_ids := [3; 21] |};
   rnd_reinforcement_items := reinforcement_items;
   rnd_reward_coins := reward_coins |}.

(** A symbol table with one price for every symbol. *)
Definition info (symbol : string) : option Plugin.StockInfo :=
Some (Plugin.mkStockInfo "麦街股份" (Plugin.PyInt 10)).

(** A symbol quoted at the float 1.1. *)
Definition info_float : Plugin.StockInfo :=
Plugin.mkStockInfo "麦街股份" (Plugin.PyFloat 1.1).

(** A user "u" with [g] coins and no shares. *)
Definition with_gold (g : Z) : Plugin.State :=
{| Plugin.data := {[ "u" := Plugin.mkUserEntry (Some g) None ]};
   Plugin.stock_data := ∅ |}.

(** A trader "u" with 100000 coins and 1000 shares of "01"; no weight recorded. *)
Definition trader : Plugin.State :=
{| Plugin.data :=
     {[ "u" := Plugin.mkUserEntry (Some 100000) (Some {[ "01" := 1000 ]}) ]};
   Plugin.stock_data := ∅ |}.

End Samples.

(** ** artifact_data.py: writing the store back *)
Module ArtifactSave.
Import ArtifactData.

(** The JSON object [save_artifact_data] builds for one artifact: every
    field is written, the lock flag under both [is_locked] and the old key
    [locked]. *)
Definition save_artifact (artifact : Artifact) : ArtifactInfo :=
  {| info_name := name artifact;
     info_description := Some (description artifact);
     info_level := Some (level artifact);
     info_base_yield := Some (base_yield artifact);
     info_yield_multiplier := Some (yield_multiplier artifact);
     info_rarity := Some (rarity artifact);
     info_sub_stats := Some (sub_stats artifact);
     info_is_locked := Some (is_locked artifact);
     info_locked := Some (is_locked artifact) |}.

(** [save_artifact_data]: the document written to the user's file, read back
    as [json.load] returns it. *)
Definition save_artifact_data (artifact_data : dict Artifact) : ArtifactFile :=
  FileParsed
    (fold_left (fun data kv => dict_set (fst kv) (save_artifact (snd kv)) data)
               artifact_data []).

(** [get_user_artifacts]: load the user's file, then list the values. *)
Definition get_user_artifacts (file : ArtifactFile) (artifact_data : dict Artifact)
  : dict Artifact * list Artifact :=
  let d := load_artifact_data file artifact_data in
  (d, map snd d).

(** Every entry is stored under the id its artifact carries, as
    [add_new_artifact] and [load_artifact_data] store it. *)
Definition keyed_by_id (artifact_data : dict Artifact) : Prop :=
  forall k a, In (k, a) artifact_data -> artifact_id a = k.

End ArtifactSave.

(** ** artifactCore.py: runs of calls *)
Module ArtifactRuns.
Import ArtifactData UserData ArtifactCore.

(** [n] calls of [enhance_artifact] on the same artifact, each passing the
    same item count. *)
Fixpoint enhance_times (n : nat) (userId : string) (artifact_id : Z)
  (reinforcement_items : Z) (st : State) : State :=
  match n with
  | O => st
  | S n' =>
      enhance_times n' userId artifact_id reinforcement_items
        (fst (enhance_artifact userId artifact_id reinforcement_items st))
  end.

(** Which of the four outcomes a roll of the lottery selects. *)
Inductive Bucket := BArtifact | BReRoll | BReinforcement | BCoins.

(** The bucket of the message [draw_outcome] returns. *)
Definition bucket_of (res : option (State * (bool * Message))) : option Bucket :=
  match res with
  | Some (_, (_, MsgDrewArtifact _)) => Some BArtifact
  | Some (_, (_, MsgDrewReRollItem)) => Some BReRoll
  | Some (_, (_, MsgDrewReinforcementItems _)) => Some BReinforcement
  | Some (_, (_, MsgDrewCoins _)) => Some BCoins
  | _ => None
  end.

(** Whether a draw fell in bucket [b]. *)
Definition in_bucket (b : Bucket) (res : option (State * (bool * Message))) : bool :=
  match bucket_of res, b with
  | Some BArtifact, BArtifact | Some BReRoll, BReRoll
  | Some BReinforcement, BReinforcement | Some BCoins, BCoins => true
  | _, _ => false
  end.

(** The oracle [rnd] with its roll replaced. *)
Definition with_roll (roll : Z) (rnd : DrawRandom) : DrawRandom :=
  {| rnd_roll := roll; rnd_gen := rnd_gen rnd;
     rnd_reinforcement_items := rnd_reinforcement_items rnd;
     rnd_reward_coins := rnd_reward_coins rnd |}.

End ArtifactRuns.

(** ** plugin.py: the coin bomb and the daily check-in *)
Module PluginCommands.
Import Plugin.

(** [BoomDataManager.read_id]: [str(uid) in data]. *)
Definition read_id (uid : string) (d : gmap string UserEntry) : bool :=
  match d !! uid with Some _ => true | None => false end.

(** The results of the coin bomb. *)
Inductive BoomMessage :=
| MsgBadGold                               (* "金币数量错误！" *)
| MsgTooFewGold                            (* "金币数量不能少于5！" *)
| MsgFirstBoom                             (* "你是第一次使用金币炸弹，请使用签到进行注册。" *)
| MsgBoomNotEnough (current_gold gold : Z)
| MsgBoomed (gold new_gold : Z).

(** [BoomCommand.execute] from the matched text on.  [gold_str] is [None]
    when the text is not made of digits; [new_gold] is the value drawn by
    [random.randint(0, gold * 2)]. *)
Definition BoomCommand_execute (uid : string) (gold_str : option Z)
  (new_gold : Z) (d : gmap string UserEntry)
  : gmap string UserEntry * (bool * BoomMessage) :=
  match gold_str with
  | None => (d, (false, MsgBadGold))
  | Some gold =>
      if gold <=? 0 then (d, (false, MsgBadGold))
      else if gold <? 5 then (d, (false, MsgTooFewGold))
      else if negb (read_id uid d) then (register_id uid d, (false, MsgFirstBoom))
      else
        let current_gold := get_gold uid d in
        if current_gold <? gold
        then (d, (false, MsgBoomNotEnough current_gold gold))
        else
          let d1 := add_gold uid (- gold) d in
          let d2 := add_gold uid new_gold d1 in
          (d2, (true, MsgBoomed gold new_gold))
  end.

(** The keys [last_checkin] and [streak] of a user's entry of
    [boom_data.json], kept beside the entry; a date is the number of its day,
    so that yesterday is [today - 1]. *)
Record CheckinInfo := mkCheckinInfo {
  last_checkin : option Z;
  streak : option Z
}.

(** [boom_data.json] as the check-in reads and writes it: the entries, and
    for each user the two check-in keys of the entry. *)
Record DailyState := mkDailyState {
  entries : gmap string UserEntry;
  checkins : gmap string CheckinInfo
}.

(** The results of the check-in. *)
Inductive CheckInMessage :=
| MsgRegistered                            (* "你是第一次使用签到功能，已为你注册！" *)
| MsgAlreadyCheckedIn                      (* "你今天已经签到过了，明天再来吧！" *)
| MsgCheckedIn (streak reward_gold total_reward : Z).

(** [CheckInCommand.execute] once the user is identified.  [today] is the
    day [datetime.now()] gives, [reward_gold] the value drawn by
    [random.randint(0, 20)].  Registering replaces the whole entry, its
    check-in keys included. *)
Definition CheckInCommand_execute (uid : string) (today : Z) (reward_gold : Z)
  (st : DailyState) : DailyState * (bool * CheckInMessage) :=
  if negb (read_id uid (entries st)) then
    ({| entries := register_id uid (entries st);
        checkins := delete uid (checkins st) |}, (false, MsgRegistered))
  else
    let last := match checkins st !! uid with
                | Some c => last_checkin c
                | None => None
                end in
    if bool_decide (last = Some today) then (st, (false, MsgAlreadyCheckedIn))
    else
      let new_streak :=
        if bool_decide (last = Some (today - 1))
        then match checkins st !! uid with
             | Some c => default 0 (streak c)
             | None => 0
             end + 1
        else 1 in
      let total_reward := new_streak + reward_gold in
      ({| entries := alter (credit total_reward) uid (entries st);
          checkins := <[uid := {| last_checkin := Some today;
                                  streak := Some new_streak |}]> (checkins st) |},
       (true, MsgCheckedIn new_streak reward_gold total_reward)).

(** The holdings of a user, as the commands read them: nothing when the
    user, the [stocks] key or the symbol is missing. *)
Definition holding (uid symbol : string) (d : gmap string UserEntry) : option Z :=
  match d !! uid with
  | Some e => match stocks e with
              | Some held => held !! symbol
              | None => None
              end
  | None => None
  end.

(** Every share count on record is positive. *)
Definition holdings_positive (d : gmap string UserEntry) : Prop :=
  forall uid symbol n, holding uid symbol d = Some n -> 0 < n.

End PluginCommands.

(** * Properties *)

Import ArtifactData UserData ArtifactCore.

(** ** Dictionaries *)
Section DictFacts.
Context {V : Type}.
Implicit Types (d : dict V) (k : Z) (v : V).

Lemma dict_mem_get k d : dict_mem k d = true <-> exists v, dict_get k d = Some v.
Proof.
  unfold dict_mem. destruct (dict_get k d) as [v|]; split.
  - eauto.
  - reflexivity.
  - discriminate.
  - intros [v Hv]. discriminate.
Qed.

Lemma dict_mem_false k d : dict_mem k d = false <-> dict_get k d = None.
Proof. unfold dict_mem. destruct (dict_get k d); split; congruence. Qed.

Lemma dict_get_In k v d : dict_get k d = Some v -> In (k, v) d.
Proof.
  induction d as [|[k' v'] d IH]; simpl; [discriminate|].
  destruct (Z.eqb_spec k k') as [->|Hne].
  - intros [= ->]. now left.
  - intros H. right. auto.
Qed.

Lemma dict_In_mem k v d : In (k, v) d -> dict_mem k d = true.
Proof.
  unfold dict_mem.
  induction d as [|[k' v'] d IH]; simpl; [tauto|].
  intros [[= -> ->]|Hin].
  - now rewrite Z.eqb_refl.
  - destruct (Z.eqb k k'); [reflexivity|auto].
Qed.

Lemma dict_In_get k v d : dict_wf d -> In (k, v) d -> dict_get k d = Some v.
Proof.
  unfold dict_wf, dict_keys.
  induction d as [|[k' v'] d IH]; simpl; [tauto|].
  intros Hwf. apply NoDup_cons in Hwf as [Hk' Hwf].
  intros [[= -> ->]|Hin].
  - now rewrite Z.eqb_refl.
  - destruct (Z.eqb_spec k k') as [->|Hne]; [|auto].
    exfalso. apply Hk'. apply list_elem_of_In.
    change k' with (fst (k', v)). now apply in_map.
Qed.

Lemma dict_set_length_le k v d : (length (dict_set k v d) <= S (length d))%nat.
Proof.
  induction d as [|[k' v'] d IH]; simpl; [lia|].
  destruct (Z.eqb k k'); simpl; lia.
Qed.

Lemma dict_set_length_fresh k v d :
  dict_mem k d = false -> length (dict_set k v d) = S (length d).
Proof.
  unfold dict_mem.
  induction d as [|[k' v'] d IH]; simpl; [reflexivity|].
  destruct (Z.eqb k k'); [discriminate|].
  intros H. simpl. now rewrite IH.
Qed.

Lemma dict_del_length k d :
  dict_mem k d = true -> S (length (dict_del k d)) = length d.
Proof.
  unfold dict_mem.
  induction d as [|[k' v'] d IH]; simpl; [discriminate|].
  destruct (Z.eqb k k'); [reflexivity|].
  intros H. simpl. now rewrite IH.
Qed.

Lemma dict_get_set_eq k v d : dict_get k (dict_set k v d) = Some v.
Proof.
  induction d as [|[k' v'] d IH]; simpl.
  - now rewrite Z.eqb_refl.
  - destruct (Z.eqb_spec k k') as [->|Hne]; simpl.
    + now rewrite Z.eqb_refl.
    + destruct (Z.eqb_spec k k'); [contradiction|exact IH].
Qed.

Lemma dict_get_set_ne k k' v d :
  k <> k' -> dict_get k' (dict_set k v d) = dict_get k' d.
Proof.
  intros Hne.
  induction d as [|[k0 v0] d IH]; simpl.
  - destruct (Z.eqb_spec k' k); [congruence|reflexivity].
  - destruct (Z.eqb_spec k k0) as [->|Hk]; simpl.
    + destruct (Z.eqb_spec k' k0); [congruence|reflexivity].
    + destruct (Z.eqb k' k0); [reflexivity|exact IH].
Qed.

Lemma dict_get_del_ne k k' d :
  k <> k' -> dict_get k' (dict_del k d) = dict_get k' d.
Proof.
  intros Hne.
  induction d as [|[k0 v0] d IH]; simpl; [reflexivity|].
  destruct (Z.eqb_spec k k0) as [->|Hk]; simpl.
  - destruct (Z.eqb_spec k' k0); [congruence|reflexivity].
  - destruct (Z.eqb k' k0); [reflexivity|exact IH].
Qed.

Lemma dict_get_del_eq k d : dict_wf d -> dict_get k (dict_del k d) = None.
Proof.
  unfold dict_wf, dict_keys.
  induction d as [|[k0 v0] d IH]; simpl; [reflexivity|].
  intros Hwf. apply NoDup_cons in Hwf as [Hk0 Hwf].
  destruct (Z.eqb_spec k k0) as [->|Hk]; simpl.
  - destruct (dict_get k0 d) as [v|] eqn:Hget; [|reflexivity].
    exfalso. apply Hk0. apply list_elem_of_In.
    change k0 with (fst (k0, v)). apply in_map. now apply dict_get_In.
  - destruct (Z.eqb_spec k k0); [contradiction|auto].
Qed.

Lemma dict_keys_set_fresh k v d :
  dict_mem k d = false -> dict_keys (dict_set k v d) = dict_keys d ++ [k].
Proof.
  unfold dict_mem, dict_keys.
  induction d as [|[k' v'] d IH]; simpl; [reflexivity|].
  destruct (Z.eqb k k'); [discriminate|].
  intros H. simpl. now rewrite IH.
Qed.

Lemma dict_keys_set_mem k v d :
  dict_mem k d = true -> dict_keys (dict_set k v d) = dict_keys d.
Proof.
  unfold dict_mem, dict_keys.
  induction d as [|[k' v'] d IH]; simpl; [discriminate|].
  destruct (Z.eqb_spec k k') as [->|Hne]; [reflexivity|].
  intros H. simpl. now rewrite IH.
Qed.

(** Assignment and deletion keep the keys distinct. *)
Lemma dict_set_wf k v d : dict_wf d -> dict_wf (dict_set k v d).
Proof.
  unfold dict_wf. intros Hwf.
  destruct (dict_mem k d) eqn:Hmem.
  - now rewrite dict_keys_set_mem.
  - rewrite dict_keys_set_fresh by assumption.
    apply NoDup_app. split; [assumption|]. split.
    + intros x Hx Hx'. apply list_elem_of_singleton in Hx' as ->.
      apply list_elem_of_In, in_map_iff in Hx as [[k' v'] [Hk Hin]].
      simpl in Hk. subst k'. apply dict_In_mem in Hin. congruence.
    + apply NoDup_singleton.
Qed.

Lemma dict_del_wf k d : dict_wf d -> dict_wf (dict_del k d).
Proof.
  unfold dict_wf, dict_keys.
  induction d as [|[k' v'] d IH]; simpl; [auto|].
  intros Hwf. apply NoDup_cons in Hwf as [Hk' Hwf].
  destruct (Z.eqb_spec k k') as [->|Hne]; [assumption|].
  simpl. apply NoDup_cons. split; [|auto].
  intros Hin. apply Hk'.
  apply list_elem_of_In, in_map_iff in Hin as [[k0 v0] [Hk Hin]].
  simpl in Hk. subst k0.
  apply list_elem_of_In. change k' with (fst (k', v0)). apply in_map.
  clear -Hin. induction d as [|[k1 v1] d IHd]; simpl in *; [tauto|].
  destruct (Z.eqb k k1); [now right|].
  destruct Hin as [Heq|Hin]; [now left|right; auto].
Qed.

End DictFacts.

(** ** The eviction scan *)
Section Scan.

Lemma scan_step_inv seen acc item :
  scan_inv seen acc -> scan_inv (seen ++ [item]) (scan_step acc item).
Proof.
  destruct item as [k a], acc as [[l|] [k0|]]; simpl; try tauto.
  - intros (a0 & Hin & Hun & Hl & Hmin).
    destruct (is_locked a) eqn:Hlock; simpl.
    + exists a0. repeat split; auto.
      * apply in_or_app. now left.
      * intros k' a' Hin' Hun'. apply in_app_or in Hin' as [Hin'|[[= <- <-]|[]]]; eauto.
        congruence.
    + destruct (Z.ltb_spec (level a) l) as [Hlt|Hge]; simpl.
      * exists a. repeat split; auto.
        -- apply in_or_app. right. now left.
        -- intros k' a' Hin' Hun'.
           apply in_app_or in Hin' as [Hin'|[[= <- <-]|[]]]; [|lia].
           specialize (Hmin _ _ Hin' Hun'). lia.
      * exists a0. repeat split; auto.
        -- apply in_or_app. now left.
        -- intros k' a' Hin' Hun'.
           apply in_app_or in Hin' as [Hin'|[[= <- <-]|[]]]; eauto.
  - intros Hall.
    destruct (is_locked a) eqn:Hlock; simpl.
    + intros k' a' Hin'. apply in_app_or in Hin' as [Hin'|[[= <- <-]|[]]]; eauto.
    + exists a. repeat split; auto.
      * apply in_or_app. right. now left.
      * intros k' a' Hin' Hun'.
        apply in_app_or in Hin' as [Hin'|[[= <- <-]|[]]]; [|lia].
        apply Hall in Hin'. congruence.
Qed.

Lemma scan_fold_inv d : forall seen acc,
  scan_inv seen acc -> scan_inv (seen ++ d) (fold_left scan_step d acc).
Proof.
  induction d as [|item d IH]; intros seen acc Hinv; simpl.
  - now rewrite app_nil_r.
  - replace (seen ++ item :: d) with ((seen ++ [item]) ++ d)
      by (now rewrite <- app_assoc).
    apply IH. now apply scan_step_inv.
Qed.

(** The loop picks an unlocked entry whose level no unlocked entry is below. *)
Lemma lowest_level_artifact_id_Some d k :
  lowest_level_artifact_id d = Some k ->
  exists a, In (k, a) d /\ is_locked a = false /\
    forall k' a', In (k', a') d -> is_locked a' = false -> level a <= level a'.
Proof.
  unfold lowest_level_artifact_id. intros Hk.
  assert (Hinv : scan_inv ([] ++ d) (fold_left scan_step d (None, None))).
  { apply scan_fold_inv. simpl. tauto. }
  simpl in Hinv.
  destruct (fold_left scan_step d (None, None)) as [[l|] [k0|]];
    simpl in *; try tauto; try discriminate.
  injection Hk as ->.
  destruct Hinv as (a & Hin & Hun & Hl & Hmin). subst l. eauto.
Qed.

(** It picks nothing exactly when every entry is locked. *)
Lemma lowest_level_artifact_id_None d :
  lowest_level_artifact_id d = None <->
  forall k a, In (k, a) d -> is_locked a = true.
Proof.
  unfold lowest_level_artifact_id.
  assert (Hinv : scan_inv ([] ++ d) (fold_left scan_step d (None, None))).
  { apply scan_fold_inv. simpl. tauto. }
  simpl in Hinv.
  destruct (fold_left scan_step d (None, None)) as [[l|] [k0|]];
    simpl in *; try tauto.
  split; [discriminate|].
  intros Hall. destruct Hinv as (a & Hin & Hun & _).
  apply Hall in Hin. congruence.
Qed.

End Scan.

(** ** Adding an artifact *)
Section AddArtifact.
Implicit Types (st : State) (artifact a : Artifact) (userId : string).

Lemma lowest_level_artifact_id_mem d k :
  lowest_level_artifact_id d = Some k -> dict_mem k d = true.
Proof.
  intros Hk. apply lowest_level_artifact_id_Some in Hk as (a & Hin & _).
  eapply dict_In_mem, Hin.
Qed.

(** The three paths of [add_new_artifact_to_user], one equation each. *)
Lemma add_below_capacity userId artifact st :
  dict_len (artifact_data st) < 20 ->
  add_new_artifact_to_user userId artifact st =
  set_artifact_data (dict_set (artifact_id artifact) artifact (artifact_data st)) st.
Proof.
  intros Hlen. unfold add_new_artifact_to_user, is_artifact_storage_full.
  destruct (Z.leb_spec 20 (dict_len (artifact_data st))); [lia|reflexivity].
Qed.

Lemma add_evicting userId artifact st k :
  20 <= dict_len (artifact_data st) ->
  lowest_level_artifact_id (artifact_data st) = Some k ->
  add_new_artifact_to_user userId artifact st =
  set_artifact_data
    (dict_set (artifact_id artifact) artifact (dict_del k (artifact_data st))) st.
Proof.
  intros Hlen Hk. unfold add_new_artifact_to_user, is_artifact_storage_full.
  destruct (Z.leb_spec 20 (dict_len (artifact_data st))); [|lia].
  rewrite Hk. unfold delete_artifact.
  rewrite (lowest_level_artifact_id_mem _ _ Hk). reflexivity.
Qed.

Lemma add_all_locked userId artifact st :
  20 <= dict_len (artifact_data st) ->
  lowest_level_artifact_id (artifact_data st) = None ->
  add_new_artifact_to_user userId artifact st =
  set_users (add_artifact_upgrade_items userId
               (get_reinforcement_items_from_disassembly artifact) (users st)) st.
Proof.
  intros Hlen Hk. unfold add_new_artifact_to_user, is_artifact_storage_full.
  destruct (Z.leb_spec 20 (dict_len (artifact_data st))); [|lia].
  now rewrite Hk.
Qed.

(** The eviction path leaves the ledger as it was: nothing is credited for
    the artifact it deletes. *)
Lemma add_evicting_ledger userId artifact st k :
  20 <= dict_len (artifact_data st) ->
  lowest_level_artifact_id (artifact_data st) = Some k ->
  users (add_new_artifact_to_user userId artifact st) = users st.
Proof. intros Hlen Hk. now rewrite (add_evicting _ _ _ k). Qed.

(** One call never takes the store past 20 entries. *)
Lemma add_capacity_step userId artifact st :
  dict_len (artifact_data st) <= 20 ->
  dict_len (artifact_data (add_new_artifact_to_user userId artifact st)) <= 20.
Proof.
  intros Hcap.
  destruct (Z.ltb_spec (dict_len (artifact_data st)) 20) as [Hlt|Hfull].
  - rewrite add_below_capacity by assumption. simpl.
    unfold dict_len in *.
    pose proof (dict_set_length_le (artifact_id artifact) artifact (artifact_data st)).
    lia.
  - destruct (lowest_level_artifact_id (artifact_data st)) as [k|] eqn:Hk.
    + rewrite (add_evicting _ _ _ k) by assumption. simpl.
      pose proof (dict_del_length k (artifact_data st)
                    (lowest_level_artifact_id_mem _ _ Hk)) as Hdel.
      pose proof (dict_set_length_le (artifact_id artifact) artifact
                    (dict_del k (artifact_data st))) as Hset.
      unfold dict_len in *. lia.
    + rewrite add_all_locked by assumption. simpl. assumption.
Qed.

(** C1. A store that holds at most 20 artifacts holds at most 20 after
    [add_new_artifact_to_user], whichever path the call takes (below
    capacity, at capacity with an unlocked artifact, or at capacity with
    every artifact locked), and still does after any further calls, for any
    users and artifacts. *)
Theorem add_new_artifact_to_user_capacity userId artifact st :
  dict_len (artifact_data st) <= 20 ->
  dict_len (artifact_data (add_new_artifact_to_user userId artifact st)) <= 20 /\
  forall calls : list (string * Artifact),
    dict_len (artifact_data
      (fold_left (fun s c => add_new_artifact_to_user (fst c) (snd c) s) calls
         (add_new_artifact_to_user userId artifact st))) <= 20.
Proof.
  intros Hcap.
  assert (Hstep : dict_len
            (artifact_data (add_new_artifact_to_user userId artifact st)) <= 20)
    by now apply add_capacity_step.
  split; [exact Hstep|]. intros calls.
  revert Hstep. generalize (add_new_artifact_to_user userId artifact st).
  induction calls as [|c calls IH]; intros s Hs; simpl; [assumption|].
  apply IH. now apply add_capacity_step.
Qed.

(** The capacity bound at the store of three artifacts. *)
Lemma add_new_artifact_to_user_capacity_witness :
  dict_len (artifact_data Samples.three_stored) <= 20 /\
  dict_len (artifact_data
    (add_new_artifact_to_user "u" Samples.drawn Samples.three_stored)) <= 20.
Proof.
  split.
  - vm_compute. discriminate.
  - apply (add_new_artifact_to_user_capacity "u" Samples.drawn Samples.three_stored).
    vm_compute. discriminate.
Defined.

(** C2. On the store of twenty unlocked artifacts the call deletes the first
    artifact of lowest level (id 2, level 1) and stores the new one, the size
    staying 20; the ledger is left untouched, although disassembling the
    deleted artifact yields 1 item, which [disassemble_artifact] does credit:
    the eviction credits nothing. *)
Theorem add_evicts_without_credit :
  let st := Samples.full_unlocked in
  let st' := add_new_artifact_to_user "u" Samples.drawn st in
  dict_len (artifact_data st) = 20 /\
  lowest_level_artifact_id (artifact_data st) = Some 2 /\
  dict_get 2 (artifact_data st) = Some (Samples.common 2 1 false) /\
  get_reinforcement_items_from_disassembly (Samples.common 2 1 false) = 1 /\
  dict_get 2 (artifact_data st') = None /\
  dict_get 21 (artifact_data st') = Some Samples.drawn /\
  dict_len (artifact_data st') = 20 /\
  users st' = users st /\
  artifact_upgrade_items <$> users st' !! "u" = Some 0 /\
  artifact_upgrade_items <$> users (fst (disassemble_artifact "u" 2 st)) !! "u"
    = Some 1.
Proof. vm_compute. repeat split; reflexivity. Qed.

End AddArtifact.

(** ** Disassembly yield *)
Section Yield.
Implicit Types (a : Artifact).

(** [int] of a fraction is the quotient that truncates toward zero. *)
Lemma Py_int_Qmake (n : Z) (d : positive) : Py.int (n # d) = n ÷ Z.pos d.
Proof.
  unfold Py.int, Qle_bool, Qceiling, Qfloor, Qopp. cbn [Qnum Qden].
  rewrite Z.mul_0_l, Z.mul_1_r.
  destruct (Z.leb_spec 0 n) as [Hn|Hn].
  - symmetry. apply Z.quot_div_nonneg; lia.
  - rewrite <- (Z.opp_involutive n) at 2. rewrite Z.quot_opp_l by lia.
    rewrite Z.quot_div_nonneg by lia. reflexivity.
Qed.

(** The yield in integer arithmetic, for any rarity string and any level. *)
Lemma get_reinforcement_items_from_disassembly_eq a :
  get_reinforcement_items_from_disassembly a =
  let base_items := table_get (rarity a) 0 rarity_to_items in
  base_items + (base_items * (level a - 1)) ÷ 10.
Proof.
  unfold get_reinforcement_items_from_disassembly. cbv zeta.
  f_equal. unfold Qmult, inject_Z. cbn [Qnum Qden].
  rewrite Py_int_Qmake. f_equal. lia.
Qed.

Lemma table_get_In r base :
  In (r, base) rarity_to_items -> table_get r 0 rarity_to_items = base.
Proof.
  unfold rarity_to_items. simpl.
  intros [H|[H|[H|[H|[H|[]]]]]]; injection H as <- <-; reflexivity.
Qed.

(** C8. For each of the five rarities, with base 1, 5, 20, 50 and 100, the
    yield is base + (base * (level - 1)) / 10 with the quotient truncated
    toward zero, at every level; from level 1 on the truncation is the floor.
    A common artifact of level 1 yields 1, a legendary one of level 1 yields
    100, a rare one of level 6 yields 30. *)
Theorem disassembly_yield_table :
  (forall a r base,
     In (r, base)
        [("⚪普通", 1); ("🌿罕见", 5); ("🔶稀有", 20); ("💎史诗", 50); ("👑传说", 100)] ->
     rarity a = r ->
     get_reinforcement_items_from_disassembly a
       = base + (base * (level a - 1)) ÷ 10 /\
     (1 <= level a ->
      get_reinforcement_items_from_disassembly a
        = base + (base * (level a - 1)) / 10)) /\
  (forall a, rarity a = "⚪普通" -> level a = 1 ->
     get_reinforcement_items_from_disassembly a = 1) /\
  (forall a, rarity a = "👑传说" -> level a = 1 ->
     get_reinforcement_items_from_disassembly a = 100) /\
  (forall a, rarity a = "🔶稀有" -> level a = 6 ->
     get_reinforcement_items_from_disassembly a = 30).
Proof.
  assert (Hgen : forall a r base, In (r, base) rarity_to_items -> rarity a = r ->
            get_reinforcement_items_from_disassembly a
              = base + (base * (level a - 1)) ÷ 10).
  { intros a r base Hin Hr. rewrite get_reinforcement_items_from_disassembly_eq.
    cbv zeta. rewrite Hr, (table_get_In _ _ Hin). reflexivity. }
  split; [|repeat split].
  - intros a r base Hin Hr. split; [exact (Hgen a r base Hin Hr)|].
    intros Hl. rewrite (Hgen a r base Hin Hr). f_equal.
    apply Z.quot_div_nonneg; [|lia].
    assert (0 <= base).
    { simpl in Hin. destruct Hin as [H|[H|[H|[H|[H|[]]]]]]; injection H as _ <-; lia. }
    nia.
  - intros a Hr Hl. rewrite (Hgen a _ 1 ltac:(simpl; auto) Hr), Hl. reflexivity.
  - intros a Hr Hl. rewrite (Hgen a _ 100 ltac:(simpl; auto 6) Hr), Hl. reflexivity.
  - intros a Hr Hl. rewrite (Hgen a _ 20 ltac:(simpl; auto) Hr), Hl. reflexivity.
Qed.

Lemma table_get_other r :
  r <> "⚪普通" -> r <> "🌿罕见" -> r <> "🔶稀有" -> r <> "💎史诗" -> r <> "👑传说" ->
  table_get r 0 rarity_to_items = 0.
Proof.
  intros H1 H2 H3 H4 H5. unfold rarity_to_items, table_get.
  repeat match goal with
         | H : r <> ?s |- context [String.eqb r ?s] =>
             rewrite (proj2 (String.eqb_neq r s) H)
         end.
  reflexivity.
Qed.

(** Every entry of a loaded store was built by the loop body from an entry
    of the document with the same key. *)
Lemma load_artifact_data_get data old k a :
  dict_get k (load_artifact_data (FileParsed data) old) = Some a ->
  exists info, In (k, info) data /\ a = load_artifact k info.
Proof.
  unfold load_artifact_data.
  induction data as [|[k' info'] data IH] using rev_ind; simpl; [discriminate|].
  rewrite fold_left_app. simpl.
  destruct (Z.eq_dec k' k) as [->|Hne].
  - rewrite dict_get_set_eq. intros [= <-].
    exists info'. split; [|reflexivity]. apply in_or_app. right. now left.
  - rewrite dict_get_set_ne by assumption. intros Hget.
    destruct (IH Hget) as (info & Hin & ->).
    exists info. split; [|reflexivity]. apply in_or_app. now left.
Qed.

(** C10. An artifact whose rarity string is none of the five keys of the
    table yields 0 items at every level.  An entry of the saved document
    without a rarity field is loaded with the rarity "普通", which is none of
    the five keys, so every artifact loaded from such an entry yields 0. *)
Theorem unrecognised_rarity_yields_nothing :
  (forall a,
     rarity a <> "⚪普通" -> rarity a <> "🌿罕见" -> rarity a <> "🔶稀有" ->
     rarity a <> "💎史诗" -> rarity a <> "👑传说" ->
     get_reinforcement_items_from_disassembly a = 0) /\
  (forall k info, info_rarity info = None ->
     rarity (load_artifact k info) = "普通" /\
     get_reinforcement_items_from_disassembly (load_artifact k info) = 0) /\
  (forall data old k a,
     dict_get k (load_artifact_data (FileParsed data) old) = Some a ->
     exists info, In (k, info) data /\ a = load_artifact k info /\
       (info_rarity info = None ->
        rarity a = "普通" /\ get_reinforcement_items_from_disassembly a = 0)).
Proof.
  assert (H0 : forall a,
     rarity a <> "⚪普通" -> rarity a <> "🌿罕见" -> rarity a <> "🔶稀有" ->
     rarity a <> "💎史诗" -> rarity a <> "👑传说" ->
     get_reinforcement_items_from_disassembly a = 0).
  { intros a H1 H2 H3 H4 H5. rewrite get_reinforcement_items_from_disassembly_eq.
    cbv zeta. rewrite table_get_other by assumption. reflexivity. }
  assert (H1 : forall k info, info_rarity info = None ->
     rarity (load_artifact k info) = "普通" /\
     get_reinforcement_items_from_disassembly (load_artifact k info) = 0).
  { intros k info Hr.
    assert (Hd : rarity (load_artifact k info) = "普通").
    { unfold load_artifact. cbn [rarity]. rewrite Hr. reflexivity. }
    split; [exact Hd|]. apply H0; rewrite Hd; discriminate. }
  split; [exact H0|]. split; [exact H1|].
  intros data old k a Hget.
  destruct (load_artifact_data_get _ _ _ _ Hget) as (info & Hin & ->).
  exists info. repeat split; try assumption; now apply H1.
Qed.

End Yield.

(** ** The ledger *)
Section LedgerFacts.
Implicit Types (users : Ledger) (userId other : string) (u : User).

Lemma update_user_coins_lookup userId delta users u :
  users !! userId = Some u ->
  update_user_coins userId delta users !! userId =
    Some {| coins := coins u + delta;
            artifact_upgrade_items := artifact_upgrade_items u;
            artifact_re_roll_items := artifact_re_roll_items u |}.
Proof. intros Hu. unfold update_user_coins. now rewrite lookup_alter_eq, Hu. Qed.

Lemma add_artifact_upgrade_items_lookup userId delta users u :
  users !! userId = Some u ->
  add_artifact_upgrade_items userId delta users !! userId =
    Some {| coins := coins u;
            artifact_upgrade_items := artifact_upgrade_items u + delta;
            artifact_re_roll_items := artifact_re_roll_items u |}.
Proof. intros Hu. unfold add_artifact_upgrade_items. now rewrite lookup_alter_eq, Hu. Qed.

Lemma add_artifact_re_roll_items_lookup userId delta users u :
  users !! userId = Some u ->
  add_artifact_re_roll_items userId delta users !! userId =
    Some {| coins := coins u;
            artifact_upgrade_items := artifact_upgrade_items u;
            artifact_re_roll_items := artifact_re_roll_items u + delta |}.
Proof. intros Hu. unfold add_artifact_re_roll_items. now rewrite lookup_alter_eq, Hu. Qed.

Lemma update_user_coins_other userId other delta users :
  other <> userId -> update_user_coins userId delta users !! other = users !! other.
Proof. intros Hne. unfold update_user_coins. now rewrite lookup_alter_ne. Qed.

Lemma add_artifact_upgrade_items_other userId other delta users :
  other <> userId ->
  add_artifact_upgrade_items userId delta users !! other = users !! other.
Proof. intros Hne. unfold add_artifact_upgrade_items. now rewrite lookup_alter_ne. Qed.

Lemma add_artifact_re_roll_items_other userId other delta users :
  other <> userId ->
  add_artifact_re_roll_items userId delta users !! other = users !! other.
Proof. intros Hne. unfold add_artifact_re_roll_items. now rewrite lookup_alter_ne. Qed.

End LedgerFacts.

(** ** Generating an artifact *)
Section Generate.
Implicit Types (st : State) (d : dict Artifact).

Lemma free_artifact_id_Some ids d i :
  free_artifact_id ids d = Some i -> In i ids /\ dict_mem i d = false.
Proof.
  induction ids as [|j ids IH]; simpl; [discriminate|].
  destruct (dict_mem j d) eqn:Hj.
  - intros H. destruct (IH H). auto.
  - intros [= <-]. auto.
Qed.

(** The loop ends as soon as one of the draws is an unused id. *)
Lemma free_artifact_id_total ids d :
  (exists i, In i ids /\ dict_mem i d = false) ->
  exists i, free_artifact_id ids d = Some i.
Proof.
  intros (i & Hin & Hfree).
  induction ids as [|j ids IH]; simpl; [destruct Hin|].
  destruct (dict_mem j d) eqn:Hj; [|eauto].
  destruct Hin as [->|Hin]; [congruence|auto].
Qed.

Lemma rarity_of_roll_in_table roll :
  In (rarity_of_roll roll) (map fst rarity_to_items).
Proof.
  unfold rarity_of_roll.
  repeat match goal with |- context [Z.leb ?a ?b] => destruct (Z.leb a b) end;
    simpl; auto 6.
Qed.

(** What [generate_random_artifact] makes: a level-1, unlocked artifact of
    one of the five rarities under an id the store does not use, handed to
    [add_new_artifact_to_user]. *)
Lemma generate_random_artifact_Some userId rnd st st' a :
  generate_random_artifact userId rnd st = Some (st', a) ->
  st' = add_new_artifact_to_user userId a st /\
  level a = 1 /\ is_locked a = false /\
  In (rarity a) (map fst rarity_to_items) /\
  In (artifact_id a) (rnd_ids rnd) /\
  dict_mem (artifact_id a) (artifact_data st) = false.
Proof.
  unfold generate_random_artifact.
  destruct (rnd_sample rnd) as [[i j] k].
  destruct (free_artifact_id (rnd_ids rnd) (artifact_data st)) as [id|] eqn:Hid;
    [|discriminate].
  intros [= <- <-]. apply free_artifact_id_Some in Hid as [Hin Hfree].
  repeat split; auto. apply rarity_of_roll_in_table.
Qed.

Lemma generate_random_artifact_total userId rnd st :
  (exists i, In i (rnd_ids rnd) /\ dict_mem i (artifact_data st) = false) ->
  exists st' a, generate_random_artifact userId rnd st = Some (st', a).
Proof.
  intros Hfree. apply free_artifact_id_total in Hfree as [id Hid].
  unfold generate_random_artifact.
  destruct (rnd_sample rnd) as [[i j] k]. rewrite Hid. eauto.
Qed.

End Generate.

(** ** Locked artifacts *)
Section Locked.
Implicit Types (st : State) (artifact a : Artifact) (userId : string).

(** With an id the store does not use, the call leaves every locked entry
    where it was. *)
Lemma add_fresh_keeps_locked userId artifact st :
  dict_wf (artifact_data st) ->
  dict_mem (artifact_id artifact) (artifact_data st) = false ->
  forall k a, dict_get k (artifact_data st) = Some a -> is_locked a = true ->
    dict_get k (artifact_data (add_new_artifact_to_user userId artifact st)) = Some a.
Proof.
  intros Hwf Hfresh k a Hget Hlock. apply dict_mem_false in Hfresh.
  assert (Hne : artifact_id artifact <> k) by congruence.
  destruct (Z.ltb_spec (dict_len (artifact_data st)) 20) as [Hlt|Hfull].
  - rewrite add_below_capacity by assumption. simpl.
    now rewrite dict_get_set_ne.
  - destruct (lowest_level_artifact_id (artifact_data st)) as [k0|] eqn:Hk0.
    + rewrite (add_evicting _ _ _ k0) by assumption. simpl.
      rewrite dict_get_set_ne by assumption.
      apply lowest_level_artifact_id_Some in Hk0 as (a0 & Hin & Hun & _).
      apply (dict_In_get _ _ _ Hwf) in Hin.
      rewrite dict_get_del_ne; [assumption|]. congruence.
    + rewrite add_all_locked by assumption. simpl. assumption.
Qed.

(** C4. Let the store be a dictionary (no key twice).  When the new
    artifact carries an id the store does not use, every locked artifact of
    the store is still there, unchanged, after [add_new_artifact_to_user],
    whatever its level; so it is after [generate_random_artifact], which
    always picks such an id.  When the store is full and all 20 artifacts are
    locked, the store is exactly the prior one, of size 20, the new artifact
    (its id being unused) is not in it, and its disassembly yield is added to
    the user's upgrade items, coins and reroll items as before. *)
Theorem add_new_artifact_to_user_keeps_locked userId artifact st :
  dict_wf (artifact_data st) ->
  let st' := add_new_artifact_to_user userId artifact st in
  (dict_mem (artifact_id artifact) (artifact_data st) = false ->
   forall k a, dict_get k (artifact_data st) = Some a -> is_locked a = true ->
               dict_get k (artifact_data st') = Some a) /\
  (forall rnd st2 drawn,
     generate_random_artifact userId rnd st = Some (st2, drawn) ->
     forall k a, dict_get k (artifact_data st) = Some a -> is_locked a = true ->
                 dict_get k (artifact_data st2) = Some a) /\
  (dict_len (artifact_data st) = 20 ->
   (forall k a, dict_get k (artifact_data st) = Some a -> is_locked a = true) ->
   artifact_data st' = artifact_data st /\
   dict_len (artifact_data st') = 20 /\
   (dict_mem (artifact_id artifact) (artifact_data st) = false ->
    dict_get (artifact_id artifact) (artifact_data st') = None) /\
   users st' =
     add_artifact_upgrade_items userId
       (get_reinforcement_items_from_disassembly artifact) (users st) /\
   forall u, users st !! userId = Some u ->
     users st' !! userId =
       Some {| coins := coins u;
               artifact_upgrade_items :=
                 artifact_upgrade_items u
                 + get_reinforcement_items_from_disassembly artifact;
               artifact_re_roll_items := artifact_re_roll_items u |}).
Proof.
  intros Hwf st'. split; [|split].
  - intros Hfresh. now apply add_fresh_keeps_locked.
  - intros rnd st2 drawn Hgen.
    apply generate_random_artifact_Some in Hgen as (-> & _ & _ & _ & _ & Hfresh).
    now apply add_fresh_keeps_locked.
  - intros Hlen Hall. subst st'.
    assert (Hnone : lowest_level_artifact_id (artifact_data st) = None).
    { apply lowest_level_artifact_id_None. intros k a Hin.
      eapply Hall, dict_In_get; eassumption. }
    rewrite add_all_locked by (assumption || lia). simpl.
    repeat split; try assumption.
    + intros Hfresh. now apply dict_mem_false.
    + intros u Hu. now apply add_artifact_upgrade_items_lookup.
Qed.

(** The statement at the store of twenty locked artifacts. *)
Lemma add_new_artifact_to_user_keeps_locked_witness :
  let st := Samples.full_locked in
  let st' := add_new_artifact_to_user "u" Samples.drawn st in
  artifact_data st' = artifact_data st /\
  dict_get 21 (artifact_data st') = None /\
  users st' !! "u" = Some (mkUser 150 20 0).
Proof.
  intros st st'.
  assert (Hwf : dict_wf (artifact_data st)).
  { unfold dict_wf. apply (bool_decide_unpack _). vm_compute. exact I. }
  destruct (add_new_artifact_to_user_keeps_locked "u" Samples.drawn st Hwf)
    as (_ & _ & Hfull).
  destruct Hfull as (Hsame & _ & Habsent & _ & Hledger).
  - vm_compute. reflexivity.
  - intros k a Hget. apply dict_get_In in Hget.
    unfold st, Samples.full_locked, Samples.store_of in Hget.
    cbn [artifact_data] in Hget.
    apply in_map_iff in Hget as [il [[= <- <-] _]]. reflexivity.
  - split; [exact Hsame|]. split.
    + apply Habsent. vm_compute. reflexivity.
    + apply (Hledger (mkUser 150 0 0)). vm_compute. reflexivity.
Defined.

End Locked.

(** ** The lottery *)
Section Lottery.
Implicit Types (st : State) (rnd : DrawRandom) (userId other : string) (u : User).

(** The state right after the debit of the draw cost. *)
Lemma draw_artifact_lottery_paid userId user_coins rnd st :
  100 <= user_coins ->
  draw_artifact_lottery userId user_coins rnd st =
  draw_outcome userId rnd
    (set_users (update_user_coins userId (-100) (users st)) st).
Proof.
  intros Hc. unfold draw_artifact_lottery, draw_cost.
  destruct (Z.ltb_spec user_coins 100); [lia|reflexivity].
Qed.

(** [randint a b] stays within its bounds, and reaches each of them. *)
Lemma randint_range (a b raw : Z) : a <= b -> a <= randint a b raw <= b.
Proof.
  intros Hab. unfold randint.
  pose proof (Z.mod_pos_bound (raw - a) (b - a + 1) ltac:(lia)). lia.
Qed.

Lemma randint_id (a b raw : Z) : a <= raw <= b -> randint a b raw = raw.
Proof.
  intros Hr. unfold randint. rewrite Z.mod_small by lia. lia.
Qed.

(** What [add_new_artifact_to_user] does with an artifact whose id is not in
    use: stored at the end below capacity; stored in place of the first
    unlocked artifact of lowest level at capacity; and, when all twenty are
    locked, not stored but paid out in upgrade items. *)
Lemma add_fresh_effect userId artifact st :
  dict_mem (artifact_id artifact) (artifact_data st) = false ->
  let st' := add_new_artifact_to_user userId artifact st in
  (dict_len (artifact_data st) < 20 ->
     artifact_data st'
       = dict_set (artifact_id artifact) artifact (artifact_data st) /\
     dict_get (artifact_id artifact) (artifact_data st') = Some artifact /\
     dict_len (artifact_data st') = dict_len (artifact_data st) + 1 /\
     users st' = users st) /\
  (20 <= dict_len (artifact_data st) ->
   forall k, lowest_level_artifact_id (artifact_data st) = Some k ->
     artifact_data st'
       = dict_set (artifact_id artifact) artifact (dict_del k (artifact_data st)) /\
     dict_get (artifact_id artifact) (artifact_data st') = Some artifact /\
     dict_len (artifact_data st') = dict_len (artifact_data st) /\
     users st' = users st) /\
  (20 <= dict_len (artifact_data st) ->
   lowest_level_artifact_id (artifact_data st) = None ->
     artifact_data st' = artifact_data st /\
     dict_get (artifact_id artifact) (artifact_data st') = None /\
     users st' = add_artifact_upgrade_items userId
                   (get_reinforcement_items_from_disassembly artifact) (users st)).
Proof.
  intros Hnew st'. subst st'. repeat apply conj.
  - intros Hlen. rewrite add_below_capacity by assumption.
    cbn [artifact_data users set_artifact_data].
    repeat apply conj; try reflexivity.
    + apply dict_get_set_eq.
    + unfold dict_len. rewrite dict_set_length_fresh by assumption. lia.
  - intros Hlen k Hk. rewrite (add_evicting _ _ _ k) by assumption.
    cbn [artifact_data users set_artifact_data].
    repeat apply conj; try reflexivity.
    + apply dict_get_set_eq.
    + assert (Hfresh : dict_mem (artifact_id artifact) (dict_del k (artifact_data st))
                       = false).
      { apply dict_mem_false.
        destruct (Z.eq_dec (artifact_id artifact) k) as [Heq|Hne].
        - apply lowest_level_artifact_id_mem in Hk. congruence.
        - rewrite dict_get_del_ne by congruence. now apply dict_mem_false. }
      unfold dict_len. rewrite dict_set_length_fresh by assumption.
      pose proof (dict_del_length k (artifact_data st)
                    (lowest_level_artifact_id_mem _ _ Hk)). lia.
  - intros Hlen Hk. rewrite add_all_locked by assumption.
    cbn [artifact_data users set_users].
    repeat apply conj; try reflexivity. now apply dict_mem_false.
Qed.

(** C5. With at least 100 coins the outcome is read off one roll, an
    integer from 1 to 100.  Let [st1] be the state after the debit.  A roll
    of 1 to 5 runs [generate_random_artifact] on [st1] and returns its
    artifact, and does return one as soon as one drawn id is unused: an
    artifact of level 1, unlocked, of a rarity of the table, under an id
    not in use, which is stored (at the end of the store below capacity, in
    place of the evicted artifact at capacity) or, on a store of twenty
    locked artifacts, paid out in upgrade items.  A roll of 6 to 15 adds 1
    reroll item; 16 to 35 adds a number of upgrade items from 1 to 3; 36 to
    100 adds a coin reward from 1 to 120.  Every roll, number of items
    and reward of these ranges occurs.  A user who holds 150 coins and passes
    them in ends, on a roll of 36 to 100, with 50 + reward coins, that is
    between 51 and 170. *)
Theorem draw_artifact_lottery_buckets userId user_coins rnd st :
  100 <= user_coins ->
  let st1 := set_users (update_user_coins userId (-100) (users st)) st in
  let res := draw_artifact_lottery userId user_coins rnd st in
  let roll := randint 1 100 (rnd_roll rnd) in
  let items := randint 1 3 (rnd_reinforcement_items rnd) in
  let reward := randint 1 120 (rnd_reward_coins rnd) in
  (1 <= roll <= 100 /\ 1 <= items <= 3 /\ 1 <= reward <= 120) /\
  ((1 <= rnd_roll rnd <= 100 -> roll = rnd_roll rnd) /\
   (1 <= rnd_reinforcement_items rnd <= 3 -> items = rnd_reinforcement_items rnd) /\
   (1 <= rnd_reward_coins rnd <= 120 -> reward = rnd_reward_coins rnd)) /\
  (1 <= roll <= 5 ->
     res = match generate_random_artifact userId (rnd_gen rnd) st1 with
           | Some (st', artifact) => Some (st', (true, MsgDrewArtifact artifact))
           | None => None
           end /\
     ((exists i, In i (rnd_ids (rnd_gen rnd)) /\
                 dict_mem i (artifact_data st) = false) ->
      exists st' artifact,
        res = Some (st', (true, MsgDrewArtifact artifact)) /\
        st' = add_new_artifact_to_user userId artifact st1 /\
        level artifact = 1 /\ is_locked artifact = false /\
        In (rarity artifact) (map fst rarity_to_items) /\
        dict_mem (artifact_id artifact) (artifact_data st) = false /\
        (dict_len (artifact_data st) < 20 ->
           artifact_data st'
             = dict_set (artifact_id artifact) artifact (artifact_data st) /\
           dict_get (artifact_id artifact) (artifact_data st') = Some artifact /\
           dict_len (artifact_data st') = dict_len (artifact_data st) + 1 /\
           users st' = users st1) /\
        (20 <= dict_len (artifact_data st) ->
         forall k, lowest_level_artifact_id (artifact_data st) = Some k ->
           artifact_data st'
             = dict_set (artifact_id artifact) artifact
                 (dict_del k (artifact_data st)) /\
           dict_get (artifact_id artifact) (artifact_data st') = Some artifact /\
           dict_len (artifact_data st') = dict_len (artifact_data st) /\
           users st' = users st1) /\
        (20 <= dict_len (artifact_data st) ->
         lowest_level_artifact_id (artifact_data st) = None ->
           artifact_data st' = artifact_data st /\
           dict_get (artifact_id artifact) (artifact_data st') = None /\
           users st' = add_artifact_upgrade_items userId
                         (get_reinforcement_items_from_disassembly artifact)
                         (users st1)))) /\
  (6 <= roll <= 15 ->
     res = Some (set_users (add_artifact_re_roll_items userId 1 (users st1)) st1,
                 (true, MsgDrewReRollItem)) /\
     forall u, users st !! userId = Some u ->
       users (set_users (add_artifact_re_roll_items userId 1 (users st1)) st1)
         !! userId =
       Some {| coins := coins u - 100;
               artifact_upgrade_items := artifact_upgrade_items u;
               artifact_re_roll_items := artifact_re_roll_items u + 1 |}) /\
  (16 <= roll <= 35 ->
     res = Some (set_users (add_artifact_upgrade_items userId items (users st1)) st1,
                 (true, MsgDrewReinforcementItems items)) /\
     forall u, users st !! userId = Some u ->
       users (set_users (add_artifact_upgrade_items userId items (users st1)) st1)
         !! userId =
       Some {| coins := coins u - 100;
               artifact_upgrade_items := artifact_upgrade_items u + items;
               artifact_re_roll_items := artifact_re_roll_items u |}) /\
  (36 <= roll <= 100 ->
     res = Some (set_users (update_user_coins userId reward (users st1)) st1,
                 (true, MsgDrewCoins reward)) /\
     forall u, users st !! userId = Some u ->
       users (set_users (update_user_coins userId reward (users st1)) st1)
         !! userId =
       Some {| coins := coins u - 100 + reward;
               artifact_upgrade_items := artifact_upgrade_items u;
               artifact_re_roll_items := artifact_re_roll_items u |}) /\
  (forall u, users st !! userId = Some u -> coins u = 150 -> user_coins = 150 ->
     36 <= roll <= 100 ->
     exists st' u',
       res = Some (st', (true, MsgDrewCoins reward)) /\
       artifact_data st' = artifact_data st /\
       users st' !! userId = Some u' /\
       coins u' = 50 + reward /\ 51 <= coins u' <= 170).
Proof.
  intros Hc st1 res roll items reward.
  assert (Hres : res = draw_outcome userId rnd st1)
    by (apply draw_artifact_lottery_paid; assumption).
  assert (Hst1 : forall u, users st !! userId = Some u ->
            users st1 !! userId =
              Some {| coins := coins u - 100;
                      artifact_upgrade_items := artifact_upgrade_items u;
                      artifact_re_roll_items := artifact_re_roll_items u |}).
  { intros u Hu. subst st1. simpl.
    now rewrite (update_user_coins_lookup _ _ _ _ Hu). }
  assert (Hrange : 1 <= reward <= 120) by (apply randint_range; lia).
  assert (Hreward : 36 <= roll <= 100 ->
     res = Some (set_users (update_user_coins userId reward (users st1)) st1,
                 (true, MsgDrewCoins reward)) /\
     forall u, users st !! userId = Some u ->
       users (set_users (update_user_coins userId reward (users st1)) st1)
         !! userId =
       Some {| coins := coins u - 100 + reward;
               artifact_upgrade_items := artifact_upgrade_items u;
               artifact_re_roll_items := artifact_re_roll_items u |}).
  { intros Hroll. split.
    - rewrite Hres. unfold draw_outcome. fold roll.
      destruct (Z.leb_spec roll 5); [lia|].
      destruct (Z.leb_spec roll 15); [lia|].
      destruct (Z.leb_spec roll 35); [lia|reflexivity].
    - intros u Hu. cbn [users set_users].
      now rewrite (update_user_coins_lookup _ _ _ _ (Hst1 u Hu)). }
  split.
  { split; [|split]; [apply randint_range; lia..|exact Hrange]. }
  split.
  { split; [|split]; apply randint_id. }
  repeat apply conj.
  - intros Hroll. split.
    + rewrite Hres. unfold draw_outcome. fold roll.
      destruct (Z.leb_spec roll 5); [|lia].
      destruct (generate_random_artifact userId (rnd_gen rnd) st1) as [[st' a]|];
        reflexivity.
    + intros Hfree.
      destruct (generate_random_artifact_total userId (rnd_gen rnd) st1 Hfree)
        as (st' & a & Hgen).
      exists st', a. rewrite Hres. unfold draw_outcome. fold roll.
      destruct (Z.leb_spec roll 5); [|lia]. rewrite Hgen.
      apply generate_random_artifact_Some in Hgen
        as (-> & Hl & Hun & Hr & _ & Hnew).
      split; [reflexivity|]. split; [reflexivity|].
      split; [assumption|]. split; [assumption|].
      split; [assumption|]. split; [assumption|].
      exact (add_fresh_effect userId a st1 Hnew).
  - intros Hroll. split.
    + rewrite Hres. unfold draw_outcome. fold roll.
      destruct (Z.leb_spec roll 5); [lia|].
      destruct (Z.leb_spec roll 15); [reflexivity|lia].
    + intros u Hu. cbn [users set_users].
      now rewrite (add_artifact_re_roll_items_lookup _ _ _ _ (Hst1 u Hu)).
  - intros Hroll. split.
    + rewrite Hres. unfold draw_outcome. fold roll.
      destruct (Z.leb_spec roll 5); [lia|].
      destruct (Z.leb_spec roll 15); [lia|].
      destruct (Z.leb_spec roll 35); [reflexivity|lia].
    + intros u Hu. cbn [users set_users].
      now rewrite (add_artifact_upgrade_items_lookup _ _ _ _ (Hst1 u Hu)).
  - exact Hreward.
  - intros u Hu H150 _ Hroll.
    destruct (Hreward Hroll) as [Heq Hledger].
    eexists _, _. split; [exact Heq|]. split; [reflexivity|].
    split; [exact (Hledger u Hu)|]. cbn [coins]. lia.
Qed.

(** Four draws of a user who holds 150 coins and three artifacts, one for
    each kind of outcome: roll 3 stores the new artifact, under id 21, as
    the fourth of the store; roll 10 gives 1 reroll item; roll 20 gives 2
    upgrade items; roll 50 gives 77 coins. *)
Lemma draw_artifact_lottery_buckets_witness :
  (exists st' a,
     draw_artifact_lottery "u" 150 (Samples.rnd_with 3 2 77) Samples.three_stored
       = Some (st', (true, MsgDrewArtifact a)) /\
     artifact_id a = 21 /\
     dict_get (artifact_id a) (artifact_data st') = Some a /\
     dict_len (artifact_data st') = 4 /\
     users st' !! "u" = Some (mkUser 50 0 0)) /\
  (exists st',
     draw_artifact_lottery "u" 150 (Samples.rnd_with 10 2 77) Samples.three_stored
       = Some (st', (true, MsgDrewReRollItem)) /\
     users st' !! "u" = Some (mkUser 50 0 1)) /\
  (exists st',
     draw_artifact_lottery "u" 150 (Samples.rnd_with 20 2 77) Samples.three_stored
       = Some (st', (true, MsgDrewReinforcementItems 2)) /\
     users st' !! "u" = Some (mkUser 50 2 0)) /\
  (exists st',
     draw_artifact_lottery "u" 150 (Samples.rnd_with 50 2 77) Samples.three_stored
       = Some (st', (true, MsgDrewCoins 77)) /\
     coins <$> users st' !! "u" = Some 127).
Proof.
  assert (Hu : users Samples.three_stored !! "u" = Some (mkUser 150 0 0))
    by (vm_compute; reflexivity).
  repeat apply conj.
  - destruct (draw_artifact_lottery_buckets "u" 150 (Samples.rnd_with 3 2 77)
                Samples.three_stored ltac:(lia))
      as (_ & _ & Hroll & _).
    destruct Hroll as [_ Hart]; [vm_compute; split; discriminate|].
    destruct Hart as (st' & a & Hres & _ & _ & _ & _ & _ & Hbelow & _).
    { exists 21. split; [simpl; auto|reflexivity]. }
    destruct Hbelow as (_ & Hget & Hlen & Husers); [vm_compute; reflexivity|].
    exists st', a. split; [exact Hres|].
    split.
    { pose proof (f_equal (fun r => match r with
                                    | Some (_, (_, MsgDrewArtifact x)) => artifact_id x
                                    | _ => 0
                                    end) Hres) as Hid.
      vm_compute in Hid. symmetry. exact Hid. }
    split; [exact Hget|]. split; [rewrite Hlen; reflexivity|].
    rewrite Husers. vm_compute. reflexivity.
  - destruct (draw_artifact_lottery_buckets "u" 150 (Samples.rnd_with 10 2 77)
                Samples.three_stored ltac:(lia))
      as (_ & _ & _ & Hroll & _).
    destruct Hroll as [Hres Hledger]; [vm_compute; split; discriminate|].
    eexists. split; [exact Hres|]. rewrite (Hledger _ Hu). reflexivity.
  - destruct (draw_artifact_lottery_buckets "u" 150 (Samples.rnd_with 20 2 77)
                Samples.three_stored ltac:(lia))
      as (_ & _ & _ & _ & Hroll & _).
    destruct Hroll as [Hres Hledger]; [vm_compute; split; discriminate|].
    eexists. split; [exact Hres|]. rewrite (Hledger _ Hu). reflexivity.
  - destruct (draw_artifact_lottery_buckets "u" 150 (Samples.rnd_with 50 2 77)
                Samples.three_stored ltac:(lia))
      as (_ & _ & _ & _ & _ & _ & H150).
    destruct (H150 (mkUser 150 0 0)) as (st' & u' & Hres & _ & Hu' & Hcoins & _).
    + exact Hu.
    + reflexivity.
    + reflexivity.
    + vm_compute; split; discriminate.
    + exists st'. split; [exact Hres|]. rewrite Hu'. simpl. now rewrite Hcoins.
Defined.

(** C6. Called with fewer than 100 coins, the draw fails and returns the
    state it was given.  With 100 or more it first takes exactly 100 coins from
    the user and nothing else, and the outcome is computed from that state;
    on a roll of 6 to 35 (reroll item or upgrade items) the store is as
    before and the coins stay 100 lower. *)
Theorem draw_artifact_lottery_debit userId user_coins rnd st :
  let st1 := set_users (update_user_coins userId (-100) (users st)) st in
  let res := draw_artifact_lottery userId user_coins rnd st in
  (user_coins < 100 -> res = Some (st, (false, MsgNotEnoughCoinsToDraw))) /\
  (100 <= user_coins ->
     res = draw_outcome userId rnd st1 /\
     artifact_data st1 = artifact_data st /\
     (forall u, users st !! userId = Some u ->
        users st1 !! userId =
          Some {| coins := coins u - 100;
                  artifact_upgrade_items := artifact_upgrade_items u;
                  artifact_re_roll_items := artifact_re_roll_items u |}) /\
     (forall other, other <> userId -> users st1 !! other = users st !! other) /\
     (6 <= rnd_roll rnd <= 35 ->
        exists st' message,
          res = Some (st', (true, message)) /\
          artifact_data st' = artifact_data st /\
          forall u, users st !! userId = Some u ->
            coins <$> users st' !! userId = Some (coins u - 100))).
Proof.
  intros st1 res. split.
  - intros Hc. subst res. unfold draw_artifact_lottery, draw_cost.
    destruct (Z.ltb_spec user_coins 100); [reflexivity|lia].
  - intros Hc.
    assert (Hst1 : forall u, users st !! userId = Some u ->
              users st1 !! userId =
                Some {| coins := coins u - 100;
                        artifact_upgrade_items := artifact_upgrade_items u;
                        artifact_re_roll_items := artifact_re_roll_items u |}).
    { intros u Hu. subst st1. simpl.
      now rewrite (update_user_coins_lookup _ _ _ _ Hu). }
    assert (Hres : res = draw_outcome userId rnd st1)
      by (apply draw_artifact_lottery_paid; assumption).
    repeat apply conj; try assumption; try reflexivity.
    + intros other Hne. subst st1. simpl. now apply update_user_coins_other.
    + intros Hroll. rewrite Hres. unfold draw_outcome.
      rewrite (randint_id 1 100 (rnd_roll rnd)) by lia.
      destruct (Z.leb_spec (rnd_roll rnd) 5); [lia|].
      destruct (Z.leb_spec (rnd_roll rnd) 15).
      * eexists _, _. split; [reflexivity|]. split; [reflexivity|].
        intros u Hu. cbn [users set_users].
        now rewrite (add_artifact_re_roll_items_lookup _ _ _ _ (Hst1 u Hu)).
      * destruct (Z.leb_spec (rnd_roll rnd) 35); [|lia].
        eexists _, _. split; [reflexivity|]. split; [reflexivity|].
        intros u Hu. cbn [users set_users].
        now rewrite (add_artifact_upgrade_items_lookup _ _ _ _ (Hst1 u Hu)).
Qed.

End Lottery.

(** ** Enhancement *)
Section Enhance.
Implicit Types (st : State) (a : Artifact) (userId other : string) (u : User).

(** The store after a successful enhancement of the entry under [id]. *)
Lemma enhanced_store_get (id : Z) a a' (d : dict Artifact) :
  dict_get id d = Some a ->
  let d2 := fst (update_artifact a' (dict_set id a' d)) in
  dict_get id d2 = Some a' /\
  forall k, k <> id -> k <> artifact_id a' -> dict_get k d2 = dict_get k d.
Proof.
  intros Hget d2. subst d2. unfold update_artifact.
  destruct (dict_mem (artifact_id a') (dict_set id a' d)) eqn:Hmem; simpl.
  - split.
    + destruct (Z.eq_dec (artifact_id a') id) as [->|Hne].
      * apply dict_get_set_eq.
      * rewrite dict_get_set_ne by assumption. apply dict_get_set_eq.
    + intros k Hk Hk'. rewrite dict_get_set_ne by congruence.
      apply dict_get_set_ne. congruence.
  - split; [apply dict_get_set_eq|].
    intros k Hk _. apply dict_get_set_ne. congruence.
Qed.

(** C7. [enhance_artifact] on the artifact stored under [id], of level L,
    asks for 2 * L items, compared with the count the caller passes, and
    for 100 * L coins, compared with the ledger, both taken from the level
    before the increment.  Each failure returns the state unchanged.  On
    success the stored level is L + 1, every other entry is as before, and the
    user's upgrade items and coins are lower by exactly 2 * L and 100 * L.
    At level 3 the call succeeds exactly from 6 items and 300 coins on. *)
Theorem enhance_artifact_costs userId (id : Z) (reinforcement_items : Z) st :
  let res := enhance_artifact userId id reinforcement_items st in
  (dict_get id (artifact_data st) = None ->
     res = (st, (false, MsgArtifactNotFound))) /\
  (forall a, dict_get id (artifact_data st) = Some a ->
     let L := level a in
     (reinforcement_items < 2 * L ->
        res = (st, (false, MsgNotEnoughItems (2 * L) reinforcement_items))) /\
     (2 * L <= reinforcement_items -> users st !! userId = None ->
        res = (st, (false, MsgNotEnoughCoins (100 * L) 0))) /\
     (forall u, 2 * L <= reinforcement_items -> users st !! userId = Some u ->
        coins u < 100 * L ->
        res = (st, (false, MsgNotEnoughCoins (100 * L) (coins u)))) /\
     (forall u, 2 * L <= reinforcement_items -> users st !! userId = Some u ->
        100 * L <= coins u ->
        exists st',
          res = (st', (true, MsgEnhanced (set_level (L + 1) a) (2 * L) (100 * L))) /\
          dict_get id (artifact_data st') = Some (set_level (L + 1) a) /\
          (forall k, k <> id -> k <> artifact_id a ->
             dict_get k (artifact_data st') = dict_get k (artifact_data st)) /\
          users st' !! userId =
            Some {| coins := coins u - 100 * L;
                    artifact_upgrade_items := artifact_upgrade_items u - 2 * L;
                    artifact_re_roll_items := artifact_re_roll_items u |} /\
          (forall other, other <> userId ->
             users st' !! other = users st !! other)) /\
     (forall u, level a = 3 -> users st !! userId = Some u ->
        (fst (snd res) = true <-> 6 <= reinforcement_items /\ 300 <= coins u) /\
        (fst (snd res) = true ->
           level <$> dict_get id (artifact_data (fst res)) = Some 4 /\
           users (fst res) !! userId =
             Some {| coins := coins u - 300;
                     artifact_upgrade_items := artifact_upgrade_items u - 6;
                     artifact_re_roll_items := artifact_re_roll_items u |}) /\
        (fst (snd res) = false -> fst res = st))).
Proof.
  intros res. split.
  - intros Hget. subst res. unfold enhance_artifact, get_artifact_by_id.
    now rewrite Hget.
  - intros a Hget L.
    assert (Hfail1 : reinforcement_items < 2 * L ->
              res = (st, (false, MsgNotEnoughItems (2 * L) reinforcement_items))).
    { intros Hlt. subst res. unfold enhance_artifact, get_artifact_by_id.
      rewrite Hget. cbv zeta. fold L.
      destruct (Z.ltb_spec reinforcement_items (2 * L)); [reflexivity|lia]. }
    assert (Hfail2 : forall u, 2 * L <= reinforcement_items ->
              users st !! userId = Some u -> coins u < 100 * L ->
              res = (st, (false, MsgNotEnoughCoins (100 * L) (coins u)))).
    { intros u Hitems Hu Hlt. subst res.
      unfold enhance_artifact, get_artifact_by_id, get_user_by_id.
      rewrite Hget. cbv zeta. fold L.
      destruct (Z.ltb_spec reinforcement_items (2 * L)); [lia|]. rewrite Hu.
      destruct (Z.ltb_spec (coins u) (100 * L)); [reflexivity|lia]. }
    assert (Hok : forall u, 2 * L <= reinforcement_items ->
        users st !! userId = Some u -> 100 * L <= coins u ->
        exists st',
          res = (st', (true, MsgEnhanced (set_level (L + 1) a) (2 * L) (100 * L))) /\
          dict_get id (artifact_data st') = Some (set_level (L + 1) a) /\
          (forall k, k <> id -> k <> artifact_id a ->
             dict_get k (artifact_data st') = dict_get k (artifact_data st)) /\
          users st' !! userId =
            Some {| coins := coins u - 100 * L;
                    artifact_upgrade_items := artifact_upgrade_items u - 2 * L;
                    artifact_re_roll_items := artifact_re_roll_items u |} /\
          (forall other, other <> userId ->
             users st' !! other = users st !! other)).
    { intros u Hitems Hu Hcoins. subst res.
      unfold enhance_artifact, get_artifact_by_id, get_user_by_id.
      rewrite Hget. cbv zeta. fold L.
      destruct (Z.ltb_spec reinforcement_items (2 * L)); [lia|]. rewrite Hu.
      destruct (Z.ltb_spec (coins u) (100 * L)); [lia|].
      eexists. split; [reflexivity|]. cbn [artifact_data users].
      destruct (enhanced_store_get id a (set_level (L + 1) a) _ Hget)
        as [Hnew Hframe].
      split; [exact Hnew|]. split; [exact Hframe|]. split.
      - rewrite (update_user_coins_lookup _ _ _
                   {| coins := coins u;
                      artifact_upgrade_items := artifact_upgrade_items u + - (2 * L);
                      artifact_re_roll_items := artifact_re_roll_items u |}).
        + cbn [coins artifact_upgrade_items artifact_re_roll_items].
          do 2 f_equal; lia.
        + now apply add_artifact_upgrade_items_lookup.
      - intros other Hne. rewrite update_user_coins_other by assumption.
        now apply add_artifact_upgrade_items_other. }
    split; [exact Hfail1|]. split.
    { intros Hitems Hu. subst res.
      unfold enhance_artifact, get_artifact_by_id, get_user_by_id.
      rewrite Hget. cbv zeta. fold L.
      destruct (Z.ltb_spec reinforcement_items (2 * L)); [lia|].
      now rewrite Hu. }
    split; [exact Hfail2|]. split; [exact Hok|].
    intros u Hl3 Hu. fold L in Hl3.
    destruct (Z.ltb_spec reinforcement_items (2 * L)) as [Hi|Hi].
    { rewrite (Hfail1 Hi). cbn [fst snd].
      repeat split; try discriminate; try reflexivity. lia. }
    destruct (Z.ltb_spec (coins u) (100 * L)) as [Hc|Hc].
    { rewrite (Hfail2 u Hi Hu Hc). cbn [fst snd].
      repeat split; try discriminate; try reflexivity. lia. }
    destruct (Hok u Hi Hu Hc) as (st' & -> & Hnew & _ & Hledger & _).
    cbn [fst snd]. repeat split; try discriminate; try lia.
    + rewrite Hnew. cbn. now rewrite Hl3.
    + rewrite Hledger, Hl3. reflexivity.
Qed.

End Enhance.

(** ** Trading *)
Section Trading.
Import Plugin.
Implicit Types (st : Plugin.State) (d : gmap string UserEntry)
  (uid symbol : string) (e : UserEntry).

Lemma fee_of_max total_price :
  fee_of total_price = Z.max 1 (Py.ceil (inject_Z total_price * (5 # 100))).
Proof.
  unfold fee_of.
  destruct (Z.ltb_spec (Py.ceil (inject_Z total_price * (5 # 100))) 1); lia.
Qed.

Lemma fee_of_positive total_price : 1 <= fee_of total_price.
Proof. rewrite fee_of_max. lia. Qed.

(** A positive balance is a recorded one. *)
Lemma get_gold_positive uid d :
  0 < get_gold uid d ->
  exists e, d !! uid = Some e /\ gold e = Some (get_gold uid d).
Proof.
  unfold get_gold. destruct (d !! uid) as [e|]; [|lia].
  destruct (gold e) as [g|] eqn:Hg; simpl; [eauto|lia].
Qed.

(** The entry of the buyer after a purchase that went through. *)
Lemma BuyStock_execute_entry uid symbol quantity stock_info st st1 :
  BuyStock_execute uid symbol quantity (Some stock_info) st
    = (st1, (true, MsgBought)) ->
  exists total_price,
    total_price_of stock_info quantity = Some total_price /\
    0 < quantity /\
    total_price + fee_of total_price <= get_gold uid (data st) /\
    (0 < get_gold uid (data st) ->
     exists held owned,
       data st1 !! uid =
         Some {| gold := Some (get_gold uid (data st)
                               - (total_price + fee_of total_price));
                 stocks := Some held |} /\
       held !! symbol = Some (owned + quantity)).
Proof.
  intros Hbuy. unfold BuyStock_execute in Hbuy.
  destruct (Z.leb_spec quantity 0) as [|Hq]; [discriminate|].
  destruct (total_price_of stock_info quantity) as [total_price|]; [|discriminate].
  exists total_price. split; [reflexivity|].
  cbv zeta in Hbuy.
  destruct (Z.ltb_spec (get_gold uid (data st)) (total_price + fee_of total_price))
    as [|Hg]; [discriminate|].
  injection Hbuy as <-. split; [assumption|]. split; [assumption|].
  intros Hpos. destruct (get_gold_positive _ _ Hpos) as (e & He & Hgold).
  cbn [data]. unfold add_shares, add_gold. rewrite He.
  rewrite lookup_alter_eq, He. cbn [default from_option fmap option_fmap option_map].
  exists (<[symbol := default 0 (default ∅ (stocks e) !! symbol) + quantity]>
            (default ∅ (stocks e))),
         (default 0 (default ∅ (stocks e) !! symbol)).
  rewrite lookup_insert_eq. split.
  - unfold credit. rewrite Hgold. cbn [gold stocks default from_option id].
    rewrite Z.max_r by lia. reflexivity.
  - apply lookup_insert_eq.
Qed.

(** C9. When a purchase goes through and a sale of the same quantity at the
    same price follows and goes through, the buyer's coins end lower by
    exactly two fees, the fee being max(1, ceil(total_price * 0.05)) and the
    total price int(round(price * quantity)), the product being exact at an
    int price and that of binary64 at a float price; the purchase takes
    total price plus fee, the sale gives back total price minus fee. *)
Theorem buy_then_sell_loses_two_fees uid symbol quantity stock_info st st1 st2 :
  BuyStock_execute uid symbol quantity (Some stock_info) st
    = (st1, (true, MsgBought)) ->
  SellStock_execute uid symbol quantity (Some stock_info) st1
    = (st2, (true, MsgSold)) ->
  exists total_price,
    total_price_of stock_info quantity = Some total_price /\
    match price stock_info with
    | PyInt p => total_price = p * quantity
    | PyFloat x =>
        exists q, Binary64.float_of_int quantity = Some q /\
                  Binary64.round_checked (PrimFloat.mul x q) = Some total_price /\
                  total_price = Binary64.round (PrimFloat.mul x q)
    end /\
    let fee := Z.max 1 (Py.ceil (inject_Z total_price * (5 # 100))) in
    fee_of total_price = fee /\
    get_gold uid (data st1) = get_gold uid (data st) - (total_price + fee) /\
    get_gold uid (data st2) = get_gold uid (data st1) + (total_price - fee) /\
    get_gold uid (data st2) = get_gold uid (data st) - 2 * fee /\
    get_gold uid (data st2) < get_gold uid (data st).
Proof.
  intros Hbuy Hsell.
  apply BuyStock_execute_entry in Hbuy
    as (total_price & HT & Hq & Hafford & Hentry).
  exists total_price. split; [exact HT|]. split.
  { unfold total_price_of in HT. destruct (price stock_info) as [p|x].
    - congruence.
    - destruct (Binary64.float_of_int quantity) as [q|]; [|discriminate].
      exists q. split; [reflexivity|]. split; [exact HT|].
      unfold Binary64.round_checked in HT.
      destruct (Prim2SF (PrimFloat.mul x q)); congruence. }
  intros fee.
  assert (Hfee : fee_of total_price = fee) by apply fee_of_max.
  assert (Hfee1 : 1 <= fee) by (subst fee; lia).
  clearbody fee. rewrite Hfee in Hafford, Hentry.
  unfold SellStock_execute in Hsell.
  destruct (Z.leb_spec quantity 0); [lia|].
  destruct (data st1 !! uid) as [e1|] eqn:He1; [|discriminate].
  destruct (stocks e1) as [held|] eqn:Hheld; [|discriminate].
  destruct (held !! symbol) as [owned_quantity|] eqn:Howned; [|discriminate].
  destruct (Z.ltb_spec owned_quantity quantity); [discriminate|].
  rewrite HT in Hsell. cbv zeta in Hsell. rewrite Hfee in Hsell.
  destruct (Z.leb_spec total_price fee) as [|Hnet]; [discriminate|].
  assert (Hpos : 0 < get_gold uid (data st)) by lia.
  destruct (Hentry Hpos) as (held' & owned' & He1' & _).
  injection He1' as ->.
  assert (Hg1 : get_gold uid (data st1)
                = get_gold uid (data st) - (total_price + fee)).
  { unfold get_gold at 1. rewrite He1. reflexivity. }
  assert (Hg2 : get_gold uid (data st2)
                = get_gold uid (data st1) + (total_price - fee)).
  { injection Hsell as <-. unfold get_gold at 1. cbn [data].
    rewrite lookup_insert_eq.
    unfold credit. cbn [gold default from_option id]. rewrite Hg1. lia. }
  repeat split; try assumption; lia.
Qed.

(** Two round trips from 100000 coins.  Five shares at the int price 10:
    total 50, 3 coins of fee each way.  Fifty-five shares at the float price
    1.1: the binary64 product is 60.500000000000007, so the total is 61 and
    the fee 4 each way, where the exact product 60.5 would give 60 and 3. *)
Lemma buy_then_sell_loses_two_fees_witness :
  let st1 := fst (BuyStock_execute "u" "01" 5 (Samples.info "01") Samples.trader) in
  let st2 := fst (SellStock_execute "u" "01" 5 (Samples.info "01") st1) in
  let st3 := fst (BuyStock_execute "u" "01" 55 (Some Samples.info_float)
                    Samples.trader) in
  let st4 := fst (SellStock_execute "u" "01" 55 (Some Samples.info_float) st3) in
  get_gold "u" (data Samples.trader) = 100000 /\
  get_gold "u" (data st2) = 100000 - 2 * 3 /\
  total_price_of Samples.info_float 55 = Some 61 /\
  get_gold "u" (data st3) = 100000 - (61 + 4) /\
  get_gold "u" (data st4) = 100000 - 2 * 4.
Proof.
  intros st1 st2 st3 st4. split; [reflexivity|].
  destruct (buy_then_sell_loses_two_fees "u" "01" 5
              (mkStockInfo "麦街股份" (PyInt 10)) Samples.trader st1 st2)
    as (total_price & HT & _ & _ & _ & _ & Hloss & _).
  { vm_compute. reflexivity. }
  { vm_compute. reflexivity. }
  destruct (buy_then_sell_loses_two_fees "u" "01" 55
              Samples.info_float Samples.trader st3 st4)
    as (total_price' & HT' & _ & _ & Hg3 & _ & Hloss' & _).
  { vm_compute. reflexivity. }
  { vm_compute. reflexivity. }
  assert (H50 : total_price = 50) by (vm_compute in HT; congruence).
  assert (H61 : total_price' = 61) by (vm_compute in HT'; congruence).
  subst total_price total_price'.
  split; [rewrite Hloss; vm_compute; reflexivity|].
  split; [vm_compute; reflexivity|].
  split; [rewrite Hg3; vm_compute; reflexivity|].
  rewrite Hloss'. vm_compute. reflexivity.
Defined.

(** C3. The weight of a symbol leaves [-0.2, 0.2].  From weight 0, one
    sale of 1000 shares makes it 1; twenty-one sales of 12 shares make it 0.21;
    one purchase of 250 shares makes it -0.25.  On binary64 floats the same
    three runs end at 1.0, above 0.2 and at -0.25. *)
Theorem weight_leaves_clamp :
  let sold := execute Samples.info (Sell "u" "01" 1000) Samples.trader in
  let sold21 :=
    execute_all Samples.info (repeat (Sell "u" "01" 12) 21) Samples.trader in
  let bought := execute Samples.info (Buy "u" "01" 250) Samples.trader in
  (weight_of "01" (stock_data Samples.trader) == 0)%Q /\
  snd (SellStock_execute "u" "01" 1000 (Samples.info "01") Samples.trader)
    = (true, MsgSold) /\
  (weight_of "01" (stock_data sold) == 1)%Q /\
  (2 # 10 < weight_of "01" (stock_data sold))%Q /\
  (weight_of "01" (stock_data sold21) == 21 # 100)%Q /\
  (2 # 10 < weight_of "01" (stock_data sold21))%Q /\
  snd (BuyStock_execute "u" "01" 250 (Samples.info "01") Samples.trader)
    = (true, MsgBought) /\
  (weight_of "01" (stock_data bought) == - (25 # 100))%Q /\
  (weight_of "01" (stock_data bought) < - (2 # 10))%Q /\
  PrimFloat.eqb (Binary64.new_weight 0.01%float 1000 0%float) 1%float = true /\
  PrimFloat.ltb 0.2%float (Binary64.run_weight 0.01%float (repeat 12 21) 0%float)
    = true /\
  PrimFloat.ltb (Binary64.new_weight (-0.01)%float 250 0%float) (-0.2)%float
    = true.
Proof. vm_compute. repeat split; reflexivity. Qed.

End Trading.

(** ** The rational reading against binary64 *)
Section Floats.

(** [int(base_items * 0.1 * (level - 1))] on floats is the truncated quotient
    for every base of the table (and 0) at the levels 1 to 1000. *)
Lemma binary64_extra_items_agree :
  forallb (fun base_items =>
    forallb (fun lvl =>
      Binary64.extra_items base_items lvl =? (base_items * (lvl - 1)) ÷ 10)
      (seqZ 1 1000))
    [0; 1; 5; 20; 50; 100] = true.
Proof. vm_compute. reflexivity. Qed.

(** [math.ceil(total_price * 0.05)] on floats is the rational ceiling for
    every total price from 0 to 4000. *)
Lemma binary64_fee_agree :
  forallb (fun total_price =>
    Binary64.raw_fee total_price =? Py.ceil (inject_Z total_price * (5 # 100)))
    (seqZ 0 4001) = true.
Proof. vm_compute. reflexivity. Qed.

(** The shares per weight unit agree at every weight k/100 between -1 and 1. *)
Lemma binary64_required_per_unit_agree :
  forallb (fun k =>
    Binary64.required_per_unit_of
      (PrimFloat.div (Binary64.of_int k) 100%float)
    =? Plugin.required_per_unit_of (k # 100))
    (seqZ (-100) 201) = true.
Proof. vm_compute. reflexivity. Qed.

(** The total price of a trade.  At the float price 10.0 it is that of the
    int price 10 for every quantity from 1 to 4000.  Away from such prices
    the binary64 product decides: 1.1 * 55 is 60.500000000000007 and rounds
    to 61, 0.7 * 45 is 31.499999999999996 and rounds to 31, 2.675 * 100 is
    267.5 and rounds to the even 268, where the products of the decimal
    prices would round to 60, 32 and 268.  A quantity of 10^400 has no
    float, and the product with an infinite or NaN price no integer: the
    command raises; at an int price any quantity goes. *)
Lemma binary64_total_price :
  let at_price x quantity :=
    Plugin.total_price_of (Plugin.mkStockInfo "" x) quantity in
  forallb (fun quantity =>
    bool_decide (at_price (Plugin.PyFloat 10) quantity
                 = at_price (Plugin.PyInt 10) quantity))
    (seqZ 1 4000) = true /\
  at_price (Plugin.PyFloat 1.1) 55 = Some 61 /\
  Py.round ((11 # 10) * 55) = 60 /\
  at_price (Plugin.PyFloat 0.7) 45 = Some 31 /\
  Py.round ((7 # 10) * 45) = 32 /\
  at_price (Plugin.PyFloat 2.675) 100 = Some 268 /\
  Py.round ((2675 # 1000) * 100) = 268 /\
  at_price (Plugin.PyFloat 10) (10 ^ 400) = None /\
  at_price (Plugin.PyInt 10) (10 ^ 400) = Some (10 ^ 401) /\
  at_price (Plugin.PyFloat infinity) 1 = None /\
  at_price (Plugin.PyFloat nan) 1 = None.
Proof. vm_compute. repeat split; reflexivity. Qed.

(** Where the rational reading of the weight leaves binary64: a purchase of
    1650 shares at weight 0 stores -1.6500000000000001, below the float
    -1.65, and a unit of weight then takes 27 shares; on the rationals the
    weight is -1.65 and a unit takes 26. *)
Lemma binary64_weight_drift :
  let w := Binary64.new_weight (-0.01)%float 1650 0%float in
  PrimFloat.ltb w (-1.65)%float = true /\
  Binary64.required_per_unit_of w = 27 /\
  Plugin.required_per_unit_of (- (165 # 100)) = 26.
Proof. vm_compute. repeat split; reflexivity. Qed.

End Floats.

(** * Further properties of the artifact store *)

Section DictMore.
Context {V : Type}.
Implicit Types (d : dict V) (k : Z) (v : V).

Lemma dict_set_same k v d : dict_get k d = Some v -> dict_set k v d = d.
Proof.
  induction d as [|[k' v'] d IH]; simpl; [discriminate|].
  destruct (Z.eqb_spec k k') as [->|Hne].
  - now intros [= ->].
  - intros H. now rewrite IH.
Qed.

Lemma dict_set_set k v v' d : dict_set k v (dict_set k v' d) = dict_set k v d.
Proof.
  induction d as [|[k0 v0] d IH]; simpl.
  - now rewrite Z.eqb_refl.
  - destruct (Z.eqb_spec k k0) as [->|Hne]; simpl.
    + now rewrite Z.eqb_refl.
    + destruct (Z.eqb_spec k k0); [contradiction|]. now rewrite IH.
Qed.

Lemma dict_set_fresh_app k v d :
  dict_mem k d = false -> dict_set k v d = d ++ [(k, v)].
Proof.
  unfold dict_mem.
  induction d as [|[k' v'] d IH]; simpl; [reflexivity|].
  destruct (Z.eqb k k'); [discriminate|].
  intros H. now rewrite IH.
Qed.

Lemma dict_keys_set_any k v d :
  dict_mem k d = true -> dict_keys (dict_set k v d) = dict_keys d.
Proof. apply dict_keys_set_mem. Qed.

Lemma dict_mem_keys k d : dict_mem k d = true <-> In k (dict_keys d).
Proof.
  unfold dict_mem, dict_keys.
  induction d as [|[k' v'] d IH]; simpl.
  - split; [discriminate|tauto].
  - destruct (Z.eqb_spec k k') as [->|Hne].
    + split; auto.
    + rewrite IH. split; [auto|]. intros [H|H]; [congruence|assumption].
Qed.

Lemma dict_del_absent k d : dict_mem k d = false -> dict_del k d = d.
Proof.
  unfold dict_mem.
  induction d as [|[k' v'] d IH]; simpl; [reflexivity|].
  destruct (Z.eqb k k'); [discriminate|].
  intros H. now rewrite IH.
Qed.

End DictMore.

Section DictFold.
Context {V W : Type}.

(** Writing the images of the entries of a dictionary one by one into an
    empty dictionary gives the entries mapped, in the same order. *)
Lemma fold_dict_set_map (f : Z -> V -> W) (d : dict V) : forall acc : dict W,
  NoDup (dict_keys acc ++ dict_keys d) ->
  fold_left (fun data kv => dict_set (fst kv) (f (fst kv) (snd kv)) data) d acc
  = acc ++ map (fun kv => (fst kv, f (fst kv) (snd kv))) d.
Proof.
  induction d as [|[k v] d IH]; intros acc Hnd; simpl.
  - now rewrite app_nil_r.
  - assert (Hfresh : dict_mem k acc = false).
    { destruct (dict_mem k acc) eqn:Hm; [|reflexivity].
      apply dict_mem_keys in Hm. exfalso.
      apply NoDup_app in Hnd as (_ & Hdisj & _).
      apply (Hdisj k); [now apply list_elem_of_In|]. simpl. left. }
    rewrite (dict_set_fresh_app _ _ _ Hfresh). rewrite IH.
    + now rewrite <- app_assoc.
    + unfold dict_keys in *. rewrite map_app. simpl in *.
      rewrite <- app_assoc. exact Hnd.
Qed.

End DictFold.

Section Store.
Import ArtifactSave.
Implicit Types (d : dict Artifact) (a artifact : Artifact) (k : Z).

Lemma dict_set_In {V : Type} (k k' : Z) (v v' : V) (d : dict V) :
  In (k', v') (dict_set k v d) -> (k', v') = (k, v) \/ In (k', v') d.
Proof.
  induction d as [|[k0 v0] d IH]; simpl.
  - intros [H|[]]. now left.
  - destruct (Z.eqb k k0); simpl.
    + intros [H|H]; [now left|right; now right].
    + intros [H|H]; [right; now left|]. destruct (IH H); [now left|right; now right].
Qed.

Lemma dict_del_In {V : Type} (k k' : Z) (v' : V) (d : dict V) :
  In (k', v') (dict_del k d) -> In (k', v') d.
Proof.
  induction d as [|[k0 v0] d IH]; simpl; [tauto|].
  destruct (Z.eqb k k0); simpl; [now right|].
  intros [H|H]; [now left|right; auto].
Qed.

(** X1. After [add_new_artifact] the artifact is found under its id and
    every other id reads as before; an id the store did not hold is appended
    last, an id it held is replaced in place, the order of the keys kept. *)
Theorem add_new_artifact_get artifact d :
  get_artifact_by_id (artifact_id artifact) (add_new_artifact artifact d)
    = Some artifact /\
  (forall k, k <> artifact_id artifact ->
     get_artifact_by_id k (add_new_artifact artifact d) = get_artifact_by_id k d) /\
  (dict_mem (artifact_id artifact) d = false ->
     add_new_artifact artifact d = d ++ [(artifact_id artifact, artifact)]) /\
  (dict_mem (artifact_id artifact) d = true ->
     dict_keys (add_new_artifact artifact d) = dict_keys d).
Proof.
  unfold get_artifact_by_id, add_new_artifact. repeat split.
  - apply dict_get_set_eq.
  - intros k Hne. apply dict_get_set_ne. congruence.
  - apply dict_set_fresh_app.
  - apply dict_keys_set_mem.
Qed.

(** X2. In a store with distinct keys, [delete_artifact] answers whether
    the id was there; afterwards the id is not found, every other id reads as
    before, and the store is one entry shorter, or untouched when the id was
    absent. *)
Theorem delete_artifact_get k d :
  dict_wf d ->
  snd (delete_artifact k d) = dict_mem k d /\
  get_artifact_by_id k (fst (delete_artifact k d)) = None /\
  (forall k', k' <> k ->
     get_artifact_by_id k' (fst (delete_artifact k d)) = get_artifact_by_id k' d) /\
  (dict_mem k d = true ->
     dict_len (fst (delete_artifact k d)) = dict_len d - 1) /\
  (dict_mem k d = false -> fst (delete_artifact k d) = d).
Proof.
  intros Hwf. unfold delete_artifact, get_artifact_by_id.
  destruct (dict_mem k d) eqn:Hmem; simpl; repeat split; try discriminate.
  - now apply dict_get_del_eq.
  - intros k' Hne. apply dict_get_del_ne. congruence.
  - intros _. unfold dict_len. pose proof (dict_del_length k d Hmem). lia.
  - now apply dict_mem_false.
Qed.

Lemma delete_artifact_get_witness :
  let d := artifact_data Samples.three_stored in
  snd (delete_artifact 2 d) = true /\
  get_artifact_by_id 2 (fst (delete_artifact 2 d)) = None /\
  dict_len (fst (delete_artifact 2 d)) = 2.
Proof.
  intros d.
  assert (Hwf : dict_wf d).
  { unfold dict_wf. apply (bool_decide_unpack _). vm_compute. exact I. }
  destruct (delete_artifact_get 2 d Hwf) as (Hok & Hget & _ & Hlen & _).
  split; [exact Hok|]. split; [exact Hget|].
  rewrite Hlen by reflexivity. reflexivity.
Defined.

Lemma load_save_artifact k a :
  artifact_id a = k -> load_artifact k (save_artifact a) = a.
Proof. intros <-. destruct a. reflexivity. Qed.

(** X3. Saving a store and loading the document back gives the same store,
    entry for entry and in the same order, when the keys are distinct and
    each artifact is stored under its own id. *)
Theorem save_load_round_trip d (old : dict Artifact) :
  dict_wf d -> keyed_by_id d ->
  load_artifact_data (save_artifact_data d) old = d.
Proof.
  intros Hwf Hkeyed. unfold save_artifact_data, load_artifact_data.
  rewrite (fold_dict_set_map (fun _ a => save_artifact a) d []) by exact Hwf.
  rewrite app_nil_l.
  rewrite (fold_dict_set_map (fun k info => load_artifact k info)).
  - rewrite app_nil_l, map_map. simpl.
    rewrite <- (map_id d) at 2. apply map_ext_in.
    intros [k a] Hin. simpl. f_equal. apply load_save_artifact. eauto.
  - simpl. unfold dict_keys. rewrite map_map. simpl. exact Hwf.
Qed.

Lemma save_load_round_trip_witness :
  load_artifact_data
    (save_artifact_data (artifact_data Samples.three_stored)) []
  = artifact_data Samples.three_stored.
Proof.
  apply save_load_round_trip.
  - unfold dict_wf. apply (bool_decide_unpack _). vm_compute. exact I.
  - intros k a Hin. simpl in Hin.
    destruct Hin as [[= <- <-]|[[= <- <-]|[[= <- <-]|[]]]]; reflexivity.
Defined.

Lemma load_fold_invariant data : forall acc : dict Artifact,
  dict_wf acc -> keyed_by_id acc ->
  let d := fold_left
    (fun acc kv => dict_set (fst kv) (load_artifact (fst kv) (snd kv)) acc)
    data acc in
  dict_wf d /\ keyed_by_id d.
Proof.
  induction data as [|[k info] data IH]; intros acc Hwf Hkeyed; simpl; [auto|].
  apply IH.
  - now apply dict_set_wf.
  - intros k' a' Hin. apply dict_set_In in Hin as [[= -> ->]|Hin]; [reflexivity|eauto].
Qed.

(** X4. The store invariant: the keys are distinct and every artifact sits
    under its own id.  Every loaded store has it, whatever the document holds,
    and [add_new_artifact], [delete_artifact], [lock_artifact],
    [unlock_artifact], [update_artifact] and [add_new_artifact_to_user]
    keep it. *)
Theorem store_invariant_kept :
  (forall data old,
     dict_wf (load_artifact_data (FileParsed data) old) /\
     keyed_by_id (load_artifact_data (FileParsed data) old)) /\
  (forall d, dict_wf d -> keyed_by_id d ->
     (forall a, dict_wf (add_new_artifact a d) /\ keyed_by_id (add_new_artifact a d)) /\
     (forall k, dict_wf (fst (delete_artifact k d)) /\
                keyed_by_id (fst (delete_artifact k d))) /\
     (forall k, dict_wf (fst (ArtifactData.lock_artifact k d)) /\
                keyed_by_id (fst (ArtifactData.lock_artifact k d))) /\
     (forall k, dict_wf (fst (ArtifactData.unlock_artifact k d)) /\
                keyed_by_id (fst (ArtifactData.unlock_artifact k d))) /\
     (forall a, dict_wf (fst (update_artifact a d)) /\
                keyed_by_id (fst (update_artifact a d))) /\
     (forall userId a users,
        let st' := add_new_artifact_to_user userId a
                     {| artifact_data := d; users := users |} in
        dict_wf (artifact_data st') /\ keyed_by_id (artifact_data st'))).
Proof.
  assert (Hset : forall d a, dict_wf d -> keyed_by_id d ->
            dict_wf (dict_set (artifact_id a) a d) /\
            keyed_by_id (dict_set (artifact_id a) a d)).
  { intros d a Hwf Hkeyed. split; [now apply dict_set_wf|].
    intros k' a' Hin. apply dict_set_In in Hin as [[= -> ->]|Hin]; [reflexivity|eauto]. }
  assert (Hdel : forall d k, dict_wf d -> keyed_by_id d ->
            dict_wf (dict_del k d) /\ keyed_by_id (dict_del k d)).
  { intros d k Hwf Hkeyed. split; [now apply dict_del_wf|].
    intros k' a' Hin. apply dict_del_In in Hin. eauto. }
  assert (Hflag : forall d k b a, dict_wf d -> keyed_by_id d ->
            dict_get k d = Some a ->
            dict_wf (dict_set k (set_is_locked b a) d) /\
            keyed_by_id (dict_set k (set_is_locked b a) d)).
  { intros d k b a Hwf Hkeyed Hget.
    assert (Hk : artifact_id (set_is_locked b a) = k)
      by (simpl; eapply Hkeyed, dict_get_In, Hget).
    rewrite <- Hk at 1 2. now apply Hset. }
  split.
  - intros data old. unfold load_artifact_data.
    apply (load_fold_invariant data []).
    + unfold dict_wf. simpl. apply NoDup_nil_2.
    + intros k a [].
  - intros d Hwf Hkeyed. repeat apply conj.
    + intros a. now apply Hset.
    + intros k. unfold delete_artifact.
      destruct (dict_mem k d); simpl; [now apply Hdel|auto].
    + intros k. unfold ArtifactData.lock_artifact.
      destruct (dict_get k d) as [a|] eqn:Hget; simpl; [now apply Hflag|auto].
    + intros k. unfold ArtifactData.unlock_artifact.
      destruct (dict_get k d) as [a|] eqn:Hget; simpl; [now apply Hflag|auto].
    + intros a. unfold update_artifact.
      destruct (dict_mem (artifact_id a) d); simpl; [now apply Hset|auto].
    + intros userId a users st'. subst st'.
      unfold add_new_artifact_to_user, add_new_artifact, delete_artifact.
      cbn [artifact_data].
      destruct (is_artifact_storage_full d).
      * destruct (lowest_level_artifact_id d) as [k|]; [|simpl; auto].
        destruct (dict_mem k d); simpl.
        -- destruct (Hdel d k Hwf Hkeyed). now apply Hset.
        -- now apply Hset.
      * simpl. now apply Hset.
Qed.

End Store.

Section LockAndDisassemble.
Implicit Types (d : dict Artifact) (a : Artifact) (k : Z) (st : State)
  (userId : string).

Lemma set_is_locked_same a : set_is_locked (is_locked a) a = a.
Proof. destruct a. reflexivity. Qed.

(** X5. [lock_artifact] and [unlock_artifact] answer False on an id the
    store does not hold and leave the store alone.  On an id it holds,
    locking sets the flag of that artifact and touches nothing else (same
    keys in the same order, every other id reads as before); locking again
    changes nothing; unlocking an artifact that was unlocked before the lock
    gives back the store as it was. *)
Theorem lock_unlock_artifact k d :
  (dict_get k d = None ->
     ArtifactData.lock_artifact k d = (d, false) /\
     ArtifactData.unlock_artifact k d = (d, false)) /\
  (forall a, dict_get k d = Some a ->
     let d1 := fst (ArtifactData.lock_artifact k d) in
     snd (ArtifactData.lock_artifact k d) = true /\
     dict_get k d1 = Some (set_is_locked true a) /\
     (forall k', k' <> k -> dict_get k' d1 = dict_get k' d) /\
     dict_keys d1 = dict_keys d /\
     ArtifactData.lock_artifact k d1 = (d1, true) /\
     (is_locked a = true -> d1 = d) /\
     (is_locked a = false -> ArtifactData.unlock_artifact k d1 = (d, true))).
Proof.
  unfold ArtifactData.lock_artifact, ArtifactData.unlock_artifact. split.
  - intros ->. split; reflexivity.
  - intros a Hget. rewrite Hget. cbn [fst snd].
    assert (Hget1 : dict_get k (dict_set k (set_is_locked true a) d)
                    = Some (set_is_locked true a)) by apply dict_get_set_eq.
    repeat apply conj.
    + reflexivity.
    + exact Hget1.
    + intros k' Hne. apply dict_get_set_ne. congruence.
    + apply dict_keys_set_mem. apply dict_mem_get. eauto.
    + rewrite Hget1. now rewrite dict_set_set.
    + intros Hl. apply dict_set_same. rewrite Hget, <- Hl.
      now rewrite set_is_locked_same.
    + intros Hl. rewrite Hget1, dict_set_set. f_equal.
      apply dict_set_same. rewrite Hget. f_equal.
      rewrite <- Hl at 1. destruct a. reflexivity.
Qed.

(** X6. In a store with distinct keys, [disassemble_artifact] fails and
    changes nothing when the id is absent or the artifact is locked.
    Otherwise it succeeds: the artifact is gone, every other id reads as
    before, the store is one entry shorter, and the user's upgrade items grow
    by exactly the yield of the artifact.  It never answers with the
    generic failure message. *)
Theorem disassemble_artifact_effect userId k st :
  dict_wf (artifact_data st) ->
  let res := disassemble_artifact userId k st in
  (dict_get k (artifact_data st) = None ->
     res = (st, (false, MsgArtifactNotFound))) /\
  (forall a, dict_get k (artifact_data st) = Some a -> is_locked a = true ->
     res = (st, (false, MsgArtifactLocked))) /\
  (forall a, dict_get k (artifact_data st) = Some a -> is_locked a = false ->
     let n := get_reinforcement_items_from_disassembly a in
     snd res = (true, MsgDisassembled a n) /\
     dict_get k (artifact_data (fst res)) = None /\
     (forall k', k' <> k ->
        dict_get k' (artifact_data (fst res)) = dict_get k' (artifact_data st)) /\
     dict_len (artifact_data (fst res)) = dict_len (artifact_data st) - 1 /\
     (forall u, users st !! userId = Some u ->
        users (fst res) !! userId =
          Some {| coins := coins u;
                  artifact_upgrade_items := artifact_upgrade_items u + n;
                  artifact_re_roll_items := artifact_re_roll_items u |}) /\
     (forall other, other <> userId ->
        users (fst res) !! other = users st !! other)) /\
  snd (snd res) <> MsgDisassembleFailed.
Proof.
  intros Hwf res. subst res.
  unfold disassemble_artifact, get_artifact_by_id, delete_artifact.
  destruct (dict_get k (artifact_data st)) as [a|] eqn:Hget.
  - assert (Hmem : dict_mem k (artifact_data st) = true)
      by (apply dict_mem_get; eauto).
    rewrite Hmem. destruct (is_locked a) eqn:Hl; cbn [fst snd].
    + split; [discriminate|]. split; [|split; [|discriminate]].
      * intros a' [= <-] _. reflexivity.
      * intros a' [= <-] Hun. congruence.
    + split; [discriminate|]. split; [|split; [|discriminate]].
      * intros a' [= <-] Hlk. congruence.
      * intros a' [= <-] _. cbn [artifact_data users set_users set_artifact_data].
        split; [reflexivity|]. split; [now apply dict_get_del_eq|].
        split; [intros k' Hne; apply dict_get_del_ne; congruence|].
        split.
        { unfold dict_len. pose proof (dict_del_length k _ Hmem). lia. }
        split.
        { intros u Hu. now apply add_artifact_upgrade_items_lookup. }
        { intros other Hne. now apply add_artifact_upgrade_items_other. }
  - split; [reflexivity|]. split; [discriminate|]. split; discriminate.
Qed.

Lemma disassemble_artifact_effect_witness :
  let res := disassemble_artifact "u" 1 Samples.three_stored in
  snd res = (true, MsgDisassembled (Samples.common 1 3 false) 1) /\
  dict_get 1 (artifact_data (fst res)) = None /\
  users (fst res) !! "u" = Some (mkUser 150 1 0).
Proof.
  intros res.
  assert (Hwf : dict_wf (artifact_data Samples.three_stored)).
  { unfold dict_wf. apply (bool_decide_unpack _). vm_compute. exact I. }
  destruct (disassemble_artifact_effect "u" 1 Samples.three_stored Hwf)
    as (_ & _ & Hok & _).
  destruct (Hok (Samples.common 1 3 false)) as (Hres & Hgone & _ & _ & Hu & _);
    try reflexivity.
  split; [exact Hres|]. split; [exact Hgone|].
  apply (Hu (mkUser 150 0 0)). vm_compute. reflexivity.
Defined.

(** X7. Once [lock_artifact] has succeeded, [disassemble_artifact] on the
    same id fails with the locked message and changes nothing; once
    [unlock_artifact] has succeeded, it goes through. *)
Theorem lock_blocks_disassembly userId k st :
  (snd (ArtifactCore.lock_artifact userId k st) = true ->
     let st1 := fst (ArtifactCore.lock_artifact userId k st) in
     disassemble_artifact userId k st1 = (st1, (false, MsgArtifactLocked))) /\
  (snd (ArtifactCore.unlock_artifact userId k st) = true ->
     let st1 := fst (ArtifactCore.unlock_artifact userId k st) in
     fst (snd (disassemble_artifact userId k st1)) = true).
Proof.
  unfold ArtifactCore.lock_artifact, ArtifactCore.unlock_artifact,
    ArtifactData.lock_artifact, ArtifactData.unlock_artifact.
  destruct (dict_get k (artifact_data st)) as [a|] eqn:Hget; cbn [fst snd];
    [|split; discriminate].
  split; intros _;
    unfold disassemble_artifact, get_artifact_by_id, delete_artifact;
    cbn [artifact_data set_artifact_data];
    rewrite dict_get_set_eq; cbn [is_locked set_is_locked]; [reflexivity|].
  assert (Hmem : dict_mem k (dict_set k (set_is_locked false a) (artifact_data st))
                 = true).
  { apply dict_mem_get. rewrite dict_get_set_eq. eauto. }
  rewrite Hmem. reflexivity.
Qed.

End LockAndDisassemble.

Section Eviction.
Implicit Types (d : dict Artifact) (a : Artifact) (k : Z) (userId : string).

Lemma scan_stays d l k :
  (forall k' a', In (k', a') d -> is_locked a' = false -> l <= level a') ->
  fold_left scan_step d (Some l, Some k) = (Some l, Some k).
Proof.
  induction d as [|[k0 a0] d IH]; intros Hall; simpl; [reflexivity|].
  destruct (is_locked a0) eqn:Hl; simpl.
  - apply IH. intros k' a' Hin. apply (Hall k'). now right.
  - destruct (Z.ltb_spec (level a0) l) as [Hlt|Hge].
    + specialize (Hall k0 a0 (or_introl eq_refl) Hl). lia.
    + apply IH. intros k' a' Hin. apply (Hall k'). now right.
Qed.

Lemma scan_prefix d m :
  (forall k' a', In (k', a') d -> is_locked a' = false -> m < level a') ->
  below m (fst (fold_left scan_step d (None, None))) = true.
Proof.
  intros Hall.
  assert (Hinv : scan_inv ([] ++ d) (fold_left scan_step d (None, None))).
  { apply scan_fold_inv. simpl. tauto. }
  simpl in Hinv.
  destruct (fold_left scan_step d (None, None)) as [[l|] [k0|]];
    simpl in *; try tauto.
  destruct Hinv as (a0 & Hin & Hun & <- & _).
  apply Z.ltb_lt. exact (Hall _ _ Hin Hun).
Qed.

(** The loop returns the first, in insertion order, of the unlocked entries
    of lowest level. *)
Lemma lowest_level_artifact_id_first d1 k a d2 :
  is_locked a = false ->
  (forall k' a', In (k', a') d1 -> is_locked a' = false -> level a < level a') ->
  (forall k' a', In (k', a') d2 -> is_locked a' = false -> level a <= level a') ->
  lowest_level_artifact_id (d1 ++ (k, a) :: d2) = Some k.
Proof.
  intros Hun H1 H2. unfold lowest_level_artifact_id.
  rewrite fold_left_app.
  pose proof (scan_prefix d1 (level a) H1) as Hb.
  change (fold_left scan_step ((k, a) :: d2) (fold_left scan_step d1 (None, None)))
    with (fold_left scan_step d2
            (scan_step (fold_left scan_step d1 (None, None)) (k, a))).
  assert (Hstep : scan_step (fold_left scan_step d1 (None, None)) (k, a)
                  = (Some (level a), Some k)).
  { revert Hb. generalize (fold_left scan_step d1 (None, None)).
    intros acc Hb. unfold scan_step. now rewrite Hun, Hb. }
  rewrite Hstep. now rewrite scan_stays.
Qed.

Lemma dict_del_app_fresh {V : Type} (k : Z) (v : V) (d1 d2 : dict V) :
  dict_mem k d1 = false -> dict_del k (d1 ++ (k, v) :: d2) = d1 ++ d2.
Proof.
  unfold dict_mem.
  induction d1 as [|[k' v'] d1 IH]; simpl.
  - now rewrite Z.eqb_refl.
  - destruct (Z.eqb k k'); [discriminate|]. intros H. now rewrite IH.
Qed.

(** X8. When the store is at capacity, the artifact evicted by
    [add_new_artifact_to_user] is the first, in insertion order, of the
    unlocked artifacts of lowest level: every unlocked artifact before it
    has a higher level, every unlocked one after it a level at least as
    high.  It is removed from its place, the new artifact, its id being
    unused, goes last, and nothing else moves; the ledger is as before. *)
Theorem eviction_takes_first_lowest userId new d1 k a d2 users :
  let d := d1 ++ (k, a) :: d2 in
  dict_wf d ->
  20 <= dict_len d ->
  is_locked a = false ->
  (forall k' a', In (k', a') d1 -> is_locked a' = false -> level a < level a') ->
  (forall k' a', In (k', a') d2 -> is_locked a' = false -> level a <= level a') ->
  dict_mem (artifact_id new) d = false ->
  add_new_artifact_to_user userId new {| artifact_data := d; users := users |}
  = {| artifact_data := d1 ++ d2 ++ [(artifact_id new, new)]; users := users |}.
Proof.
  intros d Hwf Hlen Hun H1 H2 Hfresh.
  assert (Hk : lowest_level_artifact_id d = Some k)
    by now apply lowest_level_artifact_id_first.
  rewrite (add_evicting _ _ _ k) by assumption.
  unfold set_artifact_data. cbn [artifact_data ArtifactCore.users]. f_equal.
  assert (Hk1 : dict_mem k d1 = false).
  { destruct (dict_mem k d1) eqn:Hm; [|reflexivity].
    apply dict_mem_keys in Hm. exfalso.
    unfold dict_wf, dict_keys, d in Hwf. rewrite map_app in Hwf.
    apply NoDup_app in Hwf as (_ & Hdisj & _).
    apply (Hdisj k); [now apply list_elem_of_In|]. simpl. left. }
  subst d. rewrite dict_del_app_fresh by assumption.
  rewrite dict_set_fresh_app.
  - now rewrite <- app_assoc.
  - apply dict_mem_false. apply dict_mem_false in Hfresh.
    rewrite <- (dict_del_app_fresh k a d1 d2 Hk1).
    rewrite dict_get_del_ne; [exact Hfresh|].
    intros ->. rewrite (dict_In_get _ a _ Hwf) in Hfresh; [discriminate|].
    apply in_or_app. right. now left.
Qed.

Lemma eviction_takes_first_lowest_witness :
  dict_keys (artifact_data
    (add_new_artifact_to_user "u" Samples.drawn Samples.full_unlocked))
  = [1; 3; 4; 5; 6; 7; 8; 9; 10; 11; 12; 13; 14; 15; 16; 17; 18; 19; 20; 21].
Proof.
  pose (d2 := skipn 2 (Samples.store_of false)).
  assert (H2 : forallb (fun kv => 1 <=? level (snd kv)) d2 = true)
    by (vm_compute; reflexivity).
  change Samples.full_unlocked
    with {| artifact_data :=
              [(1, Samples.common 1 3 false)] ++ (2, Samples.common 2 1 false) :: d2;
            users := Samples.ledger |}.
  rewrite (eviction_takes_first_lowest "u" Samples.drawn
             [(1, Samples.common 1 3 false)] 2 (Samples.common 2 1 false) d2
             Samples.ledger).
  - vm_compute. reflexivity.
  - unfold dict_wf. apply (bool_decide_unpack _). vm_compute. exact I.
  - vm_compute. discriminate.
  - reflexivity.
  - intros k' a' [[= <- <-]|[]] _. simpl. lia.
  - intros k' a' Hin _.
    apply (proj1 (forallb_forall _ _) H2) in Hin. simpl in Hin.
    apply Z.leb_le in Hin. exact Hin.
  - vm_compute. reflexivity.
Defined.

(** X9. The disassembly yield never drops when the level rises, whatever
    the rarity string; for an artifact of level 1 or more it is at least the
    base of its rarity, so at least 1 for the five rarities. *)
Theorem disassembly_yield_monotone a b :
  rarity a = rarity b -> level a <= level b ->
  get_reinforcement_items_from_disassembly a
    <= get_reinforcement_items_from_disassembly b /\
  (1 <= level a ->
   table_get (rarity a) 0 rarity_to_items
     <= get_reinforcement_items_from_disassembly a) /\
  (1 <= level a -> In (rarity a) (map fst rarity_to_items) ->
   1 <= get_reinforcement_items_from_disassembly a).
Proof.
  intros Hr Hl. rewrite !get_reinforcement_items_from_disassembly_eq. cbv zeta.
  rewrite <- Hr.
  assert (Hbase : 0 <= table_get (rarity a) 0 rarity_to_items).
  { unfold rarity_to_items, table_get.
    repeat match goal with
           | |- context [String.eqb ?x ?y] => destruct (String.eqb x y)
           end; lia. }
  assert (Hq : forall l, 1 <= l ->
            0 <= (table_get (rarity a) 0 rarity_to_items * (l - 1)) ÷ 10).
  { intros l Hl1. apply Z.quot_pos; nia. }
  split; [|split].
  - apply Z.add_le_mono_l. apply Z.quot_le_mono; nia.
  - intros H1. specialize (Hq _ H1). lia.
  - intros H1 Hin. specialize (Hq _ H1).
    assert (1 <= table_get (rarity a) 0 rarity_to_items); [|lia].
    simpl in Hin.
    destruct Hin as [H|[H|[H|[H|[H|[]]]]]]; rewrite <- H; vm_compute; discriminate.
Qed.

Lemma disassembly_yield_monotone_witness :
  get_reinforcement_items_from_disassembly (Samples.common 1 1 false)
  <= get_reinforcement_items_from_disassembly (Samples.common 2 40 true).
Proof.
  apply (disassembly_yield_monotone (Samples.common 1 1 false)
           (Samples.common 2 40 true)).
  - reflexivity.
  - simpl. lia.
Defined.

End Eviction.

Section Draws.
Import ArtifactRuns.
Implicit Types (st : State) (rnd : DrawRandom) (userId : string).

(** X10. Over the hundred values of the rarity roll, 50 give a common
    artifact, 30 an uncommon, 15 a rare, 4 an epic and 1 a legendary one:
    the thresholds realise the percentages the file announces. *)
Theorem rarity_of_roll_distribution :
  let count r :=
    length (List.filter (fun roll => String.eqb (rarity_of_roll roll) r)
                        (seqZ 1 100)) in
  count "⚪普通" = 50%nat /\ count "🌿罕见" = 30%nat /\ count "🔶稀有" = 15%nat /\
  count "💎史诗" = 4%nat /\ count "👑传说" = 1%nat.
Proof. vm_compute. repeat split; reflexivity. Qed.

(** X11. [generate_random_artifact] returns an artifact exactly when one
    of the drawn ids is not in use.  The artifact is then of level 1,
    unlocked, with base yield 1 and no sub-stats, of the rarity its roll
    selects, under the first drawn id that is not in use; the state returned
    is that of [add_new_artifact_to_user] on it. *)
Theorem generate_random_artifact_result userId (rnd : GenRandom) st :
  ((exists i, In i (rnd_ids rnd) /\ dict_mem i (artifact_data st) = false) <->
   exists st' a, generate_random_artifact userId rnd st = Some (st', a)) /\
  (forall st' a, generate_random_artifact userId rnd st = Some (st', a) ->
     st' = add_new_artifact_to_user userId a st /\
     level a = 1 /\ is_locked a = false /\ base_yield a = 1 /\ sub_stats a = [] /\
     rarity a = rarity_of_roll (rnd_rarity_roll rnd) /\
     free_artifact_id (rnd_ids rnd) (artifact_data st) = Some (artifact_id a) /\
     dict_mem (artifact_id a) (artifact_data st) = false).
Proof.
  split.
  - split; [apply generate_random_artifact_total|].
    intros (st' & a & Hgen).
    apply generate_random_artifact_Some in Hgen as (_ & _ & _ & _ & Hin & Hfree).
    eauto.
  - intros st' a Hgen. unfold generate_random_artifact in Hgen.
    destruct (rnd_sample rnd) as [[i j] k].
    destruct (free_artifact_id (rnd_ids rnd) (artifact_data st)) as [id|] eqn:Hid;
      [|discriminate].
    injection Hgen as <- <-. cbn.
    apply free_artifact_id_Some in Hid as [_ Hfree]. repeat split; assumption.
Qed.

Lemma bucket_of_roll userId rnd st roll :
  1 <= roll <= 100 ->
  (exists i, In i (rnd_ids (rnd_gen rnd)) /\ dict_mem i (artifact_data st) = false) ->
  bucket_of (draw_outcome userId (with_roll roll rnd) st) =
  Some (if roll <=? 5 then BArtifact
        else if roll <=? 15 then BReRoll
        else if roll <=? 35 then BReinforcement
        else BCoins).
Proof.
  intros Hroll Hfree. unfold draw_outcome, with_roll. cbn [rnd_roll rnd_gen].
  rewrite (randint_id 1 100 roll) by assumption.
  destruct (roll <=? 5).
  - destruct (generate_random_artifact_total userId (rnd_gen rnd) st Hfree)
      as (st' & a & ->). reflexivity.
  - destruct (roll <=? 15); [reflexivity|].
    destruct (roll <=? 35); reflexivity.
Qed.

(** X12. Of the hundred rolls of the lottery, 5 give an artifact, 10 a
    reroll item, 20 upgrade items and 65 coins, for any state and any other
    drawn values, as long as one drawn id is not in use. *)
Theorem draw_outcome_bucket_sizes userId rnd st :
  (exists i, In i (rnd_ids (rnd_gen rnd)) /\ dict_mem i (artifact_data st) = false) ->
  let count b :=
    length (List.filter
              (fun roll => in_bucket b (draw_outcome userId (with_roll roll rnd) st))
              (seqZ 1 100)) in
  count BArtifact = 5%nat /\ count BReRoll = 10%nat /\
  count BReinforcement = 20%nat /\ count BCoins = 65%nat.
Proof.
  intros Hfree count.
  assert (Hcount : forall b, count b =
            length (List.filter
              (fun roll => in_bucket b
                 (Some (st, (true,
                    if roll <=? 5 then MsgDrewArtifact Samples.drawn
                    else if roll <=? 15 then MsgDrewReRollItem
                    else if roll <=? 35 then MsgDrewReinforcementItems 0
                    else MsgDrewCoins 0))))
              (seqZ 1 100))).
  { intros b. unfold count. f_equal. apply List.filter_ext_in. intros roll Hin.
    assert (Hroll : 1 <= roll <= 100)
      by (apply list_elem_of_In, elem_of_seqZ in Hin; lia).
    unfold in_bucket. rewrite (bucket_of_roll userId rnd st roll Hroll Hfree).
    cbn [bucket_of].
    destruct (roll <=? 5); [reflexivity|].
    destruct (roll <=? 15); [reflexivity|].
    destruct (roll <=? 35); reflexivity. }
  rewrite !Hcount. unfold in_bucket, bucket_of.
  repeat split; vm_compute; reflexivity.
Qed.

Lemma draw_outcome_bucket_sizes_witness :
  length (List.filter
    (fun roll => in_bucket BCoins
       (draw_outcome "u" (with_roll roll (Samples.rnd_with 1 2 77))
          Samples.three_stored))
    (seqZ 1 100)) = 65%nat.
Proof.
  apply (draw_outcome_bucket_sizes "u" (Samples.rnd_with 1 2 77)
           Samples.three_stored).
  exists 21. split; [simpl; auto|reflexivity].
Defined.

(** X13. An artifact can be won and destroyed in one draw: with a roll of 1
    to 5 on a store of 20 artifacts, all locked, the draw succeeds and
    names the new artifact, but the store is exactly as before and does not
    hold it; the user pays the 100 coins and receives the yield of the new
    artifact, at least 1 upgrade item. *)
Theorem draw_won_and_destroyed userId user_coins rnd st :
  100 <= user_coins ->
  1 <= rnd_roll rnd <= 5 ->
  dict_wf (artifact_data st) ->
  dict_len (artifact_data st) = 20 ->
  (forall k a, In (k, a) (artifact_data st) -> is_locked a = true) ->
  (exists i, In i (rnd_ids (rnd_gen rnd)) /\ dict_mem i (artifact_data st) = false) ->
  exists st' a,
    draw_artifact_lottery userId user_coins rnd st
      = Some (st', (true, MsgDrewArtifact a)) /\
    artifact_data st' = artifact_data st /\
    dict_get (artifact_id a) (artifact_data st') = None /\
    1 <= get_reinforcement_items_from_disassembly a /\
    forall u, users st !! userId = Some u ->
      users st' !! userId =
        Some {| coins := coins u - 100;
                artifact_upgrade_items :=
                  artifact_upgrade_items u
                  + get_reinforcement_items_from_disassembly a;
                artifact_re_roll_items := artifact_re_roll_items u |}.
Proof.
  intros Hc Hroll Hwf Hlen Hall Hfree.
  rewrite draw_artifact_lottery_paid by assumption.
  set (st1 := set_users (update_user_coins userId (-100) (users st)) st).
  unfold draw_outcome. rewrite (randint_id 1 100 (rnd_roll rnd)) by lia.
  destruct (Z.leb_spec (rnd_roll rnd) 5); [|lia].
  destruct (generate_random_artifact_total userId (rnd_gen rnd) st1 Hfree)
    as (st' & a & Hgen).
  rewrite Hgen.
  apply generate_random_artifact_Some in Hgen as (-> & Hl & Hun & Hr & _ & Hnew).
  exists (add_new_artifact_to_user userId a st1), a.
  split; [reflexivity|].
  assert (Hnone : lowest_level_artifact_id (artifact_data st1) = None)
    by (apply lowest_level_artifact_id_None; exact Hall).
  rewrite add_all_locked; [|cbn; lia|exact Hnone].
  cbn [artifact_data users set_users st1].
  split; [reflexivity|]. split; [now apply dict_mem_false|]. split.
  - rewrite get_reinforcement_items_from_disassembly_eq. cbv zeta.
    rewrite Hl. replace (_ * (1 - 1)) with 0 by lia. cbn.
    simpl in Hr.
    destruct Hr as [Hr|[Hr|[Hr|[Hr|[Hr|[]]]]]]; rewrite <- Hr; vm_compute; discriminate.
  - intros u Hu.
    rewrite (add_artifact_upgrade_items_lookup _ _ _ _
               (update_user_coins_lookup _ _ _ _ Hu)).
    reflexivity.
Qed.

Lemma draw_won_and_destroyed_witness :
  exists st' a,
    draw_artifact_lottery "u" 150 (Samples.rnd_with 3 2 77) Samples.full_locked
      = Some (st', (true, MsgDrewArtifact a)) /\
    artifact_data st' = artifact_data Samples.full_locked /\
    dict_get (artifact_id a) (artifact_data st') = None.
Proof.
  destruct (draw_won_and_destroyed "u" 150 (Samples.rnd_with 3 2 77)
              Samples.full_locked) as (st' & a & H1 & H2 & H3 & _).
  - lia.
  - simpl. lia.
  - unfold dict_wf. apply (bool_decide_unpack _). vm_compute. exact I.
  - reflexivity.
  - intros k a Hin.
    unfold Samples.full_locked, Samples.store_of in Hin. cbn [artifact_data] in Hin.
    apply in_map_iff in Hin as [il [[= <- <-] _]]. reflexivity.
  - exists 21. split; [simpl; auto|reflexivity].
  - exists st', a. auto.
Defined.

End Draws.

Section EnhanceRuns.
Import ArtifactRuns.
Implicit Types (st : State) (a : Artifact) (userId : string) (u : User).

Lemma set_level_same a : set_level (level a) a = a.
Proof. destruct a. reflexivity. Qed.

(** One successful call, by its effect on the entry and on the user. *)
Lemma enhance_artifact_success userId (id items : Z) st a u :
  dict_get id (artifact_data st) = Some a ->
  2 * level a <= items ->
  users st !! userId = Some u ->
  100 * level a <= coins u ->
  let st' := fst (enhance_artifact userId id items st) in
  dict_get id (artifact_data st') = Some (set_level (level a + 1) a) /\
  users st' !! userId =
    Some {| coins := coins u - 100 * level a;
            artifact_upgrade_items := artifact_upgrade_items u - 2 * level a;
            artifact_re_roll_items := artifact_re_roll_items u |}.
Proof.
  intros Hget Hitems Hu Hcoins st'. subst st'.
  unfold enhance_artifact, get_artifact_by_id, get_user_by_id.
  rewrite Hget. cbv zeta.
  destruct (Z.ltb_spec items (2 * level a)); [lia|]. rewrite Hu.
  destruct (Z.ltb_spec (coins u) (100 * level a)); [lia|].
  cbn [fst artifact_data users]. split.
  - apply (enhanced_store_get id a (set_level (level a + 1) a) _ Hget).
  - rewrite (update_user_coins_lookup _ _ _ _
               (add_artifact_upgrade_items_lookup _ _ _ _ Hu)).
    cbn [coins artifact_upgrade_items artifact_re_roll_items].
    do 2 f_equal; lia.
Qed.

(** X14. Raising an artifact by n levels takes n calls.  From level L, with
    L at least 0, an item count of at least 2 * (L + n - 1) passed to each
    call and 100 * n * L + 50 * n * (n - 1) coins in the ledger, all n calls
    succeed: the artifact ends at level L + n with everything else about it
    unchanged, and the user has paid exactly 100 * n * L + 50 * n * (n - 1)
    coins and 2 * n * L + n * (n - 1) upgrade items. *)
Theorem enhance_times_total (n : nat) userId (id items : Z) : forall st a u,
  dict_get id (artifact_data st) = Some a ->
  users st !! userId = Some u ->
  0 <= level a ->
  2 * (level a + Z.of_nat n - 1) <= items ->
  100 * Z.of_nat n * level a + 50 * Z.of_nat n * (Z.of_nat n - 1) <= coins u ->
  let st' := enhance_times n userId id items st in
  dict_get id (artifact_data st') = Some (set_level (level a + Z.of_nat n) a) /\
  users st' !! userId =
    Some {| coins := coins u
              - (100 * Z.of_nat n * level a + 50 * Z.of_nat n * (Z.of_nat n - 1));
            artifact_upgrade_items := artifact_upgrade_items u
              - (2 * Z.of_nat n * level a + Z.of_nat n * (Z.of_nat n - 1));
            artifact_re_roll_items := artifact_re_roll_items u |}.
Proof.
  induction n as [|n IH]; intros st a u Hget Hu Hl Hitems Hcoins st'; subst st'.
  - simpl. rewrite Z.add_0_r, set_level_same. split; [assumption|].
    rewrite Hu. destruct u. cbn. do 2 f_equal; lia.
  - rewrite Nat2Z.inj_succ in *. cbn [enhance_times].
    destruct (enhance_artifact_success userId id items st a u Hget)
      as [Hget1 Hu1]; try assumption; try nia.
    specialize (IH _ _ _ Hget1 Hu1). cbn [level set_level coins] in IH.
    destruct IH as [Hget2 Hu2]; try lia; try nia.
    split.
    + rewrite Hget2. f_equal. unfold set_level. cbn. f_equal. lia.
    + rewrite Hu2. cbn. f_equal. f_equal; nia.
Qed.

Lemma enhance_times_total_witness :
  let st' := enhance_times 1 "u" 2 2 Samples.three_stored in
  level <$> dict_get 2 (artifact_data st') = Some 2 /\
  coins <$> users st' !! "u" = Some 50.
Proof.
  intros st'.
  destruct (enhance_times_total 1 "u" 2 2 Samples.three_stored
              (Samples.common 2 1 true) (mkUser 150 0 0))
    as [Hget Hu]; try reflexivity; try (simpl; lia).
  fold st' in Hget, Hu. rewrite Hget, Hu. split; reflexivity.
Defined.

End EnhanceRuns.

(** * Further properties of the coin store and the trading commands *)

Section Numerics.

Lemma Py_round_floor (x : Q) : Qfloor x <= Py.round x <= Qfloor x + 1.
Proof.
  unfold Py.round. cbv zeta.
  destruct (Qcompare (x - inject_Z (Qfloor x)) (1 # 2));
    [destruct (Z.even (Qfloor x))|..]; lia.
Qed.

Lemma Py_round_nonneg (x : Q) : (0 <= x)%Q -> 0 <= Py.round x.
Proof.
  intros Hx. pose proof (Py_round_floor x).
  assert (0 <= Qfloor x); [|lia].
  change 0 with (Qfloor 0). now apply Qfloor_resp_le.
Qed.

Lemma Py_round_ge (x : Q) (n : Z) : (inject_Z n <= x)%Q -> n <= Py.round x.
Proof.
  intros Hx. pose proof (Py_round_floor x).
  assert (n <= Qfloor x); [|lia].
  rewrite <- (Qfloor_Z n). now apply Qfloor_resp_le.
Qed.

(** The ceiling of a twentieth. *)
Lemma Py_ceil_twentieth (t : Z) :
  Py.ceil (inject_Z t * (5 # 100)) = (t + 19) / 20.
Proof.
  unfold Py.ceil, Qceiling, Qfloor, Qopp, Qmult, inject_Z. cbn [Qnum Qden].
  change (Z.pos (1 * 100)) with 100.
  pose proof (Z.div_mod (- (t * 5)) 100 ltac:(lia)).
  pose proof (Z.mod_pos_bound (- (t * 5)) 100 ltac:(lia)).
  pose proof (Z.div_mod (t + 19) 20 ltac:(lia)).
  pose proof (Z.mod_pos_bound (t + 19) 20 ltac:(lia)).
  lia.
Qed.

End Numerics.

Section Coins.
Import Plugin PluginCommands.
Implicit Types (d : gmap string UserEntry) (uid other symbol : string).

Lemma holding_alter_credit uid amount d u symbol :
  holding u symbol (alter (credit amount) uid d) = holding u symbol d.
Proof.
  unfold holding. destruct (decide (u = uid)) as [->|Hne].
  - rewrite lookup_alter_eq. destruct (d !! uid); reflexivity.
  - now rewrite lookup_alter_ne.
Qed.

Lemma add_gold_get uid amount d :
  get_gold uid (add_gold uid amount d)
    = Z.max 0 ((if read_id uid d then get_gold uid d else 10) + amount).
Proof.
  unfold add_gold, get_gold, read_id, register_id.
  destruct (d !! uid) as [e|] eqn:He.
  - rewrite lookup_alter_eq, He. reflexivity.
  - rewrite lookup_alter_eq, lookup_insert_eq. reflexivity.
Qed.

Lemma add_gold_read_id uid amount d : read_id uid (add_gold uid amount d) = true.
Proof.
  unfold add_gold, read_id, register_id.
  destruct (d !! uid) as [e|] eqn:He.
  - now rewrite lookup_alter_eq, He.
  - now rewrite lookup_alter_eq, lookup_insert_eq.
Qed.

Lemma add_gold_holding uid amount d u symbol :
  holding u symbol (add_gold uid amount d) = holding u symbol d.
Proof.
  unfold add_gold.
  destruct (d !! uid) as [e|] eqn:He; rewrite holding_alter_credit; [reflexivity|].
  unfold holding, register_id. destruct (decide (u = uid)) as [->|Hne].
  - now rewrite lookup_insert_eq, He.
  - now rewrite lookup_insert_ne.
Qed.

Lemma add_gold_other uid amount d other :
  other <> uid -> add_gold uid amount d !! other = d !! other.
Proof.
  intros Hne. unfold add_gold, register_id.
  rewrite lookup_alter_ne by congruence.
  destruct (d !! uid); [reflexivity|]. now rewrite lookup_insert_ne.
Qed.

Lemma fee_of_twentieth (total_price : Z) :
  fee_of total_price = Z.max 1 ((total_price + 19) / 20).
Proof. now rewrite fee_of_max, Py_ceil_twentieth. Qed.

(** X15. [add_gold] never leaves a negative balance: the new balance is
    the old one plus the amount, or 0 when that is negative.  A user the
    file does not know is first registered with 10 coins.  Holdings and all
    other users are untouched. *)
Theorem add_gold_effect uid amount d :
  get_gold uid (add_gold uid amount d)
    = Z.max 0 ((if read_id uid d then get_gold uid d else 10) + amount) /\
  0 <= get_gold uid (add_gold uid amount d) /\
  read_id uid (add_gold uid amount d) = true /\
  (forall u symbol, holding u symbol (add_gold uid amount d) = holding u symbol d) /\
  (forall other, other <> uid -> add_gold uid amount d !! other = d !! other).
Proof.
  split; [apply add_gold_get|]. split; [rewrite add_gold_get; lia|].
  split; [apply add_gold_read_id|]. split.
  - intros u symbol. apply add_gold_holding.
  - intros other. apply add_gold_other.
Qed.

(** X16. The fee is the twentieth of the total price rounded up, at least
    1: it is never below 5% of the total nor a whole coin above it, and it
    reaches the total itself exactly when the total is 1 coin or less. *)
Theorem fee_of_bounds (total_price : Z) :
  fee_of total_price = Z.max 1 ((total_price + 19) / 20) /\
  1 <= fee_of total_price /\
  total_price <= 20 * fee_of total_price /\
  (1 <= total_price -> 20 * fee_of total_price < total_price + 20) /\
  (total_price <= fee_of total_price <-> total_price <= 1).
Proof.
  rewrite fee_of_twentieth.
  pose proof (Z.div_mod (total_price + 19) 20 ltac:(lia)).
  pose proof (Z.mod_pos_bound (total_price + 19) 20 ltac:(lia)).
  repeat split; lia.
Qed.

End Coins.

Section TradeEffects.
Import Plugin PluginCommands.
Implicit Types (st : Plugin.State) (d : gmap string UserEntry)
  (uid u other symbol s : string) (stock_info : StockInfo).

Lemma holding_add_shares uid symbol quantity d u s :
  holding u s (add_shares uid symbol quantity d) =
  if decide (u = uid /\ s = symbol)
  then Some (default 0 (holding uid symbol d) + quantity)
  else holding u s d.
Proof.
  unfold add_shares, holding.
  destruct (decide (u = uid)) as [->|Hu].
  - rewrite lookup_insert_eq. cbn [stocks].
    destruct (decide (s = symbol)) as [->|Hs].
    + rewrite lookup_insert_eq. rewrite decide_True by auto.
      destruct (d !! uid) as [e|]; cbn; [destruct (stocks e)|]; reflexivity.
    + rewrite lookup_insert_ne by congruence. rewrite decide_False by tauto.
      destruct (d !! uid) as [e|]; cbn; [destruct (stocks e)|]; reflexivity.
  - rewrite lookup_insert_ne by congruence. rewrite decide_False by tauto.
    reflexivity.
Qed.

Lemma get_gold_add_shares uid symbol quantity d u :
  get_gold u (add_shares uid symbol quantity d) = get_gold u d.
Proof.
  unfold add_shares, get_gold.
  destruct (decide (u = uid)) as [->|Hu].
  - rewrite lookup_insert_eq. cbn [gold].
    destruct (d !! uid) as [e|]; reflexivity.
  - now rewrite lookup_insert_ne by congruence.
Qed.

Lemma add_shares_other uid symbol quantity d other :
  other <> uid -> add_shares uid symbol quantity d !! other = d !! other.
Proof. intros Hne. unfold add_shares. now rewrite lookup_insert_ne by congruence. Qed.

(** The two ways a purchase ends. *)
Lemma BuyStock_execute_cases uid symbol quantity stock_info st :
  (exists total_price,
     total_price_of stock_info quantity = Some total_price /\
     0 < quantity /\
     total_price + fee_of total_price <= get_gold uid (data st) /\
     BuyStock_execute uid symbol quantity (Some stock_info) st =
       ({| data := add_shares uid symbol quantity
                     (add_gold uid (- (total_price + fee_of total_price)) (data st));
           stock_data := update_weight (- (1 # 100)) symbol stock_info quantity
                           (stock_data st) |}, (true, MsgBought)))
  \/
  ((quantity <= 0 \/ total_price_of stock_info quantity = None \/
    exists total_price,
      total_price_of stock_info quantity = Some total_price /\
      get_gold uid (data st) < total_price + fee_of total_price) /\
   fst (BuyStock_execute uid symbol quantity (Some stock_info) st) = st /\
   fst (snd (BuyStock_execute uid symbol quantity (Some stock_info) st)) = false).
Proof.
  unfold BuyStock_execute.
  destruct (Z.leb_spec quantity 0); [right; auto|].
  destruct (total_price_of stock_info quantity) as [total_price|];
    [|right; auto].
  cbv zeta.
  destruct (Z.ltb_spec (get_gold uid (data st)) (total_price + fee_of total_price)).
  - right. split; [|auto]. right. right. exists total_price. auto.
  - left. exists total_price. auto.
Qed.

(** The six ways a sale ends. *)
Lemma SellStock_execute_cases uid symbol quantity stock_info st :
  let res := SellStock_execute uid symbol quantity (Some stock_info) st in
  (exists e held n total_price,
     0 < quantity /\ data st !! uid = Some e /\ stocks e = Some held /\
     held !! symbol = Some n /\ quantity <= n /\
     total_price_of stock_info quantity = Some total_price /\
     fee_of total_price < total_price /\
     res =
       ({| data :=
             <[uid := {| gold := Some (Z.max 0 (default 0 (gold e)
                                                + (total_price - fee_of total_price)));
                         stocks := Some (if n - quantity =? 0
                                         then delete symbol held
                                         else <[symbol := n - quantity]> held) |}]>
               (data st);
           stock_data := update_weight (1 # 100) symbol stock_info quantity
                           (stock_data st) |}, (true, MsgSold)))
  \/ (quantity <= 0 /\ res = (st, (false, MsgBadQuantity)))
  \/ (0 < quantity /\ holding uid symbol (data st) = None /\
      res = (st, (false, MsgNotHolding)))
  \/ (0 < quantity /\
      (exists n, holding uid symbol (data st) = Some n /\ n < quantity) /\
      res = (st, (false, MsgNotEnoughShares)))
  \/ (0 < quantity /\
      (exists total_price, total_price_of stock_info quantity = Some total_price /\
                           total_price <= fee_of total_price) /\
      (exists n, holding uid symbol (data st) = Some n /\ quantity <= n) /\
      res = (st, (false, MsgFeeTooHigh)))
  \/ (0 < quantity /\ total_price_of stock_info quantity = None /\
      (exists n, holding uid symbol (data st) = Some n /\ quantity <= n) /\
      res = (st, (false, Raised))).
Proof.
  intros res. subst res. unfold SellStock_execute, holding.
  destruct (Z.leb_spec quantity 0); [right; left; auto|].
  destruct (data st !! uid) as [e|] eqn:He; [|right; right; left; auto].
  destruct (stocks e) as [held|] eqn:Hheld; [|right; right; left; auto].
  destruct (held !! symbol) as [n|] eqn:Hn; [|right; right; left; auto].
  destruct (Z.ltb_spec n quantity); [right; right; right; left; eauto|].
  destruct (total_price_of stock_info quantity) as [total_price|].
  - cbv zeta.
    destruct (Z.leb_spec total_price (fee_of total_price)).
    + do 4 right. left. split; [assumption|].
      split; [exists total_price; auto|]. split; [exists n; auto|reflexivity].
    + left. exists e, held, n, total_price. repeat split; auto.
  - do 5 right. split; [assumption|]. split; [reflexivity|].
    split; [exists n; auto|reflexivity].
Qed.

(** X17. A sale goes through exactly when the quantity is positive, the
    user holds at least that many shares of the symbol, the total price is
    computed and the fee is below it.  Asking for more than is held, or for
    a symbol not held, is refused with its own message.  A sale that does not
    go through changes nothing.  A sale that goes through adds total price
    minus fee to the coins, takes the quantity off the holding, removing the
    holding when it reaches 0, and leaves every other holding and every other
    user alone. *)
Theorem SellStock_execute_effect uid symbol quantity stock_info st :
  let res := SellStock_execute uid symbol quantity (Some stock_info) st in
  (fst (snd res) = false -> fst res = st) /\
  (fst (snd res) = true <->
     0 < quantity /\
     (exists n, holding uid symbol (data st) = Some n /\ quantity <= n) /\
     exists total_price,
       total_price_of stock_info quantity = Some total_price /\
       fee_of total_price < total_price) /\
  (0 < quantity -> holding uid symbol (data st) = None ->
     res = (st, (false, MsgNotHolding))) /\
  (0 < quantity ->
     forall n, holding uid symbol (data st) = Some n -> n < quantity ->
     res = (st, (false, MsgNotEnoughShares))) /\
  (fst (snd res) = true ->
     exists total_price,
       total_price_of stock_info quantity = Some total_price /\
       get_gold uid (data (fst res))
         = Z.max 0 (get_gold uid (data st) + (total_price - fee_of total_price)) /\
       (0 <= get_gold uid (data st) ->
          get_gold uid (data (fst res))
            = get_gold uid (data st) + (total_price - fee_of total_price) /\
          get_gold uid (data st) < get_gold uid (data (fst res))) /\
       (forall n, holding uid symbol (data st) = Some n ->
          holding uid symbol (data (fst res))
            = if n - quantity =? 0 then None else Some (n - quantity)) /\
       (forall u s, ~ (u = uid /\ s = symbol) ->
          holding u s (data (fst res)) = holding u s (data st)) /\
       (forall other, other <> uid -> data (fst res) !! other = data st !! other)).
Proof.
  intros res. subst res.
  destruct (SellStock_execute_cases uid symbol quantity stock_info st)
    as [(e & held & n & total_price & Hq & He & Hheld & Hn & Hle & HT & Hfee & Hres)
       |[(Hq & Hres)|[(Hq & Hnone & Hres)
       |[(Hq & (n & Hn & Hlt) & Hres)
       |[(Hq & (total_price & HT & Hfee) & (n & Hn & Hle) & Hres)
        |(Hq & HT & (n & Hn & Hle) & Hres)]]]]];
    rewrite Hres; cbn [fst snd data].
  - assert (Hhold : holding uid symbol (data st) = Some n).
    { unfold holding. now rewrite He, Hheld. }
    split; [discriminate|]. split; [split; eauto 8|].
    split; [intros _ Hnone; congruence|].
    split; [intros _ n' Hn' Hlt; rewrite Hhold in Hn'; injection Hn' as <-; lia|].
    intros _. exists total_price. split; [exact HT|].
    assert (Hgold : get_gold uid (data st) = default 0 (gold e)).
    { unfold get_gold. now rewrite He. }
    assert (Hafter : get_gold uid
                       (<[uid := {| gold := Some (Z.max 0 (default 0 (gold e)
                                                   + (total_price - fee_of total_price)));
                                    stocks := Some (if n - quantity =? 0
                                                    then delete symbol held
                                                    else <[symbol := n - quantity]> held) |}]>
                          (data st))
                     = Z.max 0 (get_gold uid (data st)
                                + (total_price - fee_of total_price))).
    { unfold get_gold at 1. rewrite lookup_insert_eq. cbn. now rewrite Hgold. }
    repeat apply conj.
    + exact Hafter.
    + intros Hg. rewrite Hafter. lia.
    + intros n' Hn'. rewrite Hhold in Hn'. injection Hn' as <-.
      unfold holding. rewrite lookup_insert_eq. cbn [stocks].
      destruct (n - quantity =? 0).
      * apply lookup_delete_eq.
      * apply lookup_insert_eq.
    + intros u s Hne. unfold holding.
      destruct (decide (u = uid)) as [->|Hu].
      * rewrite lookup_insert_eq, He, Hheld. cbn [stocks].
        assert (s <> symbol) by tauto.
        destruct (n - quantity =? 0).
        -- now rewrite lookup_delete_ne by congruence.
        -- now rewrite lookup_insert_ne by congruence.
      * now rewrite lookup_insert_ne by congruence.
    + intros other Hne. now rewrite lookup_insert_ne by congruence.
  - split; [reflexivity|]. split; [split; [discriminate|lia]|].
    split; [lia|]. split; [lia|discriminate].
  - split; [reflexivity|]. split.
    { split; [discriminate|]. intros (_ & (n & Hn & _) & _). congruence. }
    split; [reflexivity|]. split; [|discriminate].
    intros _ n Hn. congruence.
  - split; [reflexivity|]. split.
    { split; [discriminate|]. intros (_ & (n' & Hn' & Hle) & _).
      rewrite Hn in Hn'. injection Hn' as <-. lia. }
    split; [congruence|]. split; [reflexivity|discriminate].
  - split; [reflexivity|]. split.
    { split; [discriminate|]. intros (_ & _ & (t' & HT' & Hlt)).
      rewrite HT in HT'. injection HT' as <-. lia. }
    split; [congruence|]. split; [|discriminate].
    intros _ n' Hn' Hlt. rewrite Hn in Hn'. injection Hn' as <-. lia.
  - split; [reflexivity|]. split.
    { split; [discriminate|]. intros (_ & _ & (t' & HT' & _)). congruence. }
    split; [congruence|]. split; [|discriminate].
    intros _ n' Hn' Hlt. rewrite Hn in Hn'. injection Hn' as <-. lia.
Qed.

(** Forty-five shares at the float price 0.7: the binary64 product is
    31.499999999999996, so the total is 31 and not the 32 of the exact
    product 31.5; with a fee of 2 the sale brings 29 coins. *)
Lemma SellStock_execute_effect_witness :
  let stock_info := mkStockInfo "麦街股份" (PyFloat 0.7) in
  let res := SellStock_execute "u" "01" 45 (Some stock_info) Samples.trader in
  total_price_of stock_info 45 = Some 31 /\
  get_gold "u" (data (fst res)) = 100000 + (31 - 2) /\
  holding "u" "01" (data (fst res)) = Some 955.
Proof.
  intros stock_info res.
  destruct (SellStock_execute_effect "u" "01" 45 stock_info Samples.trader)
    as (_ & _ & _ & _ & Hok).
  destruct Hok as (total_price & HT & Hgold & _ & Hhold & _);
    [vm_compute; reflexivity|].
  assert (H31 : total_price = 31) by (vm_compute in HT; congruence).
  subst total_price.
  split; [exact HT|]. split.
  - fold res in Hgold. rewrite Hgold. vm_compute. reflexivity.
  - apply (Hhold 1000). vm_compute. reflexivity.
Defined.

End TradeEffects.

Section TradeInvariants.
Import Plugin PluginCommands.
Implicit Types (st : Plugin.State) (d : gmap string UserEntry)
  (uid u other symbol s : string) (stock_info : StockInfo).

(** X18. A purchase goes through exactly when the quantity is positive, the
    total price is computed and the coins cover total price plus fee;
    otherwise nothing changes.  When it goes through, the holding of the
    symbol grows by the quantity (starting from 0 when there was none), and
    every other holding and every other user is as before; when the total
    price is not negative, the buyer pays exactly total price plus fee and
    still has 0 coins or more. *)
Theorem BuyStock_execute_effect uid symbol quantity stock_info st :
  let res := BuyStock_execute uid symbol quantity (Some stock_info) st in
  (fst (snd res) = false -> fst res = st) /\
  (fst (snd res) = true <->
     0 < quantity /\
     exists total_price,
       total_price_of stock_info quantity = Some total_price /\
       total_price + fee_of total_price <= get_gold uid (data st)) /\
  (fst (snd res) = true ->
     holding uid symbol (data (fst res))
       = Some (default 0 (holding uid symbol (data st)) + quantity) /\
     (forall u s, ~ (u = uid /\ s = symbol) ->
        holding u s (data (fst res)) = holding u s (data st)) /\
     (forall other, other <> uid -> data (fst res) !! other = data st !! other) /\
     exists total_price,
       total_price_of stock_info quantity = Some total_price /\
       (0 <= total_price ->
          get_gold uid (data (fst res))
            = get_gold uid (data st) - (total_price + fee_of total_price) /\
          0 <= get_gold uid (data (fst res)))).
Proof.
  intros res. subst res.
  destruct (BuyStock_execute_cases uid symbol quantity stock_info st)
    as [(total_price & HT & Hq & Hgold & Hres)|(Hwhy & Hst & Hfail)].
  - rewrite Hres. cbn [fst snd data].
    split; [discriminate|]. split; [split; eauto|]. intros _. repeat apply conj.
    + rewrite holding_add_shares, decide_True by auto.
      now rewrite add_gold_holding.
    + intros u s Hne. rewrite holding_add_shares, decide_False by assumption.
      apply add_gold_holding.
    + intros other Hne. rewrite add_shares_other by assumption.
      now apply add_gold_other.
    + exists total_price. split; [exact HT|]. intros Hp.
      pose proof (fee_of_positive total_price) as Hfee.
      rewrite get_gold_add_shares, add_gold_get.
      assert (Hreg : read_id uid (data st) = true).
      { unfold read_id. unfold get_gold in Hgold.
        destruct (data st !! uid); [reflexivity|lia]. }
      rewrite Hreg. lia.
  - split; [auto|]. split; [|congruence]. split; [congruence|].
    intros (Hq & total_price & HT & Hgold).
    destruct Hwhy as [Hneg|[Hnone|(t' & HT' & Hlt)]]; [lia|congruence|].
    rewrite HT in HT'. injection HT' as <-. lia.
Qed.

(** Fifty-five shares at the float price 1.1 cost 61 coins and 4 of fee:
    64 coins do not buy them, 65 do and leave 0. *)
Lemma BuyStock_execute_effect_witness :
  total_price_of Samples.info_float 55 = Some 61 /\
  fee_of 61 = 4 /\
  BuyStock_execute "u" "01" 55 (Some Samples.info_float) (Samples.with_gold 64)
    = (Samples.with_gold 64, (false, MsgNotEnoughGold)) /\
  fst (snd (BuyStock_execute "u" "01" 55 (Some Samples.info_float)
              (Samples.with_gold 65))) = true /\
  get_gold "u" (data (fst (BuyStock_execute "u" "01" 55 (Some Samples.info_float)
                             (Samples.with_gold 65)))) = 0.
Proof.
  split; [vm_compute; reflexivity|]. split; [vm_compute; reflexivity|].
  split; [vm_compute; reflexivity|].
  destruct (BuyStock_execute_effect "u" "01" 55 Samples.info_float
              (Samples.with_gold 65)) as (_ & [_ Hiff] & Hok).
  assert (Hgo : fst (snd (BuyStock_execute "u" "01" 55 (Some Samples.info_float)
                            (Samples.with_gold 65))) = true).
  { apply Hiff. split; [lia|]. exists 61.
    split; vm_compute; [reflexivity|discriminate]. }
  split; [exact Hgo|].
  destruct (Hok Hgo) as (_ & _ & _ & total_price & HT & Hpay).
  assert (H61 : total_price = 61) by (vm_compute in HT; congruence).
  subst total_price. destruct Hpay as [Hpay _]; [lia|].
  rewrite Hpay. vm_compute. reflexivity.
Defined.

Lemma holdings_positive_buy uid symbol quantity stock_info st :
  holdings_positive (data st) ->
  holdings_positive
    (data (fst (BuyStock_execute uid symbol quantity (Some stock_info) st))).
Proof.
  intros Hpos.
  destruct (BuyStock_execute_cases uid symbol quantity stock_info st)
    as [(total_price & _ & Hq & Hgold & ->)|(_ & -> & _)]; [|assumption].
  cbn [fst data]. intros u s n. rewrite holding_add_shares.
  destruct (decide (u = uid /\ s = symbol)) as [[-> ->]|Hne].
  - rewrite add_gold_holding. intros [= <-].
    destruct (holding uid symbol (data st)) as [n0|] eqn:Hn0; cbn; [|lia].
    specialize (Hpos _ _ _ Hn0). lia.
  - rewrite add_gold_holding. apply Hpos.
Qed.

Lemma holdings_positive_sell uid symbol quantity stock_info st :
  holdings_positive (data st) ->
  holdings_positive
    (data (fst (SellStock_execute uid symbol quantity (Some stock_info) st))).
Proof.
  intros Hpos.
  destruct (SellStock_execute_cases uid symbol quantity stock_info st)
    as [(e & held & n & total_price & Hq & He & Hheld & Hn & Hle & _ & Hfee & Hres)
       |[(_ & Hres)|[(_ & _ & Hres)|[(_ & _ & Hres)
       |[(_ & _ & _ & Hres)|(_ & _ & _ & Hres)]]]]];
    rewrite Hres; cbn [fst data]; try assumption.
  intros u s m. unfold holding.
  destruct (decide (u = uid)) as [->|Hu].
  - rewrite lookup_insert_eq. cbn [stocks].
    destruct (decide (s = symbol)) as [->|Hs].
    + destruct (Z.eqb_spec (n - quantity) 0).
      * rewrite lookup_delete_eq. discriminate.
      * rewrite lookup_insert_eq. intros [= <-]. lia.
    + intros Hm. apply (Hpos uid s m). unfold holding. rewrite He, Hheld.
      destruct (n - quantity =? 0).
      * now rewrite lookup_delete_ne in Hm by congruence.
      * now rewrite lookup_insert_ne in Hm by congruence.
  - rewrite lookup_insert_ne by congruence. apply Hpos.
Qed.

(** X19. Share counts on record stay positive: when every holding in the
    file is positive, it still is after any run of purchases and sales, by
    any users on any symbols, whether they go through or not. *)
Theorem holdings_positive_kept (info : string -> option StockInfo)
  (ts : list Trade) st :
  holdings_positive (data st) ->
  holdings_positive (data (execute_all info ts st)).
Proof.
  revert st. induction ts as [|t ts IH]; intros st Hpos; [assumption|].
  unfold execute_all in *. cbn [fold_left]. apply IH.
  destruct t as [uid symbol quantity|uid symbol quantity]; cbn [execute].
  - destruct (info symbol) as [stock_info|].
    + now apply holdings_positive_buy.
    + unfold BuyStock_execute. destruct (quantity <=? 0); assumption.
  - destruct (info symbol) as [stock_info|].
    + now apply holdings_positive_sell.
    + unfold SellStock_execute. destruct (quantity <=? 0); assumption.
Qed.

Lemma holdings_positive_kept_witness :
  holdings_positive
    (data (execute_all Samples.info
             [Sell "u" "01" 1000; Buy "u" "02" 3; Sell "u" "02" 5]
             Samples.trader)).
Proof.
  apply holdings_positive_kept.
  intros u s n. unfold holding, Samples.trader. cbn [data].
  destruct (decide (u = "u")) as [->|Hu].
  - rewrite lookup_singleton_eq. cbn [stocks].
    destruct (decide (s = "01")) as [->|Hs].
    + rewrite lookup_singleton_eq. intros [= <-]. lia.
    + rewrite lookup_singleton_ne by congruence. discriminate.
  - rewrite lookup_singleton_ne by congruence. discriminate.
Defined.

End TradeInvariants.

Section Weights.
Import Plugin PluginCommands.
Implicit Types (st : Plugin.State) (sd : gmap string StockEntry)
  (uid symbol s : string) (stock_info : StockInfo).

Lemma required_per_unit_of_ge_10 (w : Q) : 10 <= required_per_unit_of w.
Proof.
  unfold required_per_unit_of.
  assert (10 <= Py.round (10 * (1 + Py.abs w))); [|lia].
  apply Py_round_ge. unfold Py.abs.
  apply Qle_trans with (10 * (1 + 0))%Q; [unfold Qle; simpl; lia|].
  apply Qmult_le_l; [reflexivity|].
  apply Qplus_le_r. apply Qabs_nonneg.
Qed.

Lemma small_quantity_no_unit (w : Q) (quantity : Z) :
  quantity < 10 -> (0 <? quantity / required_per_unit_of w) = false.
Proof.
  intros Hq. pose proof (required_per_unit_of_ge_10 w) as Hr.
  apply Z.ltb_ge.
  pose proof (Z.div_mod quantity (required_per_unit_of w) ltac:(lia)).
  pose proof (Z.mod_pos_bound quantity (required_per_unit_of w) ltac:(lia)).
  nia.
Qed.

Lemma update_weight_cur sign symbol stock_info quantity sd :
  update_weight sign symbol stock_info quantity sd =
  let units := quantity / required_per_unit_of (weight_of symbol sd) in
  if 0 <? units then
    <[symbol := {| entry_name := match sd !! symbol with
                                 | Some e => entry_name e
                                 | None => name stock_info
                                 end;
                   entry_price := match sd !! symbol with
                                  | Some e => entry_price e
                                  | None => price stock_info
                                  end;
                   entry_weight :=
                     Some (weight_of symbol sd + sign * inject_Z units)%Q |}]> sd
  else sd.
Proof.
  unfold update_weight, weight_of. cbv zeta.
  destruct (sd !! symbol) as [e|] eqn:He.
  - rewrite He.
    destruct (0 <? quantity / required_per_unit_of (default 0%Q (entry_weight e)));
      [|reflexivity].
    apply map_eq. intros s. destruct (decide (s = symbol)) as [->|Hs].
    + now rewrite lookup_alter_eq, lookup_insert_eq, He.
    + now rewrite lookup_alter_ne, lookup_insert_ne by congruence.
  - rewrite lookup_insert_eq. cbn [entry_weight default from_option].
    destruct (0 <? quantity / required_per_unit_of 0); [|reflexivity].
    apply map_eq. intros s. destruct (decide (s = symbol)) as [->|Hs].
    + now rewrite lookup_alter_eq, !lookup_insert_eq.
    + now rewrite lookup_alter_ne, !lookup_insert_ne by congruence.
Qed.

(** X20. However skewed the weight, one unit of weight takes at least 10
    shares: a purchase or a sale of fewer than 10 shares never changes the
    stock file, whether it goes through or not. *)
Theorem small_trades_keep_weights uid symbol quantity (stock_info : option StockInfo) st :
  quantity < 10 ->
  (forall w : Q, 10 <= required_per_unit_of w) /\
  stock_data (fst (BuyStock_execute uid symbol quantity stock_info st))
    = stock_data st /\
  stock_data (fst (SellStock_execute uid symbol quantity stock_info st))
    = stock_data st.
Proof.
  intros Hq. split; [apply required_per_unit_of_ge_10|].
  assert (Hkeep : forall sign info,
            update_weight sign symbol info quantity (stock_data st) = stock_data st).
  { intros sign info. rewrite update_weight_cur. cbv zeta.
    now rewrite small_quantity_no_unit. }
  split.
  - unfold BuyStock_execute.
    destruct (quantity <=? 0); [reflexivity|].
    destruct stock_info as [info|]; [|reflexivity].
    destruct (total_price_of info quantity) as [total_price|]; [|reflexivity].
    cbv zeta.
    destruct (get_gold uid (data st) <? _); [reflexivity|]. cbn. apply Hkeep.
  - unfold SellStock_execute.
    destruct (quantity <=? 0); [reflexivity|].
    destruct stock_info as [info|]; [|reflexivity].
    destruct (data st !! uid) as [e|]; [|reflexivity].
    destruct (stocks e) as [held|]; [|reflexivity].
    destruct (held !! symbol) as [n|]; [|reflexivity].
    destruct (n <? quantity); [reflexivity|].
    destruct (total_price_of info quantity) as [total_price|]; [|reflexivity].
    cbv zeta.
    destruct (_ <=? _); [reflexivity|]. cbn. apply Hkeep.
Qed.

Lemma small_trades_keep_weights_witness :
  stock_data (fst (SellStock_execute "u" "01" 9 (Samples.info "01") Samples.trader))
  = stock_data Samples.trader.
Proof.
  apply (small_trades_keep_weights "u" "01" 9 (Samples.info "01") Samples.trader).
  lia.
Defined.


End Weights.

Section Games.
Import Plugin PluginCommands.
Implicit Types (d : gmap string UserEntry) (uid other symbol : string)
  (st : DailyState).

Lemma read_id_get_gold uid d : 0 < get_gold uid d -> read_id uid d = true.
Proof. unfold read_id, get_gold. destruct (d !! uid); [reflexivity|lia]. Qed.

(** X22. The coin bomb goes off exactly when the amount is a number of at
    least 5, the user is registered and holds at least that many coins.
    The user then ends with the old balance minus the amount plus the
    coins found, so with a find between 0 and twice the amount, between
    losing the whole amount and winning as much again, never below 0;
    holdings and other users are untouched.  A refused bomb changes
    nothing, except that an unregistered user asking for 5 or more is
    registered with 10 coins. *)
Theorem BoomCommand_execute_effect uid (gold_str : option Z) (new_gold : Z) d :
  let res := BoomCommand_execute uid gold_str new_gold d in
  (fst (snd res) = true <->
     exists gold, gold_str = Some gold /\ 5 <= gold /\
       read_id uid d = true /\ gold <= get_gold uid d) /\
  (fst (snd res) = false ->
     fst res = d \/
     (read_id uid d = false /\ fst res = register_id uid d /\
      get_gold uid (fst res) = 10 /\ exists gold, gold_str = Some gold /\ 5 <= gold)) /\
  (fst (snd res) = true -> forall gold, gold_str = Some gold ->
     0 <= new_gold <= 2 * gold ->
     get_gold uid (fst res) = get_gold uid d - gold + new_gold /\
     get_gold uid d - gold <= get_gold uid (fst res) <= get_gold uid d + gold /\
     0 <= get_gold uid (fst res) /\
     (forall u symbol, holding u symbol (fst res) = holding u symbol d) /\
     (forall other, other <> uid -> fst res !! other = d !! other)).
Proof.
  intros res. subst res. unfold BoomCommand_execute.
  destruct gold_str as [gold|]; cbn [fst snd].
  2:{ split; [split; [discriminate|intros (g & ? & _); discriminate]|].
      split; [auto|discriminate]. }
  destruct (Z.leb_spec gold 0); cbn [fst snd].
  { split; [split; [discriminate|intros (g & [= <-] & ? & _); lia]|].
    split; [auto|discriminate]. }
  destruct (Z.ltb_spec gold 5); cbn [fst snd].
  { split; [split; [discriminate|intros (g & [= <-] & ? & _); lia]|].
    split; [auto|discriminate]. }
  destruct (read_id uid d) eqn:Hreg; cbn [negb fst snd].
  2:{ split; [split; [discriminate|intros (g & _ & _ & ? & _); discriminate]|].
      split; [|discriminate]. intros _. right.
      repeat split; eauto.
      unfold get_gold, register_id. now rewrite lookup_insert_eq. }
  destruct (Z.ltb_spec (get_gold uid d) gold); cbn [fst snd].
  { split; [split; [discriminate|intros (g & [= <-] & _ & _ & ?); lia]|].
    split; [auto|discriminate]. }
  split; [split; eauto|]. split; [discriminate|].
  intros _ g [= <-] Hnew.
  assert (Hg : get_gold uid (add_gold uid new_gold (add_gold uid (- gold) d))
               = get_gold uid d - gold + new_gold).
  { rewrite add_gold_get, add_gold_read_id, add_gold_get, Hreg. lia. }
  rewrite Hg. repeat split; try lia.
  - intros u symbol. now rewrite !add_gold_holding.
  - intros other Hne. now rewrite !add_gold_other.
Qed.

Lemma read_id_alter_credit uid amount d :
  read_id uid (alter (credit amount) uid d) = read_id uid d.
Proof. unfold read_id. rewrite lookup_alter_eq. now destruct (d !! uid). Qed.

(** The result of a check-in by a registered user who has not checked in
    today. *)
Lemma CheckInCommand_execute_ok uid today reward_gold st :
  read_id uid (entries st) = true ->
  (checkins st !! uid) ≫= last_checkin <> Some today ->
  let new_streak :=
    if bool_decide ((checkins st !! uid) ≫= last_checkin = Some (today - 1))
    then default 0 ((checkins st !! uid) ≫= streak) + 1 else 1 in
  CheckInCommand_execute uid today reward_gold st =
  ({| entries := alter (credit (new_streak + reward_gold)) uid (entries st);
      checkins := <[uid := {| last_checkin := Some today;
                              streak := Some new_streak |}]> (checkins st) |},
   (true, MsgCheckedIn new_streak reward_gold (new_streak + reward_gold))).
Proof.
  intros Hreg Hlast. unfold CheckInCommand_execute. rewrite Hreg. cbn [negb].
  destruct (checkins st !! uid) as [c|]; cbn in *.
  - rewrite bool_decide_eq_false_2 by assumption. reflexivity.
  - rewrite bool_decide_eq_false_2 by assumption. reflexivity.
Qed.

(** X23. After a check-in that went through on some day with streak s,
    another check-in on the same day is refused and changes nothing; one on
    the next day goes through with streak s + 1, on any other day with
    streak 1.  The reward of a check-in is its streak plus the drawn coins,
    and a user whose balance is not negative receives exactly that. *)
Theorem CheckInCommand_after_success uid today reward_gold st st1 s r total :
  CheckInCommand_execute uid today reward_gold st
    = (st1, (true, MsgCheckedIn s r total)) ->
  r = reward_gold /\ total = s + reward_gold /\
  get_gold uid (entries st1)
    = Z.max 0 (get_gold uid (entries st) + (s + reward_gold)) /\
  (forall u symbol, holding u symbol (entries st1) = holding u symbol (entries st)) /\
  (forall reward',
     CheckInCommand_execute uid today reward' st1
       = (st1, (false, MsgAlreadyCheckedIn))) /\
  (forall reward',
     snd (CheckInCommand_execute uid (today + 1) reward' st1)
       = (true, MsgCheckedIn (s + 1) reward' (s + 1 + reward'))) /\
  (forall day reward', day <> today -> day <> today + 1 ->
     snd (CheckInCommand_execute uid day reward' st1)
       = (true, MsgCheckedIn 1 reward' (1 + reward'))).
Proof.
  intros Hres. unfold CheckInCommand_execute in Hres.
  destruct (read_id uid (entries st)) eqn:Hreg; cbn [negb] in Hres;
    [|discriminate].
  destruct (bool_decide _) in Hres; [discriminate|].
  injection Hres as <- Hs <- <-.
  assert (Hreg1 : read_id uid (alter (credit (s + reward_gold)) uid (entries st))
                  = true) by now rewrite read_id_alter_credit.
  rewrite Hs. cbn [entries checkins].
  split; [reflexivity|]. split; [reflexivity|]. split; [|split; [|split; [|split]]].
  - unfold get_gold, read_id in *. rewrite lookup_alter_eq.
    destruct (entries st !! uid); [reflexivity|discriminate].
  - intros u symbol. apply holding_alter_credit.
  - intros reward'. unfold CheckInCommand_execute. cbn [entries checkins].
    rewrite Hreg1, lookup_insert_eq. cbn.
    now rewrite bool_decide_eq_true_2.
  - intros reward'. rewrite CheckInCommand_execute_ok; cbn [entries checkins].
    + rewrite lookup_insert_eq. cbn.
      rewrite bool_decide_eq_true_2 by (f_equal; lia). reflexivity.
    + exact Hreg1.
    + rewrite lookup_insert_eq. cbn. intros [= ?]. lia.
  - intros day reward' Hd1 Hd2.
    rewrite CheckInCommand_execute_ok; cbn [entries checkins].
    + rewrite lookup_insert_eq. cbn.
      rewrite bool_decide_eq_false_2 by (intros [= ?]; lia). reflexivity.
    + exact Hreg1.
    + rewrite lookup_insert_eq. cbn. intros [= ?]. lia.
Qed.

Lemma CheckInCommand_after_success_witness :
  let st := {| entries := Plugin.data Samples.trader; checkins := ∅ |} in
  let st1 := fst (CheckInCommand_execute "u" 20000 7 st) in
  CheckInCommand_execute "u" 20000 3 st1 = (st1, (false, MsgAlreadyCheckedIn)) /\
  snd (CheckInCommand_execute "u" 20001 3 st1) = (true, MsgCheckedIn 2 3 5).
Proof.
  intros st st1.
  destruct (CheckInCommand_after_success "u" 20000 7 st st1 1 7 8)
    as (_ & _ & _ & _ & Hsame & Hnext & _).
  - vm_compute. reflexivity.
  - split; [apply Hsame|apply (Hnext 3)].
Defined.

(** X24. The first check-in of an unknown user only registers: it is
    answered with a failure, gives 10 coins and no reward.  A second
    check-in, even on the same day, then goes through with streak 1 and
    leaves 10 + 1 + the drawn coins. *)
Theorem CheckInCommand_first_use uid today reward_gold st :
  read_id uid (entries st) = false ->
  let res := CheckInCommand_execute uid today reward_gold st in
  snd res = (false, MsgRegistered) /\
  get_gold uid (entries (fst res)) = 10 /\
  (forall other, other <> uid ->
     entries (fst res) !! other = entries st !! other) /\
  (forall reward', 0 <= reward' ->
     snd (CheckInCommand_execute uid today reward' (fst res))
       = (true, MsgCheckedIn 1 reward' (1 + reward')) /\
     get_gold uid (entries (fst (CheckInCommand_execute uid today reward' (fst res))))
       = 10 + 1 + reward').
Proof.
  intros Hreg res.
  assert (Hres : res = ({| entries := register_id uid (entries st);
                           checkins := delete uid (checkins st) |},
                        (false, MsgRegistered))).
  { subst res. unfold CheckInCommand_execute. now rewrite Hreg. }
  rewrite Hres. clear Hres res. cbn [fst snd entries checkins].
  assert (Hreg1 : read_id uid (register_id uid (entries st)) = true).
  { unfold read_id, register_id. now rewrite lookup_insert_eq. }
  split; [reflexivity|]. split; [|split].
  - unfold get_gold, register_id. now rewrite lookup_insert_eq.
  - intros other Hne. unfold register_id. now rewrite lookup_insert_ne by congruence.
  - intros reward' Hr.
    rewrite CheckInCommand_execute_ok; cbn [entries checkins fst snd].
    + rewrite lookup_delete_eq. cbn [mbind option_bind].
      rewrite bool_decide_eq_false_2 by discriminate.
      split; [reflexivity|].
      unfold get_gold, register_id. rewrite lookup_alter_eq, lookup_insert_eq.
      cbn. lia.
    + exact Hreg1.
    + rewrite lookup_delete_eq. discriminate.
Qed.

Lemma CheckInCommand_first_use_witness :
  let st := {| entries := ∅; checkins := ∅ |} in
  let res := CheckInCommand_execute "u" 20000 7 st in
  snd res = (false, MsgRegistered) /\ get_gold "u" (entries (fst res)) = 10.
Proof.
  intros st res.
  destruct (CheckInCommand_first_use "u" 20000 7 st) as (H1 & H2 & _).
  - reflexivity.
  - split; [exact H1|exact H2].
Defined.

End Games.
